(** * Verification of modules/reporting/mongodb.py (CAPEv2 MongoDB reporting module)

    A shallow embedding of the [MongoDB] report class: the size profiler
    [debug_dict_size], the key-coercion helper [fix_int2str], the incremental
    fallback [loop_saver] and the save operation [run], together with the
    properties of the written specification that concern them. *)

From Stdlib Require Import ZArith List String Ascii Bool Lia.
From Stdlib Require Import Permutation Sorted DecimalString.
Import ListNotations.

Local Open Scope string_scope.
Local Open Scope list_scope.
Local Open Scope Z_scope.

#[local] Set Warnings "-register-all".

(** ** Python values *)

(** Keys of a Python [dict] as they occur in a report: strings, or the integers
    that the module's error messages complain about. *)
Inductive key : Type :=
| KStr (s : string)
| KInt (z : Z).

(** The document tree.  A [dict] keeps its insertion order, so it is an
    association list; [VOid] is a bson [ObjectId]. *)
Inductive value : Type :=
| VNone
| VBool (b : bool)
| VInt (z : Z)
| VStr (s : string)
| VOid (n : N)
| VList (l : list value)
| VTuple (l : list value)
| VSet (l : list value)
| VDict (d : list (key * value)).

Definition pydict : Type := list (key * value).

Definition key_eqb (a b : key) : bool :=
  match a, b with
  | KStr s, KStr t => String.eqb s t
  | KInt x, KInt y => Z.eqb x y
  | _, _ => false
  end.

(** [==] on values, as far as the store model compares them. *)
Fixpoint value_eqb (a b : value) {struct a} : bool :=
  let fix list_eqb (l : list value) (m : list value) {struct l} : bool :=
    match l, m with
    | [], [] => true
    | x :: l', y :: m' => value_eqb x y && list_eqb l' m'
    | _, _ => false
    end in
  let fix dict_eqb (l : list (key * value)) (m : list (key * value)) {struct l} : bool :=
    match l, m with
    | [], [] => true
    | (k, x) :: l', (k', y) :: m' => key_eqb k k' && value_eqb x y && dict_eqb l' m'
    | _, _ => false
    end in
  match a, b with
  | VNone, VNone => true
  | VBool x, VBool y => Bool.eqb x y
  | VInt x, VInt y => Z.eqb x y
  | VStr x, VStr y => String.eqb x y
  | VOid x, VOid y => N.eqb x y
  | VList l, VList m => list_eqb l m
  | VTuple l, VTuple m => list_eqb l m
  | VSet l, VSet m => list_eqb l m
  | VDict l, VDict m => dict_eqb l m
  | _, _ => false
  end.

(** ** Exceptions and results *)

Inductive exn_class : Type :=
| IndexError | KeyError | TypeError | ValueError | AttributeError | RuntimeError
| InvalidDocument      (* pymongo.errors.InvalidDocument and its subclasses *)
| ConnectionFailure    (* pymongo.errors.ConnectionFailure *)
| PyMongoError         (* any other error of the store client *)
| CuckooReportError
| CuckooDependencyError.

Record exn : Type := Exn { exn_cls : exn_class; exn_msg : string }.

Inductive result (A : Type) : Type :=
| Ok (a : A)
| Raise (e : exn).
Arguments Ok {A} a.
Arguments Raise {A} e.

Definition rbind {A B} (r : result A) (f : A -> result B) : result B :=
  match r with
  | Ok a => f a
  | Raise e => Raise e
  end.

(** ** Dictionary operations *)

(** [d.get(k)] / [d[k]] *)
Fixpoint dict_get (k : key) (d : pydict) : option value :=
  match d with
  | [] => None
  | (k', v) :: d' => if key_eqb k k' then Some v else dict_get k d'
  end.

(** [k in d] *)
Definition dict_mem (k : key) (d : pydict) : bool :=
  match dict_get k d with Some _ => true | None => false end.

(** [d[k] = v]: an existing key keeps its place, a new one goes last. *)
Fixpoint dict_set (k : key) (v : value) (d : pydict) : pydict :=
  match d with
  | [] => [(k, v)]
  | (k', v') :: d' => if key_eqb k k' then (k', v) :: d' else (k', v') :: dict_set k v d'
  end.

(** [del d[k]] on a present key (the callers check presence). *)
Fixpoint dict_del (k : key) (d : pydict) : pydict :=
  match d with
  | [] => []
  | (k', v') :: d' => if key_eqb k k' then d' else (k', v') :: dict_del k d'
  end.

Definition dict_keys (d : pydict) : list key := map fst d.

(** [len(s)] *)
Definition py_len (s : string) : Z := Z.of_nat (String.length s).

(** ** Module constants *)

Definition MONGOSIZELIMIT : Z := 0x1000000.
Definition MEGABYTE : Z := 0x100000.
Definition SCHEMA_VERSION : string := "1".

(** ** The size profiler: [debug_dict_size] *)

(** [totals[root] += n] *)
Fixpoint totals_add (root : key) (n : Z) (totals : list (key * Z)) : list (key * Z) :=
  match totals with
  | [] => []
  | (k, t) :: rest =>
      if key_eqb root k then (k, t + n) :: rest else (k, t) :: totals_add root n rest
  end.

(** [totals = dict((k, 0) for k in dct)] *)
Fixpoint totals_init (ks : list key) (totals : list (key * Z)) : list (key * Z) :=
  match ks with
  | [] => totals
  | k :: ks' =>
      totals_init ks'
        (if existsb (fun kt => key_eqb k (fst kt)) totals then totals_add k 0 totals
         else totals ++ [(k, 0)])
  end.

(** The inner function [walk(root, key, val)]; its [key] argument is never
    read.  The [totals] dictionary it closes over is threaded through. *)
Fixpoint walk (root : key) (val : value) (totals : list (key * Z)) {struct val}
  : list (key * Z) :=
  let fix walk_items (items : list (key * value)) (totals : list (key * Z)) :=
    match items with
    | [] => totals
    | (_, v) :: rest => walk_items rest (walk root v totals)
    end in
  let fix walk_elems (els : list value) (totals : list (key * Z)) :=
    match els with
    | [] => totals
    | el :: rest => walk_elems rest (walk root el totals)
    end in
  match val with
  | VDict d => walk_items d totals
  | VList l | VTuple l | VSet l => walk_elems l totals
  | VStr s => totals_add root (py_len s) totals
  | _ => totals
  end.

(** [for key, val in dct.items(): walk(key, key, val)] *)
Fixpoint walk_top (items : pydict) (totals : list (key * Z)) : list (key * Z) :=
  match items with
  | [] => totals
  | (k, v) :: rest => walk_top rest (walk k v totals)
  end.

(** [sorted(..., key=lambda item: item[1], reverse=True)]: a stable sort into
    descending order; equal totals keep the order of the input. *)
Fixpoint insert_desc (x : key * Z) (l : list (key * Z)) : list (key * Z) :=
  match l with
  | [] => [x]
  | y :: l' => if snd x <? snd y then y :: insert_desc x l' else x :: l
  end.

Fixpoint sorted_desc (l : list (key * Z)) : list (key * Z) :=
  match l with
  | [] => []
  | x :: l' => insert_desc x (sorted_desc l')
  end.

(** Whether a value can be a dictionary key ([hash] succeeds). *)
Fixpoint hashable (v : value) : bool :=
  match v with
  | VList _ | VSet _ | VDict _ => false
  | VTuple l => forallb hashable l
  | _ => true
  end.

(** The body of [debug_dict_size] once [dct] is no longer replaced. *)
Definition profile (dct : value) : result (list (key * Z)) :=
  match dct with
  | VDict d =>
      Ok (sorted_desc (walk_top d (totals_init (dict_keys d) [])))
  | VStr _ =>
      (* the generator runs over the characters, then [dct.items] fails *)
      Raise (Exn AttributeError "'str' object has no attribute 'items'")
  | VList l | VTuple l | VSet l =>
      if forallb hashable l
      then Raise (Exn AttributeError "object has no attribute 'items'")
      else Raise (Exn TypeError "unhashable type")
  | _ => Raise (Exn TypeError "object is not iterable")
  end.

Definition debug_dict_size (dct : value) : result (list (key * Z)) :=
  match dct with
  | VList [] => Raise (Exn IndexError "list index out of range")
  | VList (first :: _) => profile first
  | _ => profile dct
  end.

(** The specification's measure: the total character length of all string
    scalars reachable beneath a value. *)
Fixpoint string_chars (v : value) : Z :=
  match v with
  | VStr s => py_len s
  | VList l | VTuple l | VSet l => fold_right (fun el n => string_chars el + n) 0 l
  | VDict d => fold_right (fun kv n => string_chars (snd kv) + n) 0 d
  | _ => 0
  end.

(** ** Logging *)

(** One constructor per logging call of the module, with the arguments that
    the format string receives. *)
Inductive log_entry : Type :=
| LogBadKey (path : string)                        (* error "BAD KEY: %s" *)
| LogMissingInfo (keys : list key)                 (* error "Missing 'info' key: %s" *)
| LogInvestigateKey (k : key)                      (* warning "Investigate your key: %s" *)
| LogDeleting (task : value)                       (* debug "Deleting analysis data for Task %s" *)
| LogDeleted (task : value)                        (* debug "Deleted previous MongoDB data for Task %s" *)
| LogLargestParentKey (k : key) (mb : Z)           (* warning "Largest parent key: %s (%d MB)" *)
| LogChildDeleted (parent child : key) (csize : Z) (* warn "results['%s']['%s'] deleted due to size: %s" *)
| LogSearchBug                                     (* error "Search bug in your modifications - ..." *)
| LogError (msg : string)                          (* error str(e) *)
| LogFailedDelete (e : exn).                       (* error "Failed to delete child key: %s" *)

(** ** The key-coercion helper: [fix_int2str] *)

(** [str(k)] *)
Definition str_of_Z (z : Z) : string := NilZero.string_of_int (Z.to_int z).

Definition key_str (k : key) : string :=
  match k with
  | KStr s => s
  | KInt z => str_of_Z z
  end.

(** [".".join([a, b])] *)
Definition dot_join (a b : string) : string := (a ++ "." ++ b)%string.

(** [dictionary.pop(k)] *)
Definition dict_pop (k : key) (d : pydict) : option (value * pydict) :=
  match dict_get k d with
  | Some v => Some (v, dict_del k d)
  | None => None
  end.

(** The method calls [dictionary.iteritems()], which a Python 2 [dict] has and
    a Python 3 [dict] has not. *)
Inductive python : Type := Python2 | Python3.

(** [fix_int2str] mutates its argument, so the model returns the dictionary as
    the call leaves it, together with the log lines written and the way the
    call ended.

    Under [Python2] the loop visits the entries the dictionary holds when the
    loop starts, each once and in order, while [pop] and item assignment act on
    the live dictionary.  A visited value is the object found at the start: if
    an earlier coercion has rebound its key ([renamed]), that object is no
    longer in the dictionary and what the recursive call does to it is not
    seen. *)
Fixpoint fix_int2str_py2 (dictionary : value) (current_key_tree : string) {struct dictionary}
  : result unit * value * list log_entry :=
  let fix in_list (tree : string) (els : list value) {struct els}
    : result unit * list value * list log_entry :=
    match els with
    | [] => (Ok tt, [], [])
    | d :: rest =>
        let '(r, d', lg) :=
          match d with
          | VDict _ => fix_int2str_py2 d tree
          | _ => (Ok tt, d, [])
          end in
        match r with
        | Raise e => (Raise e, d' :: rest, lg)
        | Ok _ => let '(r', rest', lg') := in_list tree rest in (r', d' :: rest', lg ++ lg')
        end
    end in
  let fix loop (items : list (key * value)) (live : pydict) (renamed : list string)
      {struct items} : result unit * pydict * list log_entry :=
    match items with
    | [] => (Ok tt, live, [])
    | (k, v) :: rest =>
        match k with
        | KInt z =>
            let entry := LogBadKey (dot_join current_key_tree (key_str k)) in
            match dict_pop k live with
            | None => (Raise (Exn KeyError (key_str k)), live, [entry])
            | Some (popped, live') =>
                let '(r, live'', lg) :=
                  loop rest (dict_set (KStr (key_str k)) popped live') (key_str k :: renamed) in
                (r, live'', entry :: lg)
            end
        | KStr s =>
            let visible := negb (existsb (String.eqb s) renamed) in
            let '(r, v', lg) :=
              match v with
              | VDict _ => fix_int2str_py2 v (dot_join current_key_tree s)
              | VList l =>
                  let '(r, l', lg) := in_list (dot_join current_key_tree s) l in
                  (r, VList l', lg)
              | _ => (Ok tt, v, [])
              end in
            let live' := if visible then dict_set k v' live else live in
            match r with
            | Raise e => (Raise e, live', lg)
            | Ok _ => let '(r', live'', lg') := loop rest live' renamed in (r', live'', lg ++ lg')
            end
        end
    end in
  match dictionary with
  | VDict d => let '(r, d', lg) := loop d d [] in (r, VDict d', lg)
  | _ => (Raise (Exn AttributeError "object has no attribute 'iteritems'"), dictionary, [])
  end.

Definition fix_int2str (py : python) (dictionary : pydict) (current_key_tree : string)
  : result unit * pydict * list log_entry :=
  match py with
  | Python3 =>
      (Raise (Exn AttributeError "'dict' object has no attribute 'iteritems'"), dictionary, [])
  | Python2 =>
      match fix_int2str_py2 (VDict dictionary) current_key_tree with
      | (r, VDict d', lg) => (r, d', lg)
      | (r, _, lg) => (r, dictionary, lg)
      end
  end.

Definition is_str_key (k : key) : bool :=
  match k with KStr _ => true | KInt _ => false end.

(** Every mapping key at every nesting depth is a string. *)
Fixpoint keys_all_str (v : value) : bool :=
  match v with
  | VDict d => forallb (fun kv => is_str_key (fst kv) && keys_all_str (snd kv)) d
  | VList l | VTuple l | VSet l => forallb keys_all_str l
  | _ => true
  end.

(** ** Python built-ins used by [run] *)

(** [bool(v)] *)
Definition truthy (v : value) : bool :=
  match v with
  | VNone => false
  | VBool b => b
  | VInt z => negb (z =? 0)
  | VStr s => negb (String.eqb s "")
  | VOid _ => true
  | VList l | VTuple l | VSet l => match l with [] => false | _ => true end
  | VDict d => match d with [] => false | _ => true end
  end.

(** [v[s]] for a string subscript *)
Definition py_getitem (v : value) (s : string) : result value :=
  match v with
  | VDict d =>
      match dict_get (KStr s) d with
      | Some x => Ok x
      | None => Raise (Exn KeyError s)
      end
  | VStr _ => Raise (Exn TypeError "string indices must be integers")
  | VList _ | VTuple _ => Raise (Exn TypeError "indices must be integers or slices, not str")
  | _ => Raise (Exn TypeError "object is not subscriptable")
  end.

(** [v[s] = x] for a string subscript *)
Definition py_setitem (v : value) (s : string) (x : value) : result value :=
  match v with
  | VDict d => Ok (VDict (dict_set (KStr s) x d))
  | VList _ => Raise (Exn TypeError "list indices must be integers or slices, not str")
  | _ => Raise (Exn TypeError "object does not support item assignment")
  end.

(** [v.get(s, default)] *)
Definition py_get (v : value) (s : string) (default : value) : result value :=
  match v with
  | VDict d =>
      match dict_get (KStr s) d with
      | Some x => Ok x
      | None => Ok default
      end
  | _ => Raise (Exn AttributeError "object has no attribute 'get'")
  end.

Definition chars_of (s : string) : list value :=
  map (fun c => VStr (String c EmptyString)) (list_ascii_of_string s).

Definition value_of_key (k : key) : value :=
  match k with
  | KStr s => VStr s
  | KInt z => VInt z
  end.

(** [for x in v] *)
Definition py_iter (v : value) : result (list value) :=
  match v with
  | VList l | VTuple l | VSet l => Ok l
  | VDict d => Ok (map value_of_key (dict_keys d))
  | VStr s => Ok (chars_of s)
  | _ => Raise (Exn TypeError "object is not iterable")
  end.

Fixpoint remove_nth {A} (n : nat) (l : list A) : list A :=
  match l, n with
  | [], _ => []
  | _ :: l', O => l'
  | x :: l', S n' => x :: remove_nth n' l'
  end.

(** [del v[k]] *)
Definition py_delitem (v : value) (k : key) : result value :=
  match v with
  | VDict d =>
      if dict_mem k d then Ok (VDict (dict_del k d))
      else Raise (Exn KeyError (key_str k))
  | VList l =>
      match k with
      | KInt z =>
          let n := Z.of_nat (List.length l) in
          let i := if z <? 0 then z + n else z in
          if (0 <=? i) && (i <? n) then Ok (VList (remove_nth (Z.to_nat i) l))
          else Raise (Exn IndexError "list assignment index out of range")
      | KStr _ => Raise (Exn TypeError "list indices must be integers or slices, not str")
      end
  | _ => Raise (Exn TypeError "object does not support item deletion")
  end.

(** ** The store and the state of a save *)

(** The three collections the module touches.  [cuckoo_schema] is [None] while
    the collection does not exist.  [next_oid] numbers the [ObjectId]s that the
    client generates. *)
Record store : Type := mkStore {
  analysis : list pydict;
  calls : list pydict;
  cuckoo_schema : option (list pydict);
  next_oid : N
}.

(** The calls made on the store client, in the order they are made. *)
Inductive store_op : Type :=
| OpListCollections
| OpSchemaFindOne
| OpSchemaInsert (doc : pydict)
| OpInsertCalls
| OpCreateIndex (name : string)
| OpAnalysisFind (task : Z)
| OpCallsDeleteMany (ids : list value)
| OpAnalysisDeleteOne (id : value)
| OpAnalysisInsert (doc : pydict)
| OpAnalysisUpdate (id : value) (k : key) (v : value)
| OpClose.

Record world : Type := mkWorld {
  db : store;
  conn_open : bool;        (* [self.conn] is an open client *)
  logged : list log_entry;
  ops : list store_op
}.

Definition set_db (f : store -> store) (w : world) : world :=
  mkWorld (f (db w)) (conn_open w) (logged w) (ops w).
Definition set_conn (b : bool) (w : world) : world :=
  mkWorld (db w) b (logged w) (ops w).
Definition add_log (lg : list log_entry) (w : world) : world :=
  mkWorld (db w) (conn_open w) (logged w ++ lg) (ops w).
Definition add_op (o : store_op) (w : world) : world :=
  mkWorld (db w) (conn_open w) (logged w) (ops w ++ [o]).

Definition set_analysis (a : list pydict) (s : store) : store :=
  mkStore a (calls s) (cuckoo_schema s) (next_oid s).
Definition set_calls (c : list pydict) (s : store) : store :=
  mkStore (analysis s) c (cuckoo_schema s) (next_oid s).
Definition set_schema (c : option (list pydict)) (s : store) : store :=
  mkStore (analysis s) (calls s) c (next_oid s).
Definition set_next_oid (n : N) (s : store) : store :=
  mkStore (analysis s) (calls s) (cuckoo_schema s) n.

(** A computation that reads and writes the world and may raise; what it did
    to the world before raising stays done. *)
Definition M (A : Type) : Type := world -> result A * world.

Definition ret {A} (a : A) : M A := fun w => (Ok a, w).
Definition raise {A} (e : exn) : M A := fun w => (Raise e, w).
Definition bind {A B} (c : M A) (f : A -> M B) : M B :=
  fun w =>
    match c w with
    | (Ok a, w') => f a w'
    | (Raise e, w') => (Raise e, w')
    end.
Definition lift {A} (r : result A) : M A := fun w => (r, w).

(** [try: c  except cls as e: handler(e)] *)
Definition try_except {A} (c : M A) (catches : exn_class -> bool) (handler : exn -> M A) : M A :=
  fun w =>
    match c w with
    | (Ok a, w') => (Ok a, w')
    | (Raise e, w') => if catches (exn_cls e) then handler e w' else (Raise e, w')
    end.

Declare Scope py_scope.
Delimit Scope py_scope with py.
Notation "x <- c ;; k" := (bind c (fun x => k))
  (at level 100, c at next level, right associativity) : py_scope.
Notation "' p <- c ;; k" := (bind c (fun x => let 'p := x in k))
  (at level 100, p pattern, c at next level, right associativity) : py_scope.
Notation "c ;; k" := (bind c (fun _ => k))
  (at level 100, right associativity) : py_scope.
Local Open Scope py_scope.

Definition write_log (lg : list log_entry) : M unit := fun w => (Ok tt, add_log lg w).
Definition record_op (o : store_op) : M unit := fun w => (Ok tt, add_op o w).

(** [for x in l: body(x)] *)
Fixpoint py_for {A} (l : list A) (body : A -> M unit) : M unit :=
  match l with
  | [] => ret tt
  | x :: rest => body x ;; py_for rest body
  end.

Definition is_InvalidDocument (c : exn_class) : bool :=
  match c with InvalidDocument => true | _ => false end.

(** [except Exception]: every exception class of the model derives from it. *)
Definition is_Exception (c : exn_class) : bool := true.

(** [s.endswith(suffix)] *)
Definition endswith (s suffix : string) : bool :=
  let n := String.length s in
  let m := String.length suffix in
  (m <=? n)%nat && String.eqb (substring (n - m) m s) suffix.

(** [s.startswith(p)] *)
Definition startswith (s p : string) : bool := String.prefix p s.

(** ** Collaborators *)

(** What [run] takes from outside this file: the client library, the report
    assembly of [modules.reporting.report_doc] and the verdicts of the store.
    [insert_calls] receives the report, the [calls] collection and the
    [ObjectId] counter, and returns the new process records with the collection
    and the counter as it leaves them. *)
Record environment : Type := mkEnv {
  HAVE_MONGO : bool;
  mongo_client : pydict -> result unit;          (* MongoClient(host, port=..., ...) *)
  int_of_str : string -> result Z;               (* int(s) on a string *)
  get_json_document : pydict -> pydict;
  insert_calls : pydict -> list pydict -> N -> result value * list pydict * N;
  sanitize : string -> string;                   (* one string made valid UTF-8 *)
  insert_verdict : pydict -> result unit;        (* analysis.insert_one: accepted or raised *)
  update_verdict : key -> value -> result unit   (* analysis.update_one with {"$set": {k: v}} *)
}.

(** Which way [run] ended.  [run] itself returns [None]; the model returns the
    path taken and the report as the call leaves it in memory. *)
Inductive outcome : Type :=
| Saved                (* the direct insert was accepted *)
| Diagnosed            (* rejected, largest key logged, nothing stored *)
| Remediated           (* a retry inside the loop was accepted *)
| RemediationFailed    (* the loop ended in its [except Exception] *)
| LoopSaved            (* handed to [loop_saver] *)
| RemediationAborted.  (* the retry reported non-string keys *)

Inductive exit : Type :=
| FallThrough (o : outcome)   (* control reached the end of the body *)
| EarlyReturn (o : outcome)   (* a [return] statement *)
| Exhausted.                  (* the [while] loop was still running *)

Definition doc_id (d : pydict) : option value := dict_get (KStr "_id") d.

Definition has_id (id : value) (d : pydict) : bool :=
  match doc_id d with
  | Some i => value_eqb i id
  | None => false
  end.

(** The query [{"info.id": task}], for a document whose [info.id] is an
    integer; the matching of arrays and of other numeric types is not
    modelled. *)
Definition task_matches (task : Z) (d : pydict) : bool :=
  match dict_get (KStr "info") d with
  | Some (VDict info) =>
      match dict_get (KStr "id") info with
      | Some (VInt z) => z =? task
      | _ => false
      end
  | _ => false
  end.

(** The query [{"_id": {"$in": ids}}]. *)
Definition id_in (ids : list value) (d : pydict) : bool :=
  match doc_id d with
  | Some i => existsb (value_eqb i) ids
  | None => false
  end.

Fixpoint remove_first {A} (p : A -> bool) (l : list A) : list A :=
  match l with
  | [] => []
  | x :: l' => if p x then l' else x :: remove_first p l'
  end.

Fixpoint update_first {A} (p : A -> bool) (f : A -> A) (l : list A) : list A :=
  match l with
  | [] => []
  | x :: l' => if p x then f x :: l' else x :: update_first p f l'
  end.

(** [keys.remove(k)] on a list that holds [k] *)
Definition list_remove (k : key) (ks : list key) : list key :=
  remove_first (key_eqb k) ks.

(** [debug_dict_size(v)[0]] *)
Definition largest (v : value) : result (key * Z) :=
  rbind (debug_dict_size v)
        (fun l => match l with
                  | [] => Raise (Exn IndexError "list index out of range")
                  | x :: _ => Ok x
                  end).

(** [int(v)] *)
Definition py_int (int_of_str : string -> result Z) (v : value) : result Z :=
  match v with
  | VInt z => Ok z
  | VBool b => Ok (if b then 1 else 0)
  | VStr s => int_of_str s
  | _ => Raise (Exn TypeError "int() argument must be a string or a number")
  end.

Section Reporting.

Variable env : environment.
(** [self.options] *)
Variable options : pydict.

(** *** Store client *)

Definition connect : M unit :=
  fun w =>
    match mongo_client env options with
    | Ok _ => (Ok tt, set_conn true w)
    | Raise e =>
        match exn_cls e with
        | TypeError =>
            (Raise (Exn CuckooReportError "Mongo connection port must be integer"), w)
        | ConnectionFailure =>
            (Raise (Exn CuckooReportError "Cannot connect to MongoDB"), w)
        | _ => (Raise e, w)
        end
    end.

(** [self.conn.close()] *)
Definition conn_close : M unit :=
  fun w => (Ok tt, set_conn false (add_op OpClose w)).

(** [self.db.list_collection_names()] (or [collection_names()]), as far as
    [cuckoo_schema] goes *)
Definition schema_collection_listed : M bool :=
  fun w =>
    (Ok (match cuckoo_schema (db w) with Some _ => true | None => false end),
     add_op OpListCollections w).

(** [self.db.cuckoo_schema.find_one()] *)
Definition schema_find_one : M (option pydict) :=
  fun w =>
    (Ok (match cuckoo_schema (db w) with
         | Some (d :: _) => Some d
         | _ => None
         end),
     add_op OpSchemaFindOne w).

(** The first half of pymongo's [insert_one]: a document without ["_id"] is
    given a fresh [ObjectId], in place, before anything is sent. *)
Definition with_id (doc : pydict) : M pydict :=
  fun w =>
    if dict_mem (KStr "_id") doc then (Ok doc, w)
    else (Ok (dict_set (KStr "_id") (VOid (next_oid (db w))) doc),
          set_db (set_next_oid (N.succ (next_oid (db w)))) w).

(** [self.db.cuckoo_schema.insert_one(doc)] *)
Definition schema_insert_one (doc : pydict) : M unit :=
  doc <- with_id doc ;;
  fun w =>
    (Ok tt,
     set_db (set_schema (Some (match cuckoo_schema (db w) with
                               | Some l => l ++ [doc]
                               | None => [doc]
                               end)))
            (add_op (OpSchemaInsert doc) w)).

(** The second half of [self.db.analysis.insert_one(doc)]: the store accepts
    the document or the call raises; ["_id"] is unique in a collection. *)
Definition analysis_insert_one (doc : pydict) : M unit :=
  fun w =>
    let w := add_op (OpAnalysisInsert doc) w in
    match insert_verdict env doc with
    | Raise e => (Raise e, w)
    | Ok _ =>
        match doc_id doc with
        | None => (Raise (Exn InvalidDocument "document has no _id"), w)
        | Some id =>
            if existsb (has_id id) (analysis (db w))
            then (Raise (Exn PyMongoError "E11000 duplicate key error"), w)
            else (Ok tt, set_db (set_analysis (analysis (db w) ++ [doc])) w)
        end
    end.

(** [self.db.analysis.update_one({"_id": id}, {"$set": {k: v}}, ...)] *)
Definition analysis_update_one (id : value) (k : key) (v : value) : M unit :=
  fun w =>
    let w := add_op (OpAnalysisUpdate id k v) w in
    match update_verdict env k v with
    | Raise e => (Raise e, w)
    | Ok _ =>
        (Ok tt, set_db (set_analysis (update_first (has_id id) (dict_set k v)
                                                    (analysis (db w)))) w)
    end.

(** [self.db.analysis.find({"info.id": task})] *)
Definition analysis_find (task : Z) : M (list pydict) :=
  fun w => (Ok (filter (task_matches task) (analysis (db w))), add_op (OpAnalysisFind task) w).

(** [self.db.calls.delete_many({"_id": {"$in": ids}})] *)
Definition calls_delete_many (ids : value) : M unit :=
  fun w =>
    match ids with
    | VList l | VTuple l =>
        (Ok tt,
         set_db (set_calls (filter (fun d => negb (id_in l d)) (calls (db w))))
                (add_op (OpCallsDeleteMany l) w))
    | _ => (Raise (Exn PyMongoError "$in needs an array"), w)
    end.

(** [self.db.analysis.delete_one({"_id": id})] *)
Definition analysis_delete_one (id : value) : M unit :=
  fun w =>
    (Ok tt,
     set_db (set_analysis (remove_first (has_id id) (analysis (db w))))
            (add_op (OpAnalysisDeleteOne id) w)).

(** [self.db.analysis.create_index(...)] *)
Definition create_index (name : string) : M unit := record_op (OpCreateIndex name).

(** *** [loop_saver] *)

(** Lines 102-107, for one key *)
Definition update_key (report : pydict) (inserted_id : value) (key : key) : M unit :=
  try_except
    (match dict_get key report with
     | Some v => analysis_update_one inserted_id key v
     | None => raise (Exn KeyError (key_str key))
     end)
    is_InvalidDocument
    (fun e => write_log [LogInvestigateKey key]).

Definition loop_saver (report : pydict) : M unit :=
  let keys := dict_keys report in
  if negb (existsb (key_eqb (KStr "info")) keys) then
    write_log [LogMissingInfo keys]
  else
    let keys := if existsb (key_eqb (KStr "_id")) keys
                then list_remove (KStr "_id") keys else keys in
    info <- lift (py_getitem (VDict report) "info") ;;
    minimal <- with_id [(KStr "info", info)] ;;
    analysis_insert_one minimal ;;
    inserted_id <- lift (py_getitem (VDict minimal) "_id") ;;
    let keys := list_remove (KStr "info") keys in
    py_for keys (update_key report inserted_id).

(** *** The steps of [run] *)

(** Lines 130-134.  On a version mismatch the exception object is built and
    dropped: there is no [raise]. *)
Definition check_schema : M unit :=
  listed <- schema_collection_listed ;;
  if listed then
    found <- schema_find_one ;;
    version <- lift (match found with
                     | Some d => py_getitem (VDict d) "version"
                     | None => Raise (Exn TypeError "'NoneType' object is not subscriptable")
                     end) ;;
    if negb (value_eqb version (VStr SCHEMA_VERSION)) then
      let _ := Exn CuckooReportError
                   "Mongo schema version not expected, check data migration tool" in
      ret tt
    else ret tt
  else schema_insert_one [(KStr "version", VStr SCHEMA_VERSION)].

(** [dict(v)]: a copy of a mapping, or the mapping built from a sequence of
    key/value pairs.  Keys other than strings and integers are outside
    [key]. *)
Fixpoint dict_of_pairs (pairs : list value) (acc : pydict) : result pydict :=
  match pairs with
  | [] => Ok acc
  | VList [VStr s; v] :: rest | VTuple [VStr s; v] :: rest =>
      dict_of_pairs rest (dict_set (KStr s) v acc)
  | VList [VInt z; v] :: rest | VTuple [VInt z; v] :: rest =>
      dict_of_pairs rest (dict_set (KInt z) v acc)
  | _ => Raise (Exn TypeError "cannot convert dictionary update sequence")
  end.

Definition py_dict (v : value) : result pydict :=
  match v with
  | VDict d => Ok d
  | VList l | VTuple l => dict_of_pairs l []
  | _ => Raise (Exn TypeError "object is not iterable")
  end.

(** Lines 139-147 *)
Definition build_report (results : pydict) : M pydict :=
  let report := get_json_document env results in
  let report := if negb (dict_mem (KStr "network") report)
                then dict_set (KStr "network") (VDict []) report else report in
  new_processes <-
    (fun w =>
       let '(r, calls', oid') := insert_calls env report (calls (db w)) (next_oid (db w)) in
       (r, set_db (fun s => set_next_oid oid' (set_calls calls' s)) (add_op OpInsertCalls w))) ;;
  behavior <- lift (py_getitem (VDict report) "behavior") ;;
  behavior <- lift (py_dict behavior) ;;
  ret (dict_set (KStr "behavior")
                (VDict (dict_set (KStr "processes") new_processes behavior)) report).

(** Lines 162-163: the task identifier of the run options takes precedence. *)
Definition resolve_task_id (results report : pydict) : result pydict :=
  rbind (py_get (VDict results) "info" (VDict [])) (fun info =>
  rbind (py_get info "options" (VDict [])) (fun opts =>
  rbind (py_get opts "main_task_id" (VStr "")) (fun main_task_id =>
  if truthy main_task_id then
    rbind (py_int (int_of_str env) main_task_id) (fun n =>
    rbind (py_getitem (VDict report) "info") (fun rinfo =>
    rbind (py_setitem rinfo "id" (VInt n)) (fun rinfo' =>
    Ok (dict_set (KStr "info") rinfo' report))))
  else Ok report))).

(** [report["info"]["id"]] *)
Definition report_task (report : pydict) : result value :=
  rbind (py_getitem (VDict report) "info") (fun info => py_getitem info "id").

(** Line 170, for one process record *)
Definition evict_calls (process : value) : M unit :=
  ids <- lift (py_getitem process "calls") ;;
  calls_delete_many ids.

(** Lines 169-171, for one stored analysis *)
Definition evict_analysis (stored : pydict) : M unit :=
  behavior <- lift (py_getitem (VDict stored) "behavior") ;;
  processes <- lift (py_get behavior "processes" (VList [])) ;;
  processes <- lift (py_iter (if truthy processes then processes else VList [])) ;;
  py_for processes evict_calls ;;
  id <- lift (py_getitem (VDict stored) "_id") ;;
  analysis_delete_one id.

(** Lines 165-172.  A cursor is always true, so both debug lines are
    written. *)
Definition evict (report : pydict) : M unit :=
  task_value <- lift (report_task report) ;;
  task <- lift (py_int (int_of_str env) task_value) ;;
  analyses <- analysis_find task ;;
  task_value <- lift (report_task report) ;;
  write_log [LogDeleting task_value] ;;
  py_for analyses evict_analysis ;;
  task_value <- lift (report_task report) ;;
  write_log [LogDeleted task_value].

(** Modelled from the spec: [ensure_valid_utf8] of
    [modules.reporting.report_doc] is not part of the sources at hand.  It
    "ensures all string scalars in a document tree are valid under the
    store's required text encoding, rewriting invalid byte sequences in
    place (replacement, not rejection)": every string scalar under
    mappings and sequences is replaced by its sanitized form, and nothing
    else changes. *)
Fixpoint ensure_valid_utf8 (v : value) : value :=
  match v with
  | VStr s => VStr (sanitize env s)
  | VList l => VList (map ensure_valid_utf8 l)
  | VDict d => VDict (map (fun kv => (fst kv, ensure_valid_utf8 (snd kv))) d)
  | _ => v
  end.

Definition ensure_valid_utf8_report (report : pydict) : pydict :=
  map (fun kv => (fst kv, ensure_valid_utf8 (snd kv))) report.

(** *** The oversize remediation *)

(** Lines 199-202 (and 204-207) for one profiled object: its largest key is
    deleted when it is larger than the threshold. *)
Definition prune (parent_key : key) (size_filter : Z) (obj : value)
  : result value * list log_entry :=
  match largest obj with
  | Raise e => (Raise e, [])
  | Ok (child_key, csize) =>
      if csize >? size_filter
      then (py_delitem obj child_key, [LogChildDeleted parent_key child_key csize])
      else (Ok obj, [])
  end.

(** Lines 198-202: the elements before the one that raises stay pruned. *)
Fixpoint prune_each (parent_key : key) (size_filter : Z) (els : list value)
  : result unit * list value * list log_entry :=
  match els with
  | [] => (Ok tt, [], [])
  | el :: rest =>
      match prune parent_key size_filter el with
      | (Raise e, lg) => (Raise e, el :: rest, lg)
      | (Ok el', lg) =>
          let '(r, rest', lg') := prune_each parent_key size_filter rest in
          (r, el' :: rest', lg ++ lg')
      end
  end.

(** Lines 197-207: how the deletion ended, the report as it leaves it, and
    the lines logged. *)
Definition delete_children (report : pydict) (parent_key : key) (size_filter : Z)
  : result unit * pydict * list log_entry :=
  match dict_get parent_key report with
  | None => (Raise (Exn KeyError (key_str parent_key)), report, [])
  | Some (VList l) =>
      let '(r, l', lg) := prune_each parent_key size_filter l in
      (r, dict_set parent_key (VList l') report, lg)
  | Some obj =>
      match prune parent_key size_filter obj with
      | (Raise e, lg) => (Raise e, report, lg)
      | (Ok obj', lg) => (Ok tt, dict_set parent_key obj' report, lg)
      end
  end.

(** What one pass of the [while] loop decides. *)
Inductive pass : Type :=
| Stop (e : exit)
| Again (parent_key : key) (size_filter : Z).

(** Lines 196-223: one pass.  [report] is a dictionary, so lines 194-195 do
    nothing. *)
Definition remediation_pass (report : pydict) (parent_key : key) (size_filter : Z)
  : M (pass * pydict) :=
  let '(r, report', lg) := delete_children report parent_key size_filter in
  try_except
    (write_log lg ;;
     lift r ;;
     report' <- with_id report' ;;
     try_except
       (analysis_insert_one report' ;;
        ret (Stop (FallThrough Remediated), report'))
       is_InvalidDocument
       (fun e =>
          if startswith (exn_msg e) "documents must have only string keys" then
            write_log [LogSearchBug; LogError (exn_msg e)] ;;
            ret (Stop (EarlyReturn RemediationAborted), report')
          else
            ' (parent_key', psize) <- lift (largest (VDict report')) ;;
            write_log [LogError (exn_msg e);
                       LogLargestParentKey parent_key' (psize / MEGABYTE)] ;;
            ret (Again parent_key' (size_filter - MEGABYTE), report')))
    is_Exception
    (fun e =>
       write_log [LogFailedDelete e] ;;
       ret (Stop (FallThrough RemediationFailed), report')).

(** Lines 193-223: [fuel] bounds the number of passes that are run. *)
Fixpoint remediation_loop (fuel : nat) (report : pydict) (parent_key : key) (size_filter : Z)
  : M (exit * pydict) :=
  match fuel with
  | O => ret (Exhausted, report)
  | S fuel' =>
      ' (p, report') <- remediation_pass report parent_key size_filter ;;
      match p with
      | Stop e => ret (e, report')
      | Again parent_key' size_filter' =>
          remediation_loop fuel' report' parent_key' size_filter'
      end
  end.

(** [self.options.get("fix_large_docs", False)], as a condition *)
Definition fix_large_docs : bool :=
  truthy (match dict_get (KStr "fix_large_docs") options with
          | Some v => v
          | None => VBool false
          end).

(** Lines 177-223 *)
Definition store_report (fuel : nat) (report : pydict) : M (exit * pydict) :=
  report <- with_id report ;;
  try_except
    (analysis_insert_one report ;;
     ret (FallThrough Saved, report))
    is_InvalidDocument
    (fun e =>
       if startswith (exn_msg e) "cannot encode object"
          || endswith (exn_msg e) "must not contain '.'"
       then
         loop_saver report ;;
         ret (EarlyReturn LoopSaved, report)
       else
         ' (parent_key, psize) <- lift (largest (VDict report)) ;;
         if negb fix_large_docs
         then
           write_log [LogLargestParentKey parent_key (psize / MEGABYTE)] ;;
           ret (FallThrough Diagnosed, report)
         else
           remediation_loop fuel report parent_key MONGOSIZELIMIT).

(** *** [run] *)

(** Lines 116-175: everything before the direct insert. *)
Definition prepare (results : pydict) : M pydict :=
  (if negb (HAVE_MONGO env)
   then raise (Exn CuckooDependencyError
                   "Unable to import pymongo (install with `pip3 install pymongo`)")
   else ret tt) ;;
  connect ;;
  check_schema ;;
  report <- build_report results ;;
  create_index "info.id" ;;
  create_index "ALL_SHA256" ;;
  report <- lift (resolve_task_id results report) ;;
  evict report ;;
  ret (ensure_valid_utf8_report report).

(** Line 225 is reached when the body has not returned. *)
Definition run (fuel : nat) (results : pydict) : M (exit * pydict) :=
  report <- prepare results ;;
  ' (e, report) <- store_report fuel report ;;
  match e with
  | FallThrough _ => conn_close ;; ret (e, report)
  | _ => ret (e, report)
  end.

End Reporting.

(** ** A reference environment *)

(** A concrete set of collaborators on which the statements are exercised. *)

(** [int(s)] for a plain decimal literal *)
Definition decimal_int (s : string) : result Z :=
  match NilZero.int_of_string s with
  | Some d => Ok (Z.of_int d)
  | None => Raise (Exn ValueError "invalid literal for int() with base 10")
  end.

(** Modelled from the spec: [insert_calls] of [modules.reporting.report_doc]
    is not part of the sources at hand.  It "produces a document whose process
    records reference call records by identifier, and a mapping from those
    identifiers to call-record bodies stored separately": each process record
    gets one call record, stored under a fresh identifier, and its [calls]
    entry becomes the list holding that identifier. *)
Fixpoint reference_insert_calls_from (processes : list value) (calls : list pydict) (oid : N)
  : result (list value) * list pydict * N :=
  match processes with
  | [] => (Ok [], calls, oid)
  | process :: rest =>
      match process with
      | VDict p =>
          match dict_get (KStr "calls") p with
          | Some body =>
              let record := [(KStr "_id", VOid oid); (KStr "calls", body)] in
              let '(r, calls', oid') :=
                reference_insert_calls_from rest (calls ++ [record]) (N.succ oid) in
              (rbind r (fun l => Ok (VDict (dict_set (KStr "calls") (VList [VOid oid]) p) :: l)),
               calls', oid')
          | None => (Raise (Exn KeyError "calls"), calls, oid)
          end
      | _ => (Raise (Exn TypeError "process record is not a mapping"), calls, oid)
      end
  end.

Definition reference_insert_calls (report : pydict) (calls : list pydict) (oid : N)
  : result value * list pydict * N :=
  match dict_get (KStr "behavior") report with
  | Some (VDict behavior) =>
      match dict_get (KStr "processes") behavior with
      | Some (VList processes) =>
          let '(r, calls', oid') := reference_insert_calls_from processes calls oid in
          (rbind r (fun l => Ok (VList l)), calls', oid')
      | _ => (Ok (VList []), calls, oid)
      end
  | _ => (Ok (VList []), calls, oid)
  end.

Definition has_dot (s : string) : bool :=
  existsb (Ascii.eqb ".") (list_ascii_of_string s).

Fixpoint has_dotted_key (v : value) : bool :=
  match v with
  | VDict d => existsb (fun kv => has_dot (key_str (fst kv)) || has_dotted_key (snd kv)) d
  | VList l | VTuple l | VSet l => existsb has_dotted_key l
  | _ => false
  end.

Fixpoint has_set (v : value) : bool :=
  match v with
  | VSet _ => true
  | VDict d => existsb (fun kv => has_set (snd kv)) d
  | VList l | VTuple l => existsb has_set l
  | _ => false
  end.

(** A store that refuses what a BSON encoder refuses: keys that are not
    strings, keys with a dot, Python sets, and documents whose strings alone
    exceed the size limit. *)
Definition reference_verdict (v : value) : result unit :=
  if negb (keys_all_str v) then
    Raise (Exn InvalidDocument "documents must have only string keys, key was an int")
  else if has_dotted_key v then
    Raise (Exn InvalidDocument "key must not contain '.'")
  else if has_set v then
    Raise (Exn InvalidDocument "cannot encode object of type: <class 'set'>")
  else if string_chars v >? MONGOSIZELIMIT then
    Raise (Exn InvalidDocument "BSON document too large")
  else Ok tt.

Definition reference_env : environment :=
  mkEnv true
        (fun _ => Ok tt)
        decimal_int
        (fun results => results)
        reference_insert_calls
        (fun s => s)
        (fun doc => reference_verdict (VDict doc))
        (fun k v => reference_verdict (VDict [(k, v)])).

Definition empty_world : world := mkWorld (mkStore [] [] None 0) false [] [].

(** ** Vocabulary of the statements *)

Definition zero_totals (d : pydict) : list (key * Z) := map (fun kv => (fst kv, 0)) d.
Definition key_totals (d : pydict) : list (key * Z) :=
  map (fun kv => (fst kv, string_chars (snd kv))) d.

Definition desc (a b : key * Z) : Prop := snd a >= snd b.

Definition total_of (l : list (key * Z)) : Z := fold_right (fun kt n => snd kt + n) 0 l.

Definition sample_document : pydict :=
  [(KStr "info", VDict [(KStr "id", VInt 42); (KStr "machine", VStr "win7")]);
   (KStr "strings", VList [VStr "alpha"; VStr "beta"; VTuple [VStr "x"; VInt 3]]);
   (KStr "score", VInt 0);
   (KStr "dropped", VList [VDict [(KStr "name", VStr "a.exe"); (KStr "tags", VSet [VStr "pe"])]])].

(** A small report with one process and one call. *)
Definition small_report : pydict :=
  [(KStr "info", VDict [(KStr "id", VInt 42)]);
   (KStr "behavior",
    VDict [(KStr "processes",
            VList [VDict [(KStr "process_id", VInt 7);
                          (KStr "calls", VList [VStr "NtCreateFile"])]])]);
   (KStr "target", VDict [(KStr "name", VStr "sample.exe")])].

(** [{1: {2: "x"}}] *)
Definition nested_int_keys : pydict := [(KInt 1, VDict [(KInt 2, VStr "x")])].

(** A store whose schema marker records version "0". *)
Definition stale_world : world :=
  mkWorld (mkStore [] [] (Some [[(KStr "_id", VOid 0); (KStr "version", VStr "0")]]) 1)
          false [] [].

(** A report holding a Python set, which the store cannot encode. *)
Definition unencodable_report : pydict :=
  small_report ++ [(KStr "tags", VSet [VStr "packed"])].

(** A report with an integer key below ["target"]. *)
Definition int_key_report : pydict :=
  [(KStr "info", VDict [(KStr "id", VInt 42)]);
   (KStr "behavior", VDict [(KStr "processes", VList [])]);
   (KStr "target", VDict [(KStr "name", VStr "sample.exe"); (KInt 7, VInt 1)])].

Definition fix_large_docs_on : pydict := [(KStr "fix_large_docs", VBool true)].

(** The keys [loop_saver] is left with after its three [remove] calls. *)
Definition remaining_keys (report : pydict) : list key :=
  list_remove (KStr "info")
    (if existsb (key_eqb (KStr "_id")) (dict_keys report)
     then list_remove (KStr "_id") (dict_keys report)
     else dict_keys report).

(** [report[k]] for a key known to be present *)
Definition value_at (report : pydict) (k : key) : value :=
  match dict_get k report with
  | Some v => v
  | None => VNone
  end.

Definition update_rejected (env : environment) (report : pydict) (k : key) : bool :=
  match update_verdict env k (value_at report k) with
  | Ok _ => false
  | Raise _ => true
  end.

(** The document [loop_saver] inserts first. *)
Definition minimal_document (info : value) (w : world) : pydict :=
  [(KStr "info", info); (KStr "_id", VOid (next_oid (db w)))].

(** The state of the loop after [n] passes that each asked for another:
    the report, the parent key, the threshold and the world. *)
Fixpoint after_passes (env : environment) (n : nat)
    (report : pydict) (parent_key : key) (size_filter : Z) (w : world)
  : option (pydict * key * Z * world) :=
  match n with
  | O => Some (report, parent_key, size_filter, w)
  | S n' =>
      match remediation_pass env report parent_key size_filter w with
      | (Ok (Again parent_key' size_filter', report'), w') =>
          after_passes env n' report' parent_key' size_filter' w'
      | _ => None
      end
  end.

(** The exit a computation reports, if it returned. *)
Definition exit_of {A} (x : result (exit * A) * world) : option exit :=
  match fst x with
  | Ok (e, _) => Some e
  | Raise _ => None
  end.

(** A store that takes documents of up to eight characters of strings. *)
Definition tiny_store_env : environment :=
  mkEnv true
        (fun _ => Ok tt)
        decimal_int
        (fun results => results)
        reference_insert_calls
        (fun s => s)
        (fun doc => if string_chars (VDict doc) >? 8
                    then Raise (Exn InvalidDocument "BSON document too large")
                    else Ok tt)
        (fun k v => Ok tt).

(** The process records of a stored document, and the call records each
    refers to. *)
Definition process_records (stored : pydict) : list value :=
  match dict_get (KStr "behavior") stored with
  | Some (VDict behavior) =>
      match dict_get (KStr "processes") behavior with
      | Some (VList l) | Some (VTuple l) | Some (VSet l) => l
      | _ => []
      end
  | _ => []
  end.

Definition call_ids (process : value) : list value :=
  match process with
  | VDict p =>
      match dict_get (KStr "calls") p with
      | Some (VList ids) | Some (VTuple ids) => ids
      | _ => []
      end
  | _ => []
  end.

Definition referenced_calls (stored : pydict) : list value :=
  flat_map call_ids (process_records stored).

(** The store calls that evict one stored document: a bulk delete per process
    record, then the delete of the document. *)
Definition eviction_ops (stored : pydict) : list store_op :=
  map (fun p => OpCallsDeleteMany (call_ids p)) (process_records stored)
  ++ [OpAnalysisDeleteOne (value_at stored (KStr "_id"))].

(** Every document of a collection has an ["_id"], and no two share one. *)
Definition ids_unique (collection : list pydict) : Prop :=
  NoDup (map doc_id collection) /\ Forall (fun d => doc_id d <> None) collection.

(** Store calls that neither write [analysis] nor delete anything. *)
Definition quiet_op (o : store_op) : bool :=
  match o with
  | OpListCollections | OpSchemaFindOne | OpSchemaInsert _ | OpInsertCalls
  | OpCreateIndex _ => true
  | _ => false
  end.

(** What the steps before the eviction may do to the world: the [analysis]
    collection and the log are as before, and only quiet store calls are
    added. *)
Definition quiet_step (w w' : world) : Prop :=
  analysis (db w') = analysis (db w)
  /\ logged w' = logged w
  /\ exists added, ops w' = ops w ++ added /\ forallb quiet_op added = true.

(** Every run of [c] relates the world before to the world after by [R]. *)
Definition stable {A} (R : world -> world -> Prop) (c : M A) : Prop :=
  forall w r w', c w = (r, w') -> R w w'.

(** The report a computation returns with, if it returned. *)
Definition report_of (x : result (exit * pydict) * world) : pydict :=
  match fst x with
  | Ok (_, r) => r
  | Raise _ => []
  end.

(** The store after [small_report] has been saved once, and the second save. *)
Definition saved_world : world :=
  Eval vm_compute in snd (run reference_env [] 0 small_report empty_world).

Definition second_report : pydict :=
  Eval vm_compute in report_of (run reference_env [] 0 small_report saved_world).

Definition second_world : world :=
  Eval vm_compute in snd (run reference_env [] 0 small_report saved_world).

(** A report with an integer key at the top level. *)
Definition top_int_key_report : pydict :=
  [(KStr "info", VDict [(KStr "id", VInt 42)]);
   (KStr "behavior", VDict [(KStr "processes", VList [])]);
   (KInt 7, VStr "x")].

(** A document as the remediation loop receives it. *)
Definition tiny_document : pydict :=
  [(KStr "target", VDict [(KStr "name", VStr "sample.exe")]); (KStr "_id", VOid 0)].

(** A string of [n] characters. *)
Definition filler (n : N) : string := N.iter n (String "x") EmptyString.

(** Eighteen sections, each holding the string [s]. *)
Definition section_names : list string :=
  ["a"; "b"; "c"; "d"; "e"; "f"; "g"; "h"; "i";
   "j"; "k"; "l"; "m"; "n"; "o"; "p"; "q"; "r"].

Definition wide_sections (s : string) : pydict :=
  map (fun name => (KStr name, VDict [(KStr "c", VStr s)])) section_names.

Definition wide_report_of (s : string) : pydict :=
  [(KStr "info", VDict [(KStr "id", VInt 42)]);
   (KStr "behavior", VDict [(KStr "processes", VList [])])]
  ++ wide_sections s.

(** The report with strings of a little under one megabyte:
    18 * 1044480 characters in all, more than [MONGOSIZELIMIT]. *)
Definition wide_report : pydict := wide_report_of (filler 1044480).

(** The document as [run] hands it to the remediation loop, and the same
    once the child of section ["a"] is deleted. *)
Definition wide_document (s : string) : pydict :=
  wide_report_of s ++ [(KStr "network", VDict []); (KStr "_id", VOid 1)].

Definition wide_document_pruned (s : string) : pydict :=
  dict_set (KStr "a") (VDict []) (wide_document s).

(** A store that rejects every document as too large, and a document whose
    strings are all empty: its size lies in numbers, which the profiler does
    not count. *)
Definition rejecting_env : environment :=
  mkEnv true
        (fun _ => Ok tt)
        decimal_int
        (fun results => results)
        reference_insert_calls
        (fun s => s)
        (fun doc => Raise (Exn InvalidDocument "BSON document too large"))
        (fun k v => Ok tt).

Definition numbers_document : pydict :=
  [(KStr "dropped", VList []);
   (KStr "samples", VList [VInt 1; VInt 2; VInt 3]);
   (KStr "_id", VOid 0)].

(** What a step that neither opens nor closes the connection does to it. *)
Definition conn_kept (w w' : world) : Prop :=
  conn_open w' = conn_open w /\ (In OpClose (ops w') -> In OpClose (ops w)).

(** A report without a ["behavior"] section. *)
Definition headless_report : pydict := [(KStr "info", VDict [(KStr "id", VInt 42)])].

(** ** Induction over the document tree *)

Section ValueInduction.

Variable P : value -> Prop.
Hypothesis HNone : P VNone.
Hypothesis HBool : forall b, P (VBool b).
Hypothesis HInt : forall z, P (VInt z).
Hypothesis HStr : forall s, P (VStr s).
Hypothesis HOid : forall n, P (VOid n).
Hypothesis HList : forall l, Forall P l -> P (VList l).
Hypothesis HTuple : forall l, Forall P l -> P (VTuple l).
Hypothesis HSet : forall l, Forall P l -> P (VSet l).
Hypothesis HDict : forall d, Forall (fun kv => P (snd kv)) d -> P (VDict d).

Fixpoint value_tree_ind (v : value) : P v :=
  let fix elems (l : list value) : Forall P l :=
    match l with
    | [] => Forall_nil _
    | x :: l' => Forall_cons x (value_tree_ind x) (elems l')
    end in
  let fix items (d : list (key * value)) : Forall (fun kv => P (snd kv)) d :=
    match d with
    | [] => Forall_nil _
    | kv :: d' => Forall_cons kv (value_tree_ind (snd kv)) (items d')
    end in
  match v with
  | VNone => HNone
  | VBool b => HBool b
  | VInt z => HInt z
  | VStr s => HStr s
  | VOid n => HOid n
  | VList l => HList l (elems l)
  | VTuple l => HTuple l (elems l)
  | VSet l => HSet l (elems l)
  | VDict d => HDict d (items d)
  end.

End ValueInduction.

(** ** Further environments and inputs *)

(** The reference environment without the pymongo import. *)
Definition no_pymongo_env : environment :=
  mkEnv false
        (mongo_client reference_env)
        (int_of_str reference_env)
        (get_json_document reference_env)
        (insert_calls reference_env)
        (sanitize reference_env)
        (insert_verdict reference_env)
        (update_verdict reference_env).

(** A client constructor that wants an integer port and a reachable host. *)
Definition checking_client (options : pydict) : result unit :=
  match dict_get (KStr "port") options with
  | Some (VInt _) | None =>
      match dict_get (KStr "host") options with
      | Some (VStr "unreachable") =>
          Raise (Exn ConnectionFailure "connection refused")
      | _ => Ok tt
      end
  | Some _ => Raise (Exn TypeError "port must be an instance of int")
  end.

Definition checking_env : environment :=
  mkEnv true
        checking_client
        (int_of_str reference_env)
        (get_json_document reference_env)
        (insert_calls reference_env)
        (sanitize reference_env)
        (insert_verdict reference_env)
        (update_verdict reference_env).

(** A store whose [cuckoo_schema] collection exists and is empty. *)
Definition emptied_schema_world : world :=
  mkWorld (mkStore [] [] (Some []) 0) false [] [].

(** A document whose largest section is one string. *)
Definition logs_document : pydict :=
  [(KStr "info", VDict [(KStr "id", VInt 42)]);
   (KStr "logs", VStr "a very long log");
   (KStr "_id", VOid 0)].

(** A document with two process records under ["procdump"]. *)
Definition dumps_document : pydict :=
  [(KStr "procdump",
    VList [VDict [(KStr "name", VStr "a.exe"); (KStr "strings", VStr "0123456789")];
           VDict [(KStr "name", VStr "b.exe"); (KStr "strings", VStr "0123")]]);
   (KStr "_id", VOid 0)].

(** A "deleted due to size" line of a pass on [pk] with threshold [sf]. *)
Definition deletion_entry (pk : key) (sf : Z) (entry : log_entry) : Prop :=
  exists child csize, entry = LogChildDeleted pk child csize /\ csize > sf.

(** A store that is unreachable when a document is inserted. *)
Definition failing_store_env : environment :=
  mkEnv true
        (fun _ => Ok tt)
        decimal_int
        (fun results => results)
        reference_insert_calls
        (fun s => s)
        (fun doc => Raise (Exn PyMongoError "connection closed"))
        (fun k v => Ok tt).

(** ** Well-formed document trees *)

(** No key occurs twice. *)
Fixpoint keys_differ (ks : list key) : bool :=
  match ks with
  | [] => true
  | k :: rest => negb (existsb (key_eqb k) rest) && keys_differ rest
  end.

(** A document tree as Python builds it: no mapping, at any depth, holds a key
    twice. *)
Fixpoint distinct_keys (v : value) : bool :=
  match v with
  | VDict d => keys_differ (map fst d) && forallb (fun kv => distinct_keys (snd kv)) d
  | VList l | VTuple l | VSet l => forallb distinct_keys l
  | _ => true
  end.

(** What [fix_int2str] does to a tree it has nothing to repair in: a mapping
    comes back as it is with nothing logged, and so do the mappings of a
    list. *)
Definition untouched (v : value) : Prop :=
  keys_all_str v = true -> distinct_keys v = true ->
  match v with
  | VDict _ => forall tree, fix_int2str_py2 v tree = (Ok tt, v, [])
  | VList l =>
      Forall (fun d => match d with
                       | VDict _ => forall tree, fix_int2str_py2 d tree = (Ok tt, d, [])
                       | _ => True
                       end) l
  | _ => True
  end.

(** A report whose sections nest mappings and lists, with string keys only. *)
Definition nested_report : pydict :=
  [(KStr "info", VDict [(KStr "id", VInt 42); (KStr "options", VDict [])]);
   (KStr "behavior",
    VDict [(KStr "processes",
            VList [VDict [(KStr "pid", VInt 1); (KStr "calls", VList [VInt 0])]])]);
   (KStr "network", VDict [])].

(** ** Vocabulary of the incremental fallback *)

(** A key that [$set] takes as the name of a top-level field: a string
    without a dot. *)
Definition plain_field (k : key) : bool :=
  match k with
  | KStr s => negb (has_dot s)
  | KInt _ => false
  end.

(** The keys whose update the store accepts. *)
Definition accepted_keys (env : environment) (report : pydict) (keys : list key) : list key :=
  filter (fun k => negb (update_rejected env report k)) keys.

(** The document after the updates of [keys], in order. *)
Definition set_all (report : pydict) (keys : list key) (doc : pydict) : pydict :=
  fold_left (fun d k => dict_set k (value_at report k) d) keys doc.

(** ** Vocabulary of the invariants *)

(** The store calls of the saving phase: inserts and updates of [analysis]. *)
Definition write_op (o : store_op) : bool :=
  match o with
  | OpAnalysisInsert _ | OpAnalysisUpdate _ _ _ => true
  | _ => false
  end.

(** What the saving phase (lines 177-223) may do to the world: it adds inserts
    and updates of [analysis] to the store calls, removes no document, and
    leaves the other collections and the connection alone. *)
Definition saving_step (w w' : world) : Prop :=
  calls (db w') = calls (db w)
  /\ cuckoo_schema (db w') = cuckoo_schema (db w)
  /\ conn_open w' = conn_open w
  /\ (List.length (analysis (db w)) <= List.length (analysis (db w')))%nat
  /\ exists added, ops w' = ops w ++ added /\ forallb write_op added = true.

(** The lines a save may log: every line of the module but the two of
    [fix_int2str], which [run] does not call, and of the first exit of
    [loop_saver]. *)
Definition run_line (e : log_entry) : bool :=
  match e with
  | LogBadKey _ | LogMissingInfo _ => false
  | _ => true
  end.

Definition logs_run_lines (w w' : world) : Prop :=
  exists added, logged w' = logged w ++ added /\ forallb run_line added = true.

(** A store holding, for task 42, a document without a ["behavior"]
    section. *)
Definition partial_world : world :=
  mkWorld (mkStore [[(KStr "info", VDict [(KStr "id", VInt 42)]); (KStr "_id", VOid 0)]]
                   [] None 1)
          true [] [].

(** Results that name a main task. *)
Definition distributed_results : pydict :=
  [(KStr "info",
    VDict [(KStr "id", VInt 7);
           (KStr "options", VDict [(KStr "main_task_id", VStr "42")])])].
(** [small_report] as [run] prepares it on an empty store, and the store
    then. *)
Definition prepared_small_report : pydict :=
  Eval vm_compute in
    match fst (prepare reference_env [] small_report empty_world) with
    | Ok report => report
    | Raise _ => []
    end.

Definition prepared_world : world :=
  Eval vm_compute in snd (prepare reference_env [] small_report empty_world).

(** ** Vocabulary of the revised statements *)

(** The top-level keys of a report other than ["_id"] and ["info"], in the
    order of the report. *)
Definition other_sections (report : pydict) : list key :=
  filter (fun k => negb (key_eqb k (KStr "_id")) && negb (key_eqb k (KStr "info")))
         (dict_keys report).

(** What lines 199-202 (and 204-207) do to one profiled object when they run
    to their end: the object is left alone, with no line, when its largest
    child does not exceed the threshold; otherwise one line names that child
    and [del obj[child]] removes it. *)
Inductive pruned (parent_key : key) (size_filter : Z)
  : value -> value -> list log_entry -> Prop :=
| pruned_kept obj child csize :
    largest obj = Ok (child, csize) ->
    csize <= size_filter ->
    pruned parent_key size_filter obj obj []
| pruned_deleted obj obj' child csize :
    largest obj = Ok (child, csize) ->
    csize > size_filter ->
    py_delitem obj child = Ok obj' ->
    pruned parent_key size_filter obj obj' [LogChildDeleted parent_key child csize].

(** The same for the elements of a list, in order. *)
Inductive pruned_each (parent_key : key) (size_filter : Z)
  : list value -> list value -> list log_entry -> Prop :=
| pruned_each_nil : pruned_each parent_key size_filter [] [] []
| pruned_each_cons el el' lg rest rest' lg' :
    pruned parent_key size_filter el el' lg ->
    pruned_each parent_key size_filter rest rest' lg' ->
    pruned_each parent_key size_filter (el :: rest) (el' :: rest') (lg ++ lg').

(** How the same lines raise [e] on one object: the profiler raises and no
    line is written, or the line is written and the deletion raises. *)
Definition prune_fails (parent_key : key) (size_filter : Z) (obj : value) (e : exn)
    (lg : list log_entry) : Prop :=
  (largest obj = Raise e /\ lg = [])
  \/ exists child csize,
       largest obj = Ok (child, csize) /\ csize > size_filter
       /\ py_delitem obj child = Raise e
       /\ lg = [LogChildDeleted parent_key child csize].

(** [dumps_document] after a pass on ["procdump"] with threshold 5. *)
Definition dumps_document_pruned : pydict :=
  [(KStr "procdump",
    VList [VDict [(KStr "name", VStr "a.exe")];
           VDict [(KStr "name", VStr "b.exe"); (KStr "strings", VStr "0123")]]);
   (KStr "_id", VOid 0)].

(** The exits of [run] after which a document of the report is in the
    store. *)
Definition stores (e : exit) : bool :=
  match e with
  | FallThrough Saved | FallThrough Remediated | EarlyReturn LoopSaved => true
  | _ => false
  end.

(** Line 225, on the exits that reach it. *)
Definition closing_ops (e : exit) : list store_op :=
  match e with
  | FallThrough _ => [OpClose]
  | _ => []
  end.

(** A report whose ["behavior"] section holds a Python set, which the store
    cannot encode. *)
Definition unencodable_behavior_report : pydict :=
  [(KStr "info", VDict [(KStr "id", VInt 42)]);
   (KStr "behavior",
    VDict [(KStr "processes",
            VList [VDict [(KStr "process_id", VInt 7);
                          (KStr "calls", VList [VStr "NtCreateFile"])]]);
           (KStr "mutexes", VSet [VStr "Global"])]);
   (KStr "target", VDict [(KStr "name", VStr "sample.exe")])].

(** The call record that the first save of that report stores, and the
    document [loop_saver] leaves for it. *)
Definition first_call_record : pydict :=
  [(KStr "_id", VOid 1); (KStr "calls", VList [VStr "NtCreateFile"])].

Definition partial_document : pydict :=
  [(KStr "info", VDict [(KStr "id", VInt 42)]);
   (KStr "_id", VOid 3);
   (KStr "target", VDict [(KStr "name", VStr "sample.exe")]);
   (KStr "network", VDict [])].

(** [small_report] as the second save prepares it, and the store then. *)
Definition second_prepared : pydict :=
  Eval vm_compute in
    match fst (prepare reference_env [] small_report saved_world) with
    | Ok report => report
    | Raise _ => []
    end.

Definition second_prepared_world : world :=
  Eval vm_compute in snd (prepare reference_env [] small_report saved_world).

(** * Properties *)

Lemma key_eqb_spec a b : reflect (a = b) (key_eqb a b).
Proof.
  destruct a as [s|x], b as [t|y]; simpl; try (constructor; discriminate).
  - destruct (String.eqb_spec s t); constructor; congruence.
  - destruct (Z.eqb_spec x y); constructor; congruence.
Qed.

Lemma key_eqb_refl a : key_eqb a a = true.
Proof. destruct (key_eqb_spec a a); congruence. Qed.

(** ** The size profiler *)

Lemma totals_add_zero root totals : totals_add root 0 totals = totals.
Proof.
  induction totals as [|[k t] rest IH]; simpl; [reflexivity|].
  destruct (key_eqb root k); [now rewrite Z.add_0_r | now rewrite IH].
Qed.

Lemma totals_add_add root a b totals :
  totals_add root b (totals_add root a totals) = totals_add root (a + b) totals.
Proof.
  induction totals as [|[k t] rest IH]; simpl; [reflexivity|].
  destruct (key_eqb root k) eqn:E; simpl; rewrite E.
  - now rewrite Z.add_assoc.
  - now rewrite IH.
Qed.

(** The walk adds to [totals[root]] exactly the string characters beneath the
    value. *)
Lemma walk_string_chars v : forall root totals,
  walk root v totals = totals_add root (string_chars v) totals.
Proof.
  induction v as [| | | | |l IH|l IH|l IH|d IH] using value_tree_ind;
    intros root totals; simpl; try (now rewrite totals_add_zero); try reflexivity.
  1-3: revert totals; induction IH as [|x l Hx _ IHl]; intros totals; simpl;
       [now rewrite totals_add_zero
       |rewrite Hx, IHl, totals_add_add; reflexivity].
  revert totals; induction IH as [|[k x] l Hx _ IHl]; intros totals; simpl.
  - now rewrite totals_add_zero.
  - simpl in Hx. rewrite Hx, IHl, totals_add_add. reflexivity.
Qed.

Lemma existsb_key_false k (totals : list (key * Z)) :
  ~ In k (map fst totals) -> existsb (fun kt => key_eqb k (fst kt)) totals = false.
Proof.
  induction totals as [|[k' t] rest IH]; simpl; intros H; [reflexivity|].
  destruct (key_eqb_spec k k') as [->|_]; [exfalso; auto|].
  apply IH; auto.
Qed.

Lemma totals_init_nodup d : forall pre,
  NoDup (map fst pre ++ dict_keys d) ->
  totals_init (dict_keys d) pre = pre ++ zero_totals d.
Proof.
  induction d as [|[k v] d IH]; intros pre H; simpl.
  - now rewrite app_nil_r.
  - rewrite existsb_key_false.
    + rewrite IH.
      * now rewrite <- app_assoc.
      * rewrite map_app, <- app_assoc. exact H.
    + simpl in H. apply NoDup_remove_2 in H. intros Hin. apply H.
      apply in_or_app; now left.
Qed.

Lemma totals_add_fresh k n pre t rest :
  ~ In k (map fst pre) ->
  totals_add k n (pre ++ (k, t) :: rest) = pre ++ (k, t + n) :: rest.
Proof.
  induction pre as [|[k' t'] pre IH]; simpl; intros H.
  - now rewrite key_eqb_refl.
  - destruct (key_eqb_spec k k') as [->|_]; [exfalso; auto|].
    rewrite IH; auto.
Qed.

Lemma walk_top_nodup d : forall pre,
  NoDup (map fst pre ++ dict_keys d) ->
  walk_top d (pre ++ zero_totals d) = pre ++ key_totals d.
Proof.
  induction d as [|[k v] d IH]; intros pre H; simpl; [reflexivity|].
  rewrite walk_string_chars, totals_add_fresh.
  - change (pre ++ (k, 0 + string_chars v) :: zero_totals d)
      with (pre ++ [(k, 0 + string_chars v)] ++ zero_totals d).
    rewrite app_assoc, IH.
    + now rewrite <- app_assoc.
    + rewrite map_app, <- app_assoc. exact H.
  - simpl in H. apply NoDup_remove_2 in H. intros Hin. apply H.
    apply in_or_app; now left.
Qed.

Lemma profile_dict d :
  NoDup (dict_keys d) -> profile (VDict d) = Ok (sorted_desc (key_totals d)).
Proof.
  intros H. unfold profile.
  rewrite (totals_init_nodup d []) by exact H.
  rewrite (walk_top_nodup d []) by exact H.
  reflexivity.
Qed.

Lemma insert_desc_perm x l : Permutation (insert_desc x l) (x :: l).
Proof.
  induction l as [|y l IH]; simpl; [reflexivity|].
  destruct (snd x <? snd y); [|reflexivity].
  rewrite IH. apply perm_swap.
Qed.

Lemma sorted_desc_perm l : Permutation (sorted_desc l) l.
Proof.
  induction l as [|x l IH]; simpl; [constructor|].
  rewrite insert_desc_perm. now constructor.
Qed.

Lemma insert_desc_sorted x l :
  StronglySorted desc l -> StronglySorted desc (insert_desc x l).
Proof.
  induction 1 as [|y l Hs IH Hall]; simpl.
  - constructor; constructor.
  - destruct (Z.ltb_spec (snd x) (snd y)) as [Hlt|Hge].
    + constructor; [exact IH|].
      rewrite Forall_forall. intros z Hz.
      apply (Permutation_in _ (insert_desc_perm x l)) in Hz.
      destruct Hz as [<-|Hz]; [unfold desc; lia|].
      rewrite Forall_forall in Hall. now apply Hall.
    + constructor; [now constructor|].
      constructor; [unfold desc; lia|].
      rewrite Forall_forall in *. intros z Hz. specialize (Hall z Hz).
      unfold desc in *. lia.
Qed.

Lemma sorted_desc_sorted l : StronglySorted desc (sorted_desc l).
Proof.
  induction l as [|x l IH]; simpl; [constructor|].
  now apply insert_desc_sorted.
Qed.

(** The sort is stable: entries of one total keep their order. *)
Lemma insert_desc_stable n x l :
  filter (fun p => snd p =? n) (insert_desc x l) = filter (fun p => snd p =? n) (x :: l).
Proof.
  induction l as [|y l IH]; [reflexivity|].
  cbn [insert_desc]. destruct (Z.ltb_spec (snd x) (snd y)) as [Hlt|Hge]; [|reflexivity].
  cbn [filter] in *. rewrite IH.
  destruct (Z.eqb_spec (snd x) n), (Z.eqb_spec (snd y) n); try reflexivity. lia.
Qed.

Lemma sorted_desc_stable n l :
  filter (fun p => snd p =? n) (sorted_desc l) = filter (fun p => snd p =? n) l.
Proof.
  induction l as [|x l IH]; [reflexivity|].
  cbn [sorted_desc]. rewrite insert_desc_stable. cbn [filter]. now rewrite IH.
Qed.

Lemma total_of_perm l m : Permutation l m -> total_of l = total_of m.
Proof.
  induction 1; simpl; lia.
Qed.

Lemma total_of_key_totals d : total_of (key_totals d) = string_chars (VDict d).
Proof.
  induction d as [|[k v] d IH]; simpl; [reflexivity|].
  simpl in IH. now rewrite IH.
Qed.

(** C5.  For a mapping [d] (a dictionary: its keys are distinct),
    [debug_dict_size] returns the pairs (top-level key, total length of the
    string scalars beneath it), sorted by descending total, the sort being
    stable; the totals add up to the length of all string scalars of [d]; and
    a non-empty list of documents is profiled through its first element. The
    function is a pure function of its argument: the source writes only its
    local [totals]. *)
Theorem debug_dict_size_profiles (d : pydict) (Hkeys : NoDup (dict_keys d)) :
  debug_dict_size (VDict d) = Ok (sorted_desc (key_totals d))
  /\ Permutation (sorted_desc (key_totals d)) (key_totals d)
  /\ StronglySorted desc (sorted_desc (key_totals d))
  /\ (forall n, filter (fun p => snd p =? n) (sorted_desc (key_totals d))
                = filter (fun p => snd p =? n) (key_totals d))
  /\ total_of (sorted_desc (key_totals d)) = string_chars (VDict d)
  /\ (forall rest, debug_dict_size (VList (VDict d :: rest)) = debug_dict_size (VDict d)).
Proof.
  repeat split.
  - simpl. now apply profile_dict.
  - apply sorted_desc_perm.
  - apply sorted_desc_sorted.
  - intros n. apply sorted_desc_stable.
  - rewrite (total_of_perm _ _ (sorted_desc_perm _)). apply total_of_key_totals.
Qed.

Lemma debug_dict_size_profiles_witness :
  debug_dict_size (VDict sample_document)
  = Ok [(KStr "strings", 10); (KStr "dropped", 7); (KStr "info", 4); (KStr "score", 0)].
Proof.
  refine (eq_trans (proj1 (debug_dict_size_profiles sample_document _)) _).
  - unfold sample_document, dict_keys; simpl.
    repeat (constructor; [simpl; intuition discriminate|]). constructor.
  - reflexivity.
Defined.

(** ** The key-coercion helper *)

Lemma fix_int2str_python3 dictionary tree :
  fix_int2str Python3 dictionary tree
  = (Raise (Exn AttributeError "'dict' object has no attribute 'iteritems'"), dictionary, []).
Proof. reflexivity. Qed.

(** C8.  On [{1: {2: "x"}}] one application of [fix_int2str] does not make
    every key a string.  A Python 3 dictionary has no [iteritems], so the call
    raises and leaves the dictionary as it was.  Where [iteritems] exists, the
    key [1] is rewritten but the branch that descends into a mapping is the
    [elif] of the branch that rewrites, so the mapping under the rewritten key
    is not visited: its key [2] stays an integer, and only a second
    application rewrites it, which makes the second result differ from the
    first. *)
Theorem fix_int2str_leaves_nested_int_key :
  (forall py, let '(_, d, _) := fix_int2str py nested_int_keys "" in
              keys_all_str (VDict d) = false)
  /\ fix_int2str Python3 nested_int_keys ""
     = (Raise (Exn AttributeError "'dict' object has no attribute 'iteritems'"),
        nested_int_keys, [])
  /\ fix_int2str Python2 nested_int_keys ""
     = (Ok tt, [(KStr "1", VDict [(KInt 2, VStr "x")])], [LogBadKey ".1"])
  /\ fix_int2str Python2 [(KStr "1", VDict [(KInt 2, VStr "x")])] ""
     = (Ok tt, [(KStr "1", VDict [(KStr "2", VStr "x")])], [LogBadKey ".1.2"]).
Proof.
  repeat split; try reflexivity.
  intros [|]; reflexivity.
Qed.

(** A mapping inside a list inside a list is not reached either. *)
Lemma fix_int2str_skips_list_in_list py :
  let d := [(KStr "a", VList [VList [VDict [(KInt 1, VStr "x")]]])] in
  snd (fst (fix_int2str py d "")) = d /\ keys_all_str (VDict d) = false.
Proof. destruct py; split; reflexivity. Qed.

(** ** The schema marker *)

(** Whatever version the marker records, the check returns normally and
    changes nothing in the store. *)
Lemma check_schema_accepts_any_version w marker others version :
  cuckoo_schema (db w) = Some (marker :: others) ->
  dict_get (KStr "version") marker = Some version ->
  check_schema w = (Ok tt, add_op OpSchemaFindOne (add_op OpListCollections w)).
Proof.
  intros Hs Hv. unfold check_schema, bind, schema_collection_listed, schema_find_one, lift.
  rewrite Hs. cbn [db add_op]. rewrite Hs. cbn [py_getitem]. rewrite Hv.
  destruct (negb (value_eqb version (VStr SCHEMA_VERSION))); reflexivity.
Qed.

(** C3.  With a schema marker of version "0" in the store, [run] does not
    abort: the exception of lines 131-132 is built but not raised, the marker
    is left as it is, and the report is inserted. *)
Theorem run_proceeds_past_schema_mismatch :
  exists rep w',
    run reference_env [] 0 small_report stale_world = (Ok (FallThrough Saved, rep), w')
    /\ analysis (db w') = [rep]
    /\ cuckoo_schema (db w') = cuckoo_schema (db stale_world)
    /\ cuckoo_schema (db stale_world)
       = Some [[(KStr "_id", VOid 0); (KStr "version", VStr "0")]]
    /\ SCHEMA_VERSION = "1".
Proof.
  eexists. eexists. split; [vm_compute; reflexivity|].
  repeat split; reflexivity.
Qed.

(** ** Running the monad *)

Lemma bind_ok {A B} (c : M A) (f : A -> M B) w a w1 :
  c w = (Ok a, w1) -> bind c f w = f a w1.
Proof. unfold bind. now intros ->. Qed.

Lemma bind_raise {A B} (c : M A) (f : A -> M B) w e w1 :
  c w = (Raise e, w1) -> bind c f w = (Raise e, w1).
Proof. unfold bind. now intros ->. Qed.

Lemma bind_inv {A B} (c : M A) (f : A -> M B) w b w2 :
  bind c f w = (Ok b, w2) -> exists a w1, c w = (Ok a, w1) /\ f a w1 = (Ok b, w2).
Proof.
  unfold bind. destruct (c w) as [[a|e] w1]; intros H; [eauto | discriminate].
Qed.

Lemma lift_getitem_ok d s v (w : world) :
  dict_get (KStr s) d = Some v -> lift (py_getitem (VDict d) s) w = (Ok v, w).
Proof. unfold lift. cbn. now intros ->. Qed.

Lemma with_id_minimal info w :
  with_id [(KStr "info", info)] w
  = (Ok (minimal_document info w), set_db (set_next_oid (N.succ (next_oid (db w)))) w).
Proof. reflexivity. Qed.

(** ** The incremental fallback *)

Lemma existsb_key_in k ks : existsb (key_eqb k) ks = true <-> In k ks.
Proof.
  rewrite existsb_exists. split.
  - intros [x [Hin He]]. destruct (key_eqb_spec k x); congruence.
  - intros Hin. exists k. split; [exact Hin | apply key_eqb_refl].
Qed.

Lemma dict_get_in k d : In k (dict_keys d) -> dict_get k d <> None.
Proof.
  induction d as [|[k' v] d IH]; simpl; [tauto|].
  intros [->|Hin].
  - now rewrite key_eqb_refl.
  - destruct (key_eqb k k'); [discriminate | auto].
Qed.

Lemma dict_get_some_in k d v : dict_get k d = Some v -> In k (dict_keys d).
Proof.
  induction d as [|[k' v'] d IH]; simpl; [discriminate|].
  destruct (key_eqb_spec k k') as [->|_]; auto.
Qed.

Lemma remove_first_incl {A} (p : A -> bool) l x : In x (remove_first p l) -> In x l.
Proof.
  induction l as [|y l IH]; simpl; [tauto|].
  destruct (p y); simpl; intuition.
Qed.

Lemma remaining_keys_incl report k : In k (remaining_keys report) -> In k (dict_keys report).
Proof.
  unfold remaining_keys, list_remove. intros H. apply remove_first_incl in H.
  destruct (existsb _ _); [now apply remove_first_incl in H | exact H].
Qed.

Section LoopSaver.

Variable env : environment.
Variable report : pydict.
Variable inserted_id : value.

Hypothesis only_invalid :
  forall k v e, update_verdict env k v = Raise e -> exn_cls e = InvalidDocument.

Lemma update_loop_runs keys : forall w,
  (forall k, In k keys -> In k (dict_keys report)) ->
  exists w',
    py_for keys (update_key env report inserted_id) w = (Ok tt, w')
    /\ ops w' = ops w ++ map (fun k => OpAnalysisUpdate inserted_id k (value_at report k)) keys
    /\ logged w' = logged w ++ map LogInvestigateKey (filter (update_rejected env report) keys)
    /\ conn_open w' = conn_open w
    /\ calls (db w') = calls (db w).
Proof.
  induction keys as [|k keys IH]; intros w Hin.
  - exists w. simpl. now rewrite !app_nil_r.
  - assert (Hk : dict_get k report <> None) by (apply dict_get_in, Hin; now left).
    cbn [py_for]. unfold bind at 1. unfold update_key at 1, try_except.
    unfold update_rejected, value_at. cbn [filter map].
    destruct (dict_get k report) as [v|] eqn:Hv; [|congruence].
    unfold analysis_update_one at 1.
    destruct (update_verdict env k v) as [[]|e] eqn:Hu.
    + match goal with |- context [py_for keys (update_key env report inserted_id) ?w0] =>
        destruct (IH w0) as [w' [Hrun [Hops [Hlog [Hconn Hcalls]]]]] end.
      { intros k' Hk'. apply Hin. now right. }
      exists w'. rewrite Hrun. split; [reflexivity|].
      rewrite Hops, Hlog, Hconn, Hcalls. cbn. rewrite <- app_assoc. repeat split.
    + rewrite (only_invalid _ _ _ Hu). cbn [is_InvalidDocument write_log].
      match goal with |- context [py_for keys (update_key env report inserted_id) ?w0] =>
        destruct (IH w0) as [w' [Hrun [Hops [Hlog [Hconn Hcalls]]]]] end.
      { intros k' Hk'. apply Hin. now right. }
      exists w'. rewrite Hrun. split; [reflexivity|].
      rewrite Hops, Hlog, Hconn, Hcalls. cbn. rewrite <- !app_assoc. repeat split.
Qed.

End LoopSaver.

(** The store calls and the log of [loop_saver], over the keys its [remove]
    calls leave. *)
Lemma loop_saver_runs env report w :
  (~ In (KStr "info") (dict_keys report) ->
   loop_saver env report w = (Ok tt, add_log [LogMissingInfo (dict_keys report)] w)
   /\ db (add_log [LogMissingInfo (dict_keys report)] w) = db w
   /\ ops (add_log [LogMissingInfo (dict_keys report)] w) = ops w)
  /\ (forall info,
        dict_get (KStr "info") report = Some info ->
        insert_verdict env (minimal_document info w) = Ok tt ->
        existsb (has_id (VOid (next_oid (db w)))) (analysis (db w)) = false ->
        (forall k v e, update_verdict env k v = Raise e -> exn_cls e = InvalidDocument) ->
        exists w',
          loop_saver env report w = (Ok tt, w')
          /\ ops w' = ops w
                      ++ OpAnalysisInsert (minimal_document info w)
                      :: map (fun k => OpAnalysisUpdate (VOid (next_oid (db w))) k (value_at report k))
                             (remaining_keys report)
          /\ logged w' = logged w
                         ++ map LogInvestigateKey
                                (filter (update_rejected env report) (remaining_keys report))).
Proof.
  split.
  - intros Hno. unfold loop_saver.
    destruct (existsb (key_eqb (KStr "info")) (dict_keys report)) eqn:E.
    + apply existsb_key_in in E. contradiction.
    + repeat split.
  - intros info Hinfo Hverdict Hfresh Honly. unfold loop_saver.
    assert (E : existsb (key_eqb (KStr "info")) (dict_keys report) = true).
    { apply existsb_key_in. eapply dict_get_some_in; eauto. }
    rewrite E. cbn [negb].
    rewrite (bind_ok _ _ _ _ _ (lift_getitem_ok _ _ _ _ Hinfo)).
    rewrite (bind_ok _ _ _ _ _ (with_id_minimal info w)).
    erewrite bind_ok.
    2:{ unfold analysis_insert_one. rewrite Hverdict.
        change (doc_id (minimal_document info w)) with (Some (VOid (next_oid (db w)))).
        cbv beta iota zeta.
        change (analysis (db (add_op _ (set_db _ w)))) with (analysis (db w)).
        rewrite Hfresh. reflexivity. }
    erewrite bind_ok by reflexivity.
    fold (remaining_keys report).
    match goal with |- context [py_for ?ks ?body ?w0] =>
      destruct (update_loop_runs env report (VOid (next_oid (db w))) Honly ks w0)
        as [w' [Hrun [Hops [Hlog _]]]] end.
    { intros k Hk. now apply remaining_keys_incl. }
    exists w'. split; [exact Hrun|].
    rewrite Hops, Hlog. cbn. rewrite <- app_assoc. split; reflexivity.
Qed.

(** ** The remediation loop *)

(** A pass never raises: what the deletion, the retry or the re-profiling
    raise is caught by the [except Exception] of line 221. *)
Lemma remediation_pass_returns env report parent_key size_filter w :
  exists p report' w',
    remediation_pass env report parent_key size_filter w = (Ok (p, report'), w').
Proof.
  unfold remediation_pass.
  destruct (delete_children report parent_key size_filter) as [[r report'] lg].
  unfold try_except at 1.
  match goal with |- context [match ?c w with _ => _ end] => destruct (c w) as [[[p rep]|e] w1] end.
  - do 3 eexists; reflexivity.
  - cbn. do 3 eexists; reflexivity.
Qed.

Lemma remediation_loop_returns env fuel : forall report parent_key size_filter w,
  exists e report' w',
    remediation_loop env fuel report parent_key size_filter w = (Ok (e, report'), w').
Proof.
  induction fuel as [|fuel IH]; intros report parent_key size_filter w.
  - cbn. do 3 eexists; reflexivity.
  - cbn [remediation_loop].
    destruct (remediation_pass_returns env report parent_key size_filter w)
      as [p [report' [w' Hp]]].
    rewrite (bind_ok _ _ _ _ _ Hp).
    destruct p as [e|pk sf]; [cbn; do 3 eexists; reflexivity | apply IH].
Qed.

(** When the deletion step raises, the pass logs it and ends the loop. *)
Lemma remediation_pass_catches env report parent_key size_filter w e report' lg :
  delete_children report parent_key size_filter = (Raise e, report', lg) ->
  remediation_pass env report parent_key size_filter w
  = (Ok (Stop (FallThrough RemediationFailed), report'),
     add_log [LogFailedDelete e] (add_log lg w)).
Proof.
  intros H. unfold remediation_pass. rewrite H. reflexivity.
Qed.

(** A pass that asks for another has lowered the threshold by one megabyte. *)
Lemma remediation_pass_again env report parent_key size_filter w pk sf report' w' :
  remediation_pass env report parent_key size_filter w = (Ok (Again pk sf, report'), w') ->
  sf = size_filter - MEGABYTE.
Proof.
  unfold remediation_pass.
  destruct (delete_children report parent_key size_filter) as [[r rep] lg].
  unfold try_except, bind, write_log, lift, ret.
  destruct r as [[]|e]; [|cbn; congruence].
  destruct (with_id rep (add_log lg w)) as [[rep1|e] w1]; [|cbn; congruence].
  destruct (analysis_insert_one env rep1 w1) as [[[]|e] w2]; [congruence|].
  destruct (is_InvalidDocument (exn_cls e)); [|cbn; congruence].
  destruct (startswith (exn_msg e) "documents must have only string keys"); [congruence|].
  destruct (largest (VDict rep1)) as [[pk' psize]|e']; [|cbn; congruence].
  intros H. injection H as <- <- <- <-. reflexivity.
Qed.

Lemma after_passes_threshold env n : forall report pk sf w report' pk' sf' w',
  after_passes env n report pk sf w = Some (report', pk', sf', w') ->
  sf' = sf - Z.of_nat n * MEGABYTE
  /\ remediation_loop env n report pk sf w = (Ok (Exhausted, report'), w')
  /\ (forall m, remediation_loop env (n + m) report pk sf w
                = remediation_loop env m report' pk' sf' w').
Proof.
  induction n as [|n IH]; intros report pk sf w report' pk' sf' w' H.
  - cbn in H. injection H as <- <- <- <-. repeat split. cbn. lia.
  - cbn [after_passes] in H.
    destruct (remediation_pass env report pk sf w) as [[[[e|pk1 sf1] rep1]|e] w1] eqn:Hp;
      try discriminate.
    pose proof (remediation_pass_again _ _ _ _ _ _ _ _ _ Hp) as ->.
    destruct (IH _ _ _ _ _ _ _ _ H) as [Hsf [Hrun Hcont]].
    split; [lia|]. split.
    + cbn [remediation_loop]. rewrite (bind_ok _ _ _ _ _ Hp). exact Hrun.
    + intros m. cbn [remediation_loop Nat.add]. rewrite (bind_ok _ _ _ _ _ Hp). apply Hcont.
Qed.

Lemma after_passes_snoc env n : forall report pk sf w r1 pk1 sf1 w1 r2 pk2 sf2 w2,
  after_passes env n report pk sf w = Some (r1, pk1, sf1, w1) ->
  remediation_pass env r1 pk1 sf1 w1 = (Ok (Again pk2 sf2, r2), w2) ->
  after_passes env (S n) report pk sf w = Some (r2, pk2, sf2, w2).
Proof.
  induction n as [|n IH]; intros report pk sf w r1 pk1 sf1 w1 r2 pk2 sf2 w2 Hn Hp.
  - cbn in Hn. injection Hn as <- <- <- <-. cbn [after_passes]. now rewrite Hp.
  - cbn [after_passes] in Hn |- *.
    destruct (remediation_pass env report pk sf w) as [[[[e|pk0 sf0] rep0]|e] w0];
      try discriminate.
    eapply IH; eauto.
Qed.

(** C7, amended.  Each pass whose retry is rejected again lowers the threshold
    by exactly one [MEGABYTE], so after [n] such passes it stands at
    [MONGOSIZELIMIT - n * MEGABYTE], strictly below where it stood; nothing
    tests the threshold, and the loop carries on from that state whatever
    [n] is. *)
Theorem remediation_threshold_decreases env (n : nat) report pk w report' pk' sf' w' :
  after_passes env n report pk MONGOSIZELIMIT w = Some (report', pk', sf', w') ->
  sf' = MONGOSIZELIMIT - Z.of_nat n * MEGABYTE
  /\ ((0 < n)%nat -> sf' < MONGOSIZELIMIT)
  /\ remediation_loop env n report pk MONGOSIZELIMIT w = (Ok (Exhausted, report'), w')
  /\ (forall m, remediation_loop env (n + m) report pk MONGOSIZELIMIT w
                = remediation_loop env m report' pk' sf' w').
Proof.
  intros H. destruct (after_passes_threshold _ _ _ _ _ _ _ _ _ _ H) as [Hsf [Hrun Hcont]].
  repeat split; auto.
  intros Hn. rewrite Hsf. unfold MEGABYTE. lia.
Qed.

(** ** Equality of values *)

Lemma value_eqb_eq a : forall b, value_eqb a b = true <-> a = b.
Proof.
  induction a as [|x|x|x|x|l IH|l IH|l IH|d IH] using value_tree_ind;
    intros y; destruct y as [|x'|x'|x'|x'|m|m|m|m]; simpl;
    try (split; [discriminate | discriminate]);
    try (split; reflexivity).
  - rewrite Bool.eqb_true_iff. split; congruence.
  - rewrite Z.eqb_eq. split; congruence.
  - rewrite String.eqb_eq. split; congruence.
  - rewrite N.eqb_eq. split; congruence.
  - revert m. induction IH as [|x l Hx _ IHl]; intros [|y m]; simpl;
      try (split; [discriminate | congruence]); try (split; reflexivity).
    rewrite andb_true_iff, Hx, (IHl m).
    split; [intros [-> H]; congruence | intros H; split; congruence].
  - revert m. induction IH as [|x l Hx _ IHl]; intros [|y m]; simpl;
      try (split; [discriminate | congruence]); try (split; reflexivity).
    rewrite andb_true_iff, Hx, (IHl m).
    split; [intros [-> H]; congruence | intros H; split; congruence].
  - revert m. induction IH as [|x l Hx _ IHl]; intros [|y m]; simpl;
      try (split; [discriminate | congruence]); try (split; reflexivity).
    rewrite andb_true_iff, Hx, (IHl m).
    split; [intros [-> H]; congruence | intros H; split; congruence].
  - revert m. induction IH as [|[k x] l Hx _ IHl]; intros [|[k' y] m]; simpl;
      try (split; [discriminate | congruence]); try (split; reflexivity).
    simpl in Hx. rewrite !andb_true_iff, Hx, (IHl m).
    destruct (key_eqb_spec k k') as [->|Hne].
    + split; [intros [[_ ->] H]; congruence | intros H; repeat split; congruence].
    + split; [intros [[H _] _]; discriminate | congruence].
Qed.

Lemma value_eqb_refl a : value_eqb a a = true.
Proof. now apply value_eqb_eq. Qed.

Lemma has_id_iff id d : has_id id d = true <-> doc_id d = Some id.
Proof.
  unfold has_id. destruct (doc_id d) as [i|]; [|split; discriminate].
  rewrite value_eqb_eq. split; congruence.
Qed.

(** ** Collections with unique identifiers *)

Lemma filter_none {A} (p : A -> bool) l :
  (forall x, In x l -> p x = true) -> filter p l = l.
Proof.
  induction l as [|x l IH]; simpl; intros H; [reflexivity|].
  rewrite (H x) by now left. f_equal. apply IH. intros y Hy. apply H. now right.
Qed.

Lemma remove_first_filter id (A : list pydict) :
  NoDup (map doc_id A) ->
  remove_first (has_id id) A = filter (fun d => negb (has_id id d)) A.
Proof.
  induction A as [|d A IH]; simpl; intros Hnd; [reflexivity|].
  inversion Hnd as [|? ? Hnotin Hnd']; subst.
  destruct (has_id id d) eqn:E; simpl.
  - symmetry. apply filter_none. intros x Hx.
    destruct (has_id id x) eqn:Ex; [|reflexivity].
    exfalso. apply Hnotin. apply has_id_iff in E, Ex. rewrite E, <- Ex.
    now apply in_map.
  - f_equal. now apply IH.
Qed.

Lemma NoDup_map_filter {A B} (f : A -> B) (p : A -> bool) l :
  NoDup (map f l) -> NoDup (map f (filter p l)).
Proof.
  induction l as [|x l IH]; simpl; intros H; [constructor|].
  inversion H as [|? ? Hnotin Hnd]; subst.
  destruct (p x); simpl; [constructor|]; auto.
  intros Hin. apply Hnotin. apply in_map_iff in Hin. destruct Hin as [y [Hy Hin]].
  apply filter_In in Hin. rewrite <- Hy. apply in_map. tauto.
Qed.

Lemma NoDup_map_inj_in {A B} (f : A -> B) l x y :
  NoDup (map f l) -> In x l -> In y l -> f x = f y -> x = y.
Proof.
  induction l as [|z l IH]; simpl; intros Hnd Hx Hy Hf; [tauto|].
  inversion Hnd as [|? ? Hnotin Hnd']; subst.
  destruct Hx as [->|Hx], Hy as [->|Hy]; auto.
  - exfalso. apply Hnotin. rewrite Hf. now apply in_map.
  - exfalso. apply Hnotin. rewrite <- Hf. now apply in_map.
Qed.

Lemma ids_unique_filter p A : ids_unique A -> ids_unique (filter p A).
Proof.
  intros [Hnd Hall]. split; [now apply NoDup_map_filter|].
  rewrite Forall_forall in *. intros d Hd. apply filter_In in Hd. apply Hall. tauto.
Qed.

Lemma filter_filter {A} (p q : A -> bool) l :
  filter q (filter p l) = filter (fun x => p x && q x) l.
Proof.
  induction l as [|x l IH]; simpl; [reflexivity|].
  destruct (p x); simpl; [destruct (q x); simpl; now rewrite IH | exact IH].
Qed.

Lemma filter_ext_in_bool {A} (p q : A -> bool) l :
  (forall x, In x l -> p x = q x) -> filter p l = filter q l.
Proof.
  induction l as [|x l IH]; simpl; intros H; [reflexivity|].
  rewrite (H x) by now left. rewrite IH; [reflexivity|].
  intros y Hy. apply H. now right.
Qed.

(** Deleting, one by one, the documents found for a task leaves exactly the
    documents of the other tasks. *)
Lemma delete_found_documents task (A : list pydict) :
  ids_unique A ->
  fold_left (fun a d => remove_first (has_id (value_at d (KStr "_id"))) a)
            (filter (task_matches task) A) A
  = filter (fun d => negb (task_matches task d)) A.
Proof.
  intros HA.
  assert (Hgen : forall found current,
             NoDup (map doc_id current) ->
             fold_left (fun a d => remove_first (has_id (value_at d (KStr "_id"))) a)
                       found current
             = filter (fun d => negb (existsb (fun a => has_id (value_at a (KStr "_id")) d) found))
                      current).
  { induction found as [|a found IH]; intros current Hnd; simpl.
    - symmetry. apply filter_none. reflexivity.
    - rewrite IH.
      + rewrite remove_first_filter by exact Hnd. rewrite filter_filter.
        apply filter_ext_in_bool. intros x _. now rewrite negb_orb.
      + rewrite remove_first_filter by exact Hnd. now apply NoDup_map_filter. }
  destruct HA as [Hnd Hall]. rewrite Hgen by exact Hnd.
  apply filter_ext_in_bool. intros d Hd. f_equal.
  rewrite Forall_forall in Hall.
  assert (Hid : forall x, In x A -> doc_id x = Some (value_at x (KStr "_id"))).
  { intros x Hx. specialize (Hall x Hx). unfold doc_id, value_at in *.
    destruct (dict_get (KStr "_id") x); congruence. }
  destruct (task_matches task d) eqn:Em.
  - apply existsb_exists. exists d. split.
    + apply filter_In. auto.
    + apply has_id_iff. now apply Hid.
  - destruct (existsb _ _) eqn:Ee; [|reflexivity].
    apply existsb_exists in Ee. destruct Ee as [a [Ha Hh]].
    apply filter_In in Ha. destruct Ha as [HaA Ham].
    apply has_id_iff in Hh. rewrite <- (Hid a HaA) in Hh.
    assert (d = a) by (eapply NoDup_map_inj_in; eauto). congruence.
Qed.

(** ** Steps that leave a relation on worlds standing *)

Section Stable.

Variable R : world -> world -> Prop.
Hypothesis R_refl : forall w, R w w.
Hypothesis R_trans : forall a b c, R a b -> R b c -> R a c.

Lemma stable_ret {A} (a : A) : stable R (ret a).
Proof. intros w r w' H. injection H as _ <-. apply R_refl. Qed.

Lemma stable_raise {A} e : stable R (@raise A e).
Proof. intros w r w' H. injection H as _ <-. apply R_refl. Qed.

Lemma stable_lift {A} (x : result A) : stable R (lift x).
Proof. intros w r w' H. injection H as _ <-. apply R_refl. Qed.

Lemma stable_bind {A B} (c : M A) (f : A -> M B) :
  stable R c -> (forall a, stable R (f a)) -> stable R (bind c f).
Proof.
  intros Hc Hf w r w' H. unfold bind in H.
  destruct (c w) as [[a|e] w1] eqn:E.
  - eapply R_trans; [eapply Hc; eauto | eapply Hf; eauto].
  - injection H as _ <-. eapply Hc; eauto.
Qed.

Lemma stable_try_except {A} (c : M A) catches handler :
  stable R c -> (forall e, stable R (handler e)) -> stable R (try_except c catches handler).
Proof.
  intros Hc Hh w r w' H. unfold try_except in H.
  destruct (c w) as [[a|e] w1] eqn:E.
  - injection H as _ <-. eapply Hc; eauto.
  - destruct (catches (exn_cls e)).
    + eapply R_trans; [eapply Hc; eauto | eapply Hh; eauto].
    + injection H as _ <-. eapply Hc; eauto.
Qed.

Lemma stable_py_for {A} (l : list A) body :
  (forall x, stable R (body x)) -> stable R (py_for l body).
Proof.
  intros Hb. induction l as [|x l IH]; simpl.
  - apply stable_ret.
  - apply stable_bind; auto.
Qed.

End Stable.

Lemma quiet_step_refl w : quiet_step w w.
Proof. split; [reflexivity|]. split; [reflexivity|]. exists []. now rewrite app_nil_r. Qed.

Lemma quiet_step_trans a b c : quiet_step a b -> quiet_step b c -> quiet_step a c.
Proof.
  intros [Hab [Lab [l1 [H1 Q1]]]] [Hbc [Lbc [l2 [H2 Q2]]]].
  split; [congruence|]. split; [congruence|].
  exists (l1 ++ l2). rewrite H2, H1, <- app_assoc. split; [reflexivity|].
  rewrite forallb_app, Q1, Q2. reflexivity.
Qed.

Lemma quiet_one o w w' :
  quiet_op o = true -> analysis (db w') = analysis (db w) -> logged w' = logged w ->
  ops w' = ops w ++ [o] ->
  quiet_step w w'.
Proof.
  intros Hq Ha Hl Ho. split; [exact Ha|]. split; [exact Hl|].
  exists [o]. split; [exact Ho|]. simpl. now rewrite Hq.
Qed.

Lemma quiet_none w w' :
  analysis (db w') = analysis (db w) -> logged w' = logged w -> ops w' = ops w ->
  quiet_step w w'.
Proof.
  intros Ha Hl Ho. split; [exact Ha|]. split; [exact Hl|].
  exists []. rewrite app_nil_r. auto.
Qed.

Lemma connect_quiet env options : stable quiet_step (connect env options).
Proof.
  intros w r w' H. unfold connect in H.
  destruct (mongo_client env options) as [[]|e].
  - injection H as _ <-. now apply quiet_none.
  - destruct (exn_cls e); injection H as _ <-; apply quiet_step_refl.
Qed.

Lemma with_id_quiet doc : stable quiet_step (with_id doc).
Proof.
  intros w r w' H. unfold with_id in H.
  destruct (dict_mem (KStr "_id") doc); injection H as _ <-; now apply quiet_none.
Qed.

Lemma check_schema_quiet : stable quiet_step check_schema.
Proof.
  unfold check_schema.
  apply stable_bind; [apply quiet_step_trans| |].
  - intros w r w' H. injection H as _ <-. now apply (quiet_one OpListCollections).
  - intros [|].
    + apply stable_bind; [apply quiet_step_trans| |].
      * intros w r w' H. injection H as _ <-. now apply (quiet_one OpSchemaFindOne).
      * intros found. apply stable_bind; [apply quiet_step_trans| |].
        -- apply stable_lift, quiet_step_refl.
        -- intros version. destruct (negb _); apply stable_ret, quiet_step_refl.
    + unfold schema_insert_one.
      apply stable_bind; [apply quiet_step_trans|apply with_id_quiet|].
      intros doc w r w' H. injection H as _ <-. now apply (quiet_one (OpSchemaInsert doc)).
Qed.

Lemma build_report_quiet env results : stable quiet_step (build_report env results).
Proof.
  unfold build_report.
  apply stable_bind; [apply quiet_step_trans| |].
  - intros w r w' H.
    destruct (insert_calls env _ (calls (db w)) (next_oid (db w))) as [[r0 c] o].
    injection H as _ <-. now apply (quiet_one OpInsertCalls).
  - intros np. apply stable_bind; [apply quiet_step_trans|apply stable_lift, quiet_step_refl|].
    intros b. apply stable_bind; [apply quiet_step_trans|apply stable_lift, quiet_step_refl|].
    intros b'. apply stable_ret, quiet_step_refl.
Qed.

Lemma create_index_quiet name : stable quiet_step (create_index name).
Proof.
  intros w r w' H. injection H as _ <-. now apply (quiet_one (OpCreateIndex name)).
Qed.

(** ** The eviction *)

Lemma id_in_app l1 l2 c : id_in (l1 ++ l2) c = id_in l1 c || id_in l2 c.
Proof.
  unfold id_in. destruct (doc_id c); [apply existsb_app | reflexivity].
Qed.

Lemma id_in_nil c : id_in [] c = false.
Proof. unfold id_in. now destruct (doc_id c). Qed.

Lemma evict_calls_effect process w w' :
  evict_calls process w = (Ok tt, w') ->
  analysis (db w') = analysis (db w)
  /\ calls (db w') = filter (fun c => negb (id_in (call_ids process) c)) (calls (db w))
  /\ ops w' = ops w ++ [OpCallsDeleteMany (call_ids process)]
  /\ logged w' = logged w.
Proof.
  unfold evict_calls, bind, lift, calls_delete_many, call_ids, py_getitem.
  destruct process as [| | | | | | | |p]; try discriminate.
  destruct (dict_get (KStr "calls") p) as [ids|]; [|discriminate].
  destruct ids; try discriminate; intros H; injection H as <-; repeat split.
Qed.

Lemma evict_calls_loop processes : forall w w',
  py_for processes evict_calls w = (Ok tt, w') ->
  analysis (db w') = analysis (db w)
  /\ calls (db w') = filter (fun c => negb (id_in (flat_map call_ids processes) c)) (calls (db w))
  /\ ops w' = ops w ++ map (fun p => OpCallsDeleteMany (call_ids p)) processes
  /\ logged w' = logged w.
Proof.
  induction processes as [|p processes IH]; intros w w' H.
  - injection H as <-. rewrite app_nil_r. repeat split.
    symmetry. apply filter_none. intros c _. cbn [flat_map]. now rewrite id_in_nil.
  - cbn [py_for] in H. apply bind_inv in H. destruct H as [[] [w1 [H1 H2]]].
    apply evict_calls_effect in H1. destruct H1 as [Ha [Hc [Ho Hl]]].
    apply IH in H2. destruct H2 as [Ha' [Hc' [Ho' Hl']]].
    rewrite Ha', Hc', Ho', Hl', Ha, Hc, Ho, Hl. repeat split.
    + rewrite filter_filter. apply filter_ext_in_bool. intros c _.
      cbn [flat_map]. now rewrite id_in_app, negb_orb.
    + now rewrite <- app_assoc.
Qed.

(** A loop over the process records that runs to its end ran over
    [process_records]. *)
Lemma evicted_processes stored behavior processes l w w' :
  dict_get (KStr "behavior") stored = Some behavior ->
  py_get behavior "processes" (VList []) = Ok processes ->
  py_iter (if truthy processes then processes else VList []) = Ok l ->
  py_for l evict_calls w = (Ok tt, w') ->
  l = process_records stored.
Proof.
  intros Hb Hp Hl Hrun. unfold process_records. rewrite Hb.
  destruct behavior as [| | | | | | | |b]; try discriminate.
  cbn in Hp. destruct (dict_get (KStr "processes") b) as [v|].
  - injection Hp as ->.
    destruct processes as [|[|]|z|s|n|[|x m]|[|x m]|[|x m]|[|[k x] d]];
      cbn in Hl; try discriminate; try (injection Hl as <-; reflexivity).
    + destruct (z =? 0); cbn in Hl; [injection Hl as <-; reflexivity | discriminate].
    + destruct s as [|c s]; cbn in Hl; injection Hl as <-; [reflexivity|].
      cbn in Hrun. discriminate.
    + injection Hl as <-. exfalso. cbn in Hrun. destruct k; discriminate.
  - injection Hp as <-. cbn in Hl. injection Hl as <-. reflexivity.
Qed.

Lemma evict_analysis_effect stored w w' :
  evict_analysis stored w = (Ok tt, w') ->
  analysis (db w') = remove_first (has_id (value_at stored (KStr "_id"))) (analysis (db w))
  /\ calls (db w') = filter (fun c => negb (id_in (referenced_calls stored) c)) (calls (db w))
  /\ ops w' = ops w ++ eviction_ops stored
  /\ logged w' = logged w.
Proof.
  unfold evict_analysis. intros H.
  apply bind_inv in H. destruct H as [behavior [w1 [H1 H]]].
  apply bind_inv in H. destruct H as [processes [w2 [H2 H]]].
  apply bind_inv in H. destruct H as [l [w3 [H3 H]]].
  apply bind_inv in H. destruct H as [[] [w4 [H4 H]]].
  apply bind_inv in H. destruct H as [id [w5 [H5 H]]].
  unfold lift in H1, H2, H3, H5.
  injection H1 as H1 <-. injection H2 as H2 <-. injection H3 as H3 <-. injection H5 as H5 <-.
  cbn [py_getitem] in H1, H5.
  destruct (dict_get (KStr "behavior") stored) as [b|] eqn:Hb; [|discriminate].
  injection H1 as ->.
  assert (Hid : value_at stored (KStr "_id") = id).
  { unfold value_at. destruct (dict_get (KStr "_id") stored); [congruence | discriminate]. }
  pose proof (evicted_processes _ _ _ _ _ _ Hb H2 H3 H4) as ->.
  apply evict_calls_loop in H4. destruct H4 as [Ha [Hc [Ho Hl]]].
  unfold analysis_delete_one in H. injection H as <-.
  cbn. rewrite Ha, Hc, Ho, Hl, Hid. unfold eviction_ops, referenced_calls.
  rewrite Hid, <- app_assoc. repeat split.
Qed.

Lemma evict_loop_effect found : forall w w',
  py_for found evict_analysis w = (Ok tt, w') ->
  analysis (db w')
  = fold_left (fun a d => remove_first (has_id (value_at d (KStr "_id"))) a) found (analysis (db w))
  /\ calls (db w')
     = filter (fun c => negb (id_in (flat_map referenced_calls found) c)) (calls (db w))
  /\ ops w' = ops w ++ flat_map eviction_ops found
  /\ logged w' = logged w.
Proof.
  induction found as [|d found IH]; intros w w' H.
  - injection H as <-. rewrite app_nil_r. repeat split.
    symmetry. apply filter_none. intros c _. cbn [flat_map]. now rewrite id_in_nil.
  - cbn [py_for] in H. apply bind_inv in H. destruct H as [[] [w1 [H1 H2]]].
    apply evict_analysis_effect in H1. destruct H1 as [Ha [Hc [Ho Hl]]].
    apply IH in H2. destruct H2 as [Ha' [Hc' [Ho' Hl']]].
    rewrite Ha', Hc', Ho', Hl', Ha, Hc, Ho, Hl. repeat split.
    + rewrite filter_filter. apply filter_ext_in_bool. intros c _.
      cbn [flat_map]. now rewrite id_in_app, negb_orb.
    + cbn [flat_map]. now rewrite <- app_assoc.
Qed.

(** The eviction of lines 165-172, when it runs to its end. *)
Lemma evict_effect env report w w' :
  evict env report w = (Ok tt, w') ->
  exists task_value task,
    report_task report = Ok task_value
    /\ py_int (int_of_str env) task_value = Ok task
    /\ let found := filter (task_matches task) (analysis (db w)) in
       analysis (db w')
       = fold_left (fun a d => remove_first (has_id (value_at d (KStr "_id"))) a)
                   found (analysis (db w))
       /\ calls (db w')
          = filter (fun c => negb (id_in (flat_map referenced_calls found) c)) (calls (db w))
       /\ ops w' = ops w ++ OpAnalysisFind task :: flat_map eviction_ops found
       /\ logged w' = logged w ++ [LogDeleting task_value; LogDeleted task_value].
Proof.
  unfold evict. intros H.
  apply bind_inv in H. destruct H as [tv [w1 [H1 H]]].
  apply bind_inv in H. destruct H as [task [w2 [H2 H]]].
  apply bind_inv in H. destruct H as [found [w3 [H3 H]]].
  apply bind_inv in H. destruct H as [tv' [w4 [H4 H]]].
  apply bind_inv in H. destruct H as [[] [w5 [H5 H]]].
  apply bind_inv in H. destruct H as [[] [w6 [H6 H]]].
  apply bind_inv in H. destruct H as [tv'' [w7 [H7 H]]].
  unfold lift in H1, H2, H4, H7.
  injection H1 as H1 <-. injection H2 as H2 <-. injection H4 as H4 <-. injection H7 as H7 <-.
  unfold analysis_find in H3. injection H3 as <- <-.
  unfold write_log in H5, H. injection H5 as <-. injection H as <-.
  assert (tv' = tv) by congruence. assert (tv'' = tv) by congruence. subst tv' tv''.
  apply evict_loop_effect in H6. destruct H6 as [Ha [Hc [Ho Hl]]].
  exists tv, task. split; [exact H1|]. split; [exact H2|].
  cbn in *. rewrite Ha, Hc, Ho, Hl. repeat split.
  - now rewrite <- !app_assoc.
  - now rewrite <- !app_assoc.
Qed.

(** ** Everything before the direct insert *)

(** What [prepare] has done when it hands over the report: the documents
    found for the task are deleted one by one together with the call records
    they refer to, by the store calls of [eviction_ops], after store calls that
    write nothing to [analysis]. *)
Lemma prepare_effect env options results w report w1 :
  prepare env options results w = (Ok report, w1) ->
  exists report0 task_value task pre,
    report = ensure_valid_utf8_report env report0
    /\ report_task report0 = Ok task_value
    /\ py_int (int_of_str env) task_value = Ok task
    /\ let found := filter (task_matches task) (analysis (db w)) in
       analysis (db w1)
       = fold_left (fun a d => remove_first (has_id (value_at d (KStr "_id"))) a)
                   found (analysis (db w))
       /\ (forall c, In c (calls (db w1)) ->
                     id_in (flat_map referenced_calls found) c = false)
       /\ ops w1 = ops w ++ pre ++ OpAnalysisFind task :: flat_map eviction_ops found
       /\ forallb quiet_op pre = true
       /\ logged w1 = logged w ++ [LogDeleting task_value; LogDeleted task_value].
Proof.
  unfold prepare. intros H.
  apply bind_inv in H. destruct H as [[] [wa [Ha H]]].
  apply bind_inv in H. destruct H as [[] [wb [Hb H]]].
  apply bind_inv in H. destruct H as [[] [wc [Hc H]]].
  apply bind_inv in H. destruct H as [built [wd [Hd H]]].
  apply bind_inv in H. destruct H as [[] [we [He H]]].
  apply bind_inv in H. destruct H as [[] [wf [Hf H]]].
  apply bind_inv in H. destruct H as [report0 [wg [Hg H]]].
  apply bind_inv in H. destruct H as [[] [wh [Hh H]]].
  injection H as <- <-.
  assert (Hq : quiet_step w wg).
  { assert (Qa : quiet_step w wa).
    { destruct (negb (HAVE_MONGO env)); [discriminate|].
      injection Ha as <-. apply quiet_step_refl. }
    apply connect_quiet in Hb. apply check_schema_quiet in Hc.
    apply build_report_quiet in Hd. apply create_index_quiet in He, Hf.
    injection Hg as _ <-.
    repeat (eapply quiet_step_trans; [eassumption|]). apply quiet_step_refl. }
  destruct Hq as [Qa [Ql [pre [Qo Qp]]]].
  apply evict_effect in Hh. destruct Hh as [tv [task [Ht [Hi [Ea [Ec [Eo El]]]]]]].
  exists report0, tv, task, pre. split; [reflexivity|]. split; [exact Ht|]. split; [exact Hi|].
  cbn zeta. rewrite Qa in *. rewrite Ea, Eo, El, Qo, Ql. repeat split.
  - intros c Hc'. rewrite Ec in Hc'. apply filter_In in Hc'. destruct Hc' as [_ Hn].
    now apply negb_true_iff in Hn.
  - now rewrite <- app_assoc.
  - exact Qp.
Qed.

(** ** The direct insert *)

Lemma run_inv env options fuel results w e rep w2 :
  run env options fuel results w = (Ok (e, rep), w2) ->
  exists report w1 ws,
    prepare env options results w = (Ok report, w1)
    /\ store_report env options fuel report w1 = (Ok (e, rep), ws)
    /\ w2 = match e with
            | FallThrough _ => set_conn false (add_op OpClose ws)
            | _ => ws
            end.
Proof.
  unfold run. intros H.
  apply bind_inv in H. destruct H as [report [w1 [H1 H]]].
  apply bind_inv in H. destruct H as [[e' rep'] [ws [H2 H]]].
  exists report, w1, ws. split; [exact H1|].
  destruct e' as [o|o|]; cbn in H; injection H as <- <- <-; auto.
Qed.

Lemma remediation_pass_stops env report pk sf w e report' w' :
  remediation_pass env report pk sf w = (Ok (Stop e, report'), w') ->
  e = FallThrough Remediated \/ e = FallThrough RemediationFailed
  \/ e = EarlyReturn RemediationAborted.
Proof.
  unfold remediation_pass.
  destruct (delete_children report pk sf) as [[r rep] lg].
  unfold try_except, bind, write_log, lift, ret.
  destruct r as [[]|e0]; [|cbn; intros H; injection H as <- _ _; auto].
  destruct (with_id rep (add_log lg w)) as [[rep1|e0] w1];
    [|cbn; intros H; injection H as <- _ _; auto].
  destruct (analysis_insert_one env rep1 w1) as [[[]|e0] w2];
    [intros H; injection H as <- _ _; auto|].
  destruct (is_InvalidDocument (exn_cls e0)); [|cbn; intros H; injection H as <- _ _; auto].
  destruct (startswith (exn_msg e0) "documents must have only string keys");
    [intros H; injection H as <- _ _; auto|].
  destruct (largest (VDict rep1)) as [[pk' psize]|e'];
    [discriminate | cbn; intros H; injection H as <- _ _; auto].
Qed.

Lemma remediation_loop_exits env fuel : forall report pk sf w e report' w',
  remediation_loop env fuel report pk sf w = (Ok (e, report'), w') ->
  e = Exhausted \/ e = FallThrough Remediated \/ e = FallThrough RemediationFailed
  \/ e = EarlyReturn RemediationAborted.
Proof.
  induction fuel as [|fuel IH]; intros report pk sf w e report' w' H.
  - injection H as <- _ _. auto.
  - cbn [remediation_loop] in H. apply bind_inv in H.
    destruct H as [[p rep] [w1 [Hp H]]]. destruct p as [e1|pk1 sf1].
    + injection H as <- _ _. apply remediation_pass_stops in Hp. tauto.
    + eapply IH; eauto.
Qed.

Lemma with_id_effect doc w doc' w' :
  with_id doc w = (Ok doc', w') ->
  (doc' = doc /\ w' = w /\ dict_mem (KStr "_id") doc = true
   \/ doc' = dict_set (KStr "_id") (VOid (next_oid (db w))) doc
      /\ w' = set_db (set_next_oid (N.succ (next_oid (db w)))) w
      /\ dict_mem (KStr "_id") doc = false).
Proof.
  unfold with_id. destruct (dict_mem (KStr "_id") doc); intros H; injection H as <- <-; auto.
Qed.

Lemma analysis_insert_one_ok env doc w w' :
  analysis_insert_one env doc w = (Ok tt, w') ->
  insert_verdict env doc = Ok tt
  /\ (exists id, doc_id doc = Some id /\ existsb (has_id id) (analysis (db w)) = false)
  /\ w' = set_db (set_analysis (analysis (db w) ++ [doc])) (add_op (OpAnalysisInsert doc) w).
Proof.
  unfold analysis_insert_one.
  destruct (insert_verdict env doc) as [[]|e]; [|discriminate].
  destruct (doc_id doc) as [id|]; [|discriminate].
  cbn [db add_op analysis].
  destruct (existsb (has_id id) (analysis (db w))) eqn:E; [discriminate|].
  intros H. injection H as <-. split; [reflexivity|]. split; [|reflexivity].
  exists id. auto.
Qed.

Lemma store_report_saved env options fuel report w1 rep ws :
  store_report env options fuel report w1 = (Ok (FallThrough Saved, rep), ws) ->
  exists w1', with_id report w1 = (Ok rep, w1')
              /\ analysis_insert_one env rep w1' = (Ok tt, ws).
Proof.
  unfold store_report. intros H.
  apply bind_inv in H. destruct H as [rid [w1' [Hid H]]].
  unfold try_except in H. unfold bind at 1 in H.
  destruct (analysis_insert_one env rid w1') as [[[]|e] wa] eqn:Hins.
  - injection H as <- <-. eauto.
  - destruct (is_InvalidDocument (exn_cls e)); [|discriminate].
    destruct (_ || _).
    + apply bind_inv in H. destruct H as [[] [wb [_ H]]]. discriminate.
    + apply bind_inv in H. destruct H as [[pk psize] [wb [_ H]]].
      destruct (negb _).
      * apply bind_inv in H. destruct H as [[] [wc [_ H]]]. discriminate.
      * apply remediation_loop_exits in H.
        destruct H as [H|[H|[H|H]]]; discriminate.
Qed.

(** ** The task identifier of a report *)

Lemma dict_get_set_other k k' v d :
  k <> k' -> dict_get k (dict_set k' v d) = dict_get k d.
Proof.
  intros Hne. induction d as [|[k0 v0] d IH]; simpl.
  - destruct (key_eqb_spec k k'); congruence.
  - destruct (key_eqb_spec k' k0) as [->|Hn0]; simpl.
    + destruct (key_eqb_spec k k0); congruence.
    + destruct (key_eqb_spec k k0); [reflexivity | exact IH].
Qed.

Lemma dict_get_map k (f : value -> value) d :
  dict_get k (map (fun kv => (fst kv, f (snd kv))) d) = option_map f (dict_get k d).
Proof.
  induction d as [|[k0 v0] d IH]; simpl; [reflexivity|].
  destruct (key_eqb k k0); [reflexivity | exact IH].
Qed.

Lemma report_task_with_id report w rep w' :
  with_id report w = (Ok rep, w') -> report_task rep = report_task report.
Proof.
  intros H. apply with_id_effect in H. destruct H as [[-> _]|[-> _]]; [reflexivity|].
  unfold report_task. cbn [py_getitem]. rewrite dict_get_set_other by discriminate. reflexivity.
Qed.

Lemma report_task_sanitized env report task :
  report_task (ensure_valid_utf8_report env report) = Ok (VInt task) ->
  report_task report = Ok (VInt task).
Proof.
  unfold report_task, ensure_valid_utf8_report. cbn [py_getitem].
  rewrite dict_get_map. destruct (dict_get (KStr "info") report) as [info|]; [|discriminate].
  cbn [option_map rbind].
  destruct info as [| | | | | | | |d]; try discriminate.
  cbn [ensure_valid_utf8 py_getitem]. rewrite dict_get_map.
  destruct (dict_get (KStr "id") d) as [x|]; [|discriminate]. cbn [option_map].
  destruct x; cbn; congruence.
Qed.

Lemma report_task_matches rep task :
  report_task rep = Ok (VInt task) -> task_matches task rep = true.
Proof.
  unfold report_task, task_matches. cbn [py_getitem].
  destruct (dict_get (KStr "info") rep) as [info|]; [|discriminate]. cbn [rbind].
  destruct info as [| | | | | | | |d]; try discriminate. cbn [py_getitem].
  destruct (dict_get (KStr "id") d) as [x|]; [|discriminate].
  intros H. injection H as ->. apply Z.eqb_refl.
Qed.

Lemma id_in_false l c id : id_in l c = false -> In id l -> doc_id c <> Some id.
Proof.
  unfold id_in. intros H Hin Hc. rewrite Hc in H.
  assert (existsb (value_eqb id) l = true); [|congruence].
  apply existsb_exists. exists id. split; [exact Hin | apply value_eqb_refl].
Qed.

Lemma ids_unique_snoc A doc id :
  ids_unique A -> doc_id doc = Some id -> existsb (has_id id) A = false ->
  ids_unique (A ++ [doc]).
Proof.
  intros [Hnd Hall] Hid Hfresh. split.
  - rewrite map_app. cbn [map].
    apply (Permutation_NoDup (Permutation_cons_append (map doc_id A) (doc_id doc))).
    constructor; [|exact Hnd].
    intros Hin. apply in_map_iff in Hin. destruct Hin as [d [Hd Hin]].
    assert (existsb (has_id id) A = true); [|congruence].
    apply existsb_exists. exists d. split; [exact Hin|].
    apply has_id_iff. congruence.
  - apply Forall_app. split; [exact Hall|]. constructor; [congruence | constructor].
Qed.

Lemma filter_matches_none task (A : list pydict) :
  filter (task_matches task) (filter (fun d => negb (task_matches task d)) A) = [].
Proof.
  rewrite filter_filter. induction A as [|d A IH]; simpl; [reflexivity|].
  destruct (task_matches task d); simpl; exact IH.
Qed.

(** ** Replacing the document of a task *)

(** ** The largest key of a non-empty mapping *)

Lemma totals_add_length root n totals : List.length (totals_add root n totals) = List.length totals.
Proof.
  induction totals as [|[k t] rest IH]; simpl; [reflexivity|].
  destruct (key_eqb root k); simpl; congruence.
Qed.

Lemma walk_top_length d : forall totals, List.length (walk_top d totals) = List.length totals.
Proof.
  induction d as [|[k v] d IH]; intros totals; simpl; [reflexivity|].
  now rewrite IH, walk_string_chars, totals_add_length.
Qed.

Lemma totals_init_length ks : forall totals,
  (List.length totals <= List.length (totals_init ks totals))%nat.
Proof.
  induction ks as [|k ks IH]; intros totals; simpl; [lia|].
  eapply Nat.le_trans; [|apply IH].
  destruct (existsb _ _); [rewrite totals_add_length | rewrite List.length_app; simpl]; lia.
Qed.

Lemma largest_of_mapping d :
  d <> [] -> exists pk psize, largest (VDict d) = Ok (pk, psize).
Proof.
  intros Hd. unfold largest. cbn [debug_dict_size profile rbind].
  destruct (sorted_desc _) as [|[pk psize] rest] eqn:E; [|eauto].
  exfalso.
  pose proof (Permutation_length (sorted_desc_perm
                (walk_top d (totals_init (dict_keys d) [])))) as Hlen.
  rewrite E, walk_top_length in Hlen.
  destruct d as [|[k v] d]; [congruence|]. cbn [dict_keys map totals_init existsb] in Hlen.
  pose proof (totals_init_length (map fst d) ([] ++ [(k, 0)])) as Hge.
  cbn in Hge, Hlen. unfold dict_keys in Hlen. lia.
Qed.

Lemma dict_set_nonempty k v d : dict_set k v d <> [].
Proof.
  destruct d as [|[k0 v0] d]; simpl; [discriminate|].
  destruct (key_eqb k k0); discriminate.
Qed.

Lemma with_id_nonempty doc w doc' w' : with_id doc w = (Ok doc', w') -> doc' <> [].
Proof.
  intros H. apply with_id_effect in H. destruct H as [[-> [_ Hm]]|[-> _]].
  - destruct doc; [discriminate | discriminate].
  - apply dict_set_nonempty.
Qed.

Lemma with_id_keeps doc w doc' w' k v :
  with_id doc w = (Ok doc', w') -> dict_get k doc = Some v -> dict_get k doc' = Some v.
Proof.
  intros H Hk. apply with_id_effect in H. destruct H as [[-> _]|[-> [_ Hm]]]; [exact Hk|].
  destruct (key_eqb_spec k (KStr "_id")) as [->|Hne].
  - unfold dict_mem in Hm. now rewrite Hk in Hm.
  - now rewrite dict_get_set_other.
Qed.

(** ** The diagnostic-only outcome *)

Lemma store_report_diagnosed env options fuel report w1 rid w1' e :
  fix_large_docs options = false ->
  with_id report w1 = (Ok rid, w1') ->
  insert_verdict env rid = Raise e ->
  exn_cls e = InvalidDocument ->
  startswith (exn_msg e) "cannot encode object" = false ->
  endswith (exn_msg e) "must not contain '.'" = false ->
  exists pk psize,
    largest (VDict rid) = Ok (pk, psize)
    /\ store_report env options fuel report w1
       = (Ok (FallThrough Diagnosed, rid),
          add_log [LogLargestParentKey pk (psize / MEGABYTE)]
                  (add_op (OpAnalysisInsert rid) w1')).
Proof.
  intros Hopt Hid Hv Hcls Hs He.
  destruct (largest_of_mapping rid (with_id_nonempty _ _ _ _ Hid)) as [pk [psize Hl]].
  exists pk, psize. split; [exact Hl|].
  unfold store_report. rewrite (bind_ok _ _ _ _ _ Hid).
  unfold try_except, bind at 1. unfold analysis_insert_one at 1. rewrite Hv, Hcls.
  cbn [is_InvalidDocument]. rewrite Hs, He. cbn [orb].
  unfold bind at 1, lift at 1. rewrite Hl, Hopt. reflexivity.
Qed.

(** The whole run on that path. *)
Lemma run_diagnosed_effect env options fuel results w report w1 rid w1' e :
  fix_large_docs options = false ->
  prepare env options results w = (Ok report, w1) ->
  with_id report w1 = (Ok rid, w1') ->
  insert_verdict env rid = Raise e ->
  exn_cls e = InvalidDocument ->
  startswith (exn_msg e) "cannot encode object" = false ->
  endswith (exn_msg e) "must not contain '.'" = false ->
  exists pk psize w2,
    largest (VDict rid) = Ok (pk, psize)
    /\ run env options fuel results w = (Ok (FallThrough Diagnosed, rid), w2)
    /\ (forall k v, dict_get k report = Some v -> dict_get k rid = Some v)
    /\ analysis (db w2) = analysis (db w1)
    /\ calls (db w2) = calls (db w1)
    /\ ops w2 = ops w1 ++ [OpAnalysisInsert rid; OpClose]
    /\ logged w2 = logged w1 ++ [LogLargestParentKey pk (psize / MEGABYTE)]
    /\ conn_open w2 = false
    /\ (forall task,
          ids_unique (analysis (db w)) -> report_task rid = Ok (VInt task) ->
          filter (task_matches task) (analysis (db w2)) = []).
Proof.
  intros Hopt Hprep Hid Hv Hcls Hs He.
  destruct (store_report_diagnosed env options fuel _ _ _ _ _ Hopt Hid Hv Hcls Hs He)
    as [pk [psize [Hl Hstore]]].
  exists pk, psize. eexists. split; [exact Hl|]. split.
  { unfold run. rewrite (bind_ok _ _ _ _ _ Hprep), (bind_ok _ _ _ _ _ Hstore). reflexivity. }
  assert (Hw : analysis (db w1') = analysis (db w1) /\ calls (db w1') = calls (db w1)
               /\ ops w1' = ops w1 /\ logged w1' = logged w1).
  { pose proof (with_id_effect _ _ _ _ Hid) as [[_ [-> _]]|[_ [-> _]]]; repeat split. }
  destruct Hw as [Wa [Wc [Wo Wl]]].
  cbn. rewrite Wa, Wc, Wo, Wl, <- app_assoc. repeat split.
  - intros k v. now apply (with_id_keeps _ _ _ _ _ _ Hid).
  - intros task Hu Htask.
    pose proof (report_task_with_id _ _ _ _ Hid) as Hrt. rewrite Htask in Hrt.
    apply prepare_effect in Hprep.
    destruct Hprep as [report0 [tv [task' [pre [-> [Ht [Hi [Ha _]]]]]]]].
    symmetry in Hrt. apply report_task_sanitized in Hrt.
    rewrite Hrt in Ht. injection Ht as <-. cbn in Hi. injection Hi as <-.
    rewrite Ha, delete_found_documents by exact Hu. apply filter_matches_none.
Qed.

(** C6.  With [fix_large_docs] off and the direct insert rejected for its
    size (an [InvalidDocument] that is not one of the two messages that send
    the report to [loop_saver]), [run] keeps every key of the report, makes no
    store call besides the rejected insert and the closing of the connection,
    logs the largest parent key, and leaves the [analysis] collection as the
    eviction left it: without a document for the task. *)
Theorem run_diagnoses_without_deleting env options fuel results w report w1 rid w1' e :
  fix_large_docs options = false ->
  prepare env options results w = (Ok report, w1) ->
  with_id report w1 = (Ok rid, w1') ->
  insert_verdict env rid = Raise e ->
  exn_cls e = InvalidDocument ->
  startswith (exn_msg e) "cannot encode object" = false ->
  endswith (exn_msg e) "must not contain '.'" = false ->
  exists pk psize w2,
    largest (VDict rid) = Ok (pk, psize)
    /\ run env options fuel results w = (Ok (FallThrough Diagnosed, rid), w2)
    /\ (forall k v, dict_get k report = Some v -> dict_get k rid = Some v)
    /\ analysis (db w2) = analysis (db w1)
    /\ calls (db w2) = calls (db w1)
    /\ ops w2 = ops w1 ++ [OpAnalysisInsert rid; OpClose]
    /\ logged w2 = logged w1 ++ [LogLargestParentKey pk (psize / MEGABYTE)]
    /\ conn_open w2 = false
    /\ (forall task,
          ids_unique (analysis (db w)) -> report_task rid = Ok (VInt task) ->
          filter (task_matches task) (analysis (db w2)) = []).
Proof. apply run_diagnosed_effect. Qed.

(** ** Mapping keys on the way to the store *)

Lemma keys_all_str_sanitized env v :
  keys_all_str (ensure_valid_utf8 env v) = keys_all_str v.
Proof.
  induction v as [| | | | |l IH|l IH|l IH|d IH] using value_tree_ind; try reflexivity.
  - cbn [ensure_valid_utf8 keys_all_str].
    induction IH as [|x l Hx _ IHl]; [reflexivity|]. cbn [map forallb]. now rewrite Hx, IHl.
  - cbn [ensure_valid_utf8 keys_all_str].
    induction IH as [|[k x] l Hx _ IHl]; [reflexivity|]. cbn [map forallb fst snd] in *.
    now rewrite Hx, IHl.
Qed.

Lemma dict_keys_set_incl k k' v d : In k (dict_keys d) -> In k (dict_keys (dict_set k' v d)).
Proof.
  induction d as [|[k0 v0] d IH]; simpl; [tauto|].
  destruct (key_eqb k' k0); simpl; tauto.
Qed.

Lemma dict_keys_sanitized env report :
  dict_keys (ensure_valid_utf8_report env report) = dict_keys report.
Proof.
  unfold dict_keys, ensure_valid_utf8_report. rewrite map_map. reflexivity.
Qed.

Lemma build_report_keeps env results w built w' :
  build_report env results w = (Ok built, w') ->
  (forall k, In k (dict_keys (get_json_document env results)) -> In k (dict_keys built))
  /\ (forall k v, dict_get k (get_json_document env results) = Some v ->
                  k <> KStr "behavior" -> dict_get k built = Some v).
Proof.
  unfold build_report. intros H.
  apply bind_inv in H. destruct H as [np [wa [_ H]]].
  apply bind_inv in H. destruct H as [b [wb [_ H]]].
  apply bind_inv in H. destruct H as [b' [wc [_ H]]].
  injection H as <- _. split.
  - intros k Hk. apply dict_keys_set_incl.
    destruct (negb _); [now apply dict_keys_set_incl | exact Hk].
  - intros k v Hk Hne. rewrite dict_get_set_other by exact Hne.
    destruct (dict_mem (KStr "network") (get_json_document env results)) eqn:Hm;
      cbn [negb]; [exact Hk|].
    rewrite dict_get_set_other; [exact Hk|].
    intros ->. unfold dict_mem in Hm. now rewrite Hk in Hm.
Qed.

Lemma resolve_task_id_keeps env results built report0 :
  resolve_task_id env results built = Ok report0 ->
  (forall k, In k (dict_keys built) -> In k (dict_keys report0))
  /\ (forall k, k <> KStr "info" -> dict_get k report0 = dict_get k built).
Proof.
  unfold resolve_task_id, rbind.
  destruct (py_get (VDict results) "info" (VDict [])) as [info|]; [|discriminate].
  destruct (py_get info "options" (VDict [])) as [opts|]; [|discriminate].
  destruct (py_get opts "main_task_id" (VStr "")) as [mtid|]; [|discriminate].
  destruct (truthy mtid).
  - destruct (py_int (int_of_str env) mtid) as [n|]; [|discriminate].
    destruct (py_getitem (VDict built) "info") as [rinfo|]; [|discriminate].
    destruct (py_setitem rinfo "id" (VInt n)) as [rinfo'|]; [|discriminate].
    intros H. injection H as <-. split.
    + intros k. apply dict_keys_set_incl.
    + intros k Hne. now apply dict_get_set_other.
  - intros H. injection H as <-. auto.
Qed.

Lemma prepare_keeps env options results w report w1 :
  prepare env options results w = (Ok report, w1) ->
  (forall k, In k (dict_keys (get_json_document env results)) -> In k (dict_keys report))
  /\ (forall k v, dict_get k (get_json_document env results) = Some v ->
                  k <> KStr "behavior" -> k <> KStr "info" ->
                  dict_get k report = Some (ensure_valid_utf8 env v)).
Proof.
  unfold prepare. intros H.
  apply bind_inv in H. destruct H as [[] [wa [Ha H]]].
  apply bind_inv in H. destruct H as [[] [wb [Hb H]]].
  apply bind_inv in H. destruct H as [[] [wc [Hc H]]].
  apply bind_inv in H. destruct H as [built [wd [Hd H]]].
  apply bind_inv in H. destruct H as [[] [we [He H]]].
  apply bind_inv in H. destruct H as [[] [wf [Hf H]]].
  apply bind_inv in H. destruct H as [report0 [wg [Hg H]]].
  apply bind_inv in H. destruct H as [[] [wh [Hh H]]].
  injection H as <- <-. injection Hg as Hg _.
  apply build_report_keeps in Hd. destruct Hd as [Bk Bv].
  apply resolve_task_id_keeps in Hg. destruct Hg as [Rk Rv].
  split.
  - intros k Hk. rewrite dict_keys_sanitized. auto.
  - intros k v Hk Hb' Hi. unfold ensure_valid_utf8_report.
    rewrite dict_get_map, Rv, (Bv k v) by assumption. reflexivity.
Qed.

Lemma string_keys_message_not_encode msg :
  startswith msg "documents must have only string keys" = true ->
  startswith msg "cannot encode object" = false.
Proof.
  unfold startswith. destruct msg as [|c msg]; [discriminate|]. cbn [String.prefix].
  destruct (ascii_dec "d" c) as [<-|_]; [reflexivity | discriminate].
Qed.

(** The retry of a pass that the store rejects for non-string keys: the two
    errors are logged and [run] returns. *)
Lemma remediation_pass_string_keys env report pk sf w rep lg rid w' e :
  delete_children report pk sf = (Ok tt, rep, lg) ->
  with_id rep (add_log lg w) = (Ok rid, w') ->
  insert_verdict env rid = Raise e ->
  exn_cls e = InvalidDocument ->
  startswith (exn_msg e) "documents must have only string keys" = true ->
  remediation_pass env report pk sf w
  = (Ok (Stop (EarlyReturn RemediationAborted), rid),
     add_log [LogSearchBug; LogError (exn_msg e)] (add_op (OpAnalysisInsert rid) w')).
Proof.
  intros Hd Hid Hv Hcls Hs. unfold remediation_pass. rewrite Hd.
  unfold try_except at 1. unfold bind at 1, write_log at 1.
  unfold bind at 1, lift at 1. rewrite (bind_ok _ _ _ _ _ Hid).
  unfold try_except, bind at 1, analysis_insert_one at 1. rewrite Hv, Hcls.
  cbn [is_InvalidDocument]. rewrite Hs. reflexivity.
Qed.

(** C2, amended.  [run] does not call [fix_int2str].  Every top-level key of
    the report that [get_json_document] returns is a key of the document
    handed to [insert_one], and every section other than [behavior] and [info]
    arrives with its mapping keys as they were (only its strings sanitized);
    up to the insert the log holds the two eviction lines and no "BAD KEY"
    line.  When the store rejects the document for non-string keys, the
    error is handled on the oversize branch: with [fix_large_docs] off the
    largest parent key is logged and nothing is stored; with it on, a retry
    rejected for non-string keys logs the two errors and returns. *)
Theorem run_inserts_keys_as_given env options fuel results w report w1 rid w1' :
  prepare env options results w = (Ok report, w1) ->
  with_id report w1 = (Ok rid, w1') ->
  (forall k, In k (dict_keys (get_json_document env results)) -> In k (dict_keys rid))
  /\ (forall k v,
        dict_get k (get_json_document env results) = Some v ->
        k <> KStr "behavior" -> k <> KStr "info" ->
        dict_get k rid = Some (ensure_valid_utf8 env v)
        /\ keys_all_str (ensure_valid_utf8 env v) = keys_all_str v)
  /\ (exists task_value,
        logged w1' = logged w ++ [LogDeleting task_value; LogDeleted task_value])
  /\ (forall e,
        insert_verdict env rid = Raise e ->
        exn_cls e = InvalidDocument ->
        startswith (exn_msg e) "documents must have only string keys" = true ->
        endswith (exn_msg e) "must not contain '.'" = false ->
        fix_large_docs options = false ->
        exists pk psize w2,
          run env options fuel results w = (Ok (FallThrough Diagnosed, rid), w2)
          /\ analysis (db w2) = analysis (db w1)
          /\ logged w2 = logged w1 ++ [LogLargestParentKey pk (psize / MEGABYTE)])
  /\ (forall doc pk sf w0 doc' lg rid' w0' e,
        delete_children doc pk sf = (Ok tt, doc', lg) ->
        with_id doc' (add_log lg w0) = (Ok rid', w0') ->
        insert_verdict env rid' = Raise e ->
        exn_cls e = InvalidDocument ->
        startswith (exn_msg e) "documents must have only string keys" = true ->
        remediation_pass env doc pk sf w0
        = (Ok (Stop (EarlyReturn RemediationAborted), rid'),
           add_log [LogSearchBug; LogError (exn_msg e)] (add_op (OpAnalysisInsert rid') w0'))).
Proof.
  intros Hprep Hid.
  destruct (prepare_keeps _ _ _ _ _ _ Hprep) as [Pk Pv].
  repeat split.
  - intros k Hk. specialize (Pk k Hk).
    pose proof (with_id_effect _ _ _ _ Hid) as [[-> _]|[-> _]]; [exact Pk|].
    now apply dict_keys_set_incl.
  - eapply with_id_keeps; [exact Hid|]. now apply Pv.
  - apply keys_all_str_sanitized.
  - destruct (prepare_effect _ _ _ _ _ _ Hprep)
      as [report0 [tv [task [pre [_ [_ [_ [_ [_ [_ [_ Hl]]]]]]]]]]].
    exists tv. rewrite <- Hl.
    pose proof (with_id_effect _ _ _ _ Hid) as [[_ [-> _]]|[_ [-> _]]]; reflexivity.
  - intros e Hv Hcls Hs He Hopt.
    destruct (run_diagnosed_effect env options fuel _ _ _ _ _ _ _
                Hopt Hprep Hid Hv Hcls (string_keys_message_not_encode _ Hs) He)
      as [pk [psize [w2 [_ [Hrun [_ [Ha [_ [_ [Hl _]]]]]]]]]].
    exists pk, psize, w2. auto.
  - intros. now apply remediation_pass_string_keys with (rep := doc') (lg := lg).
Qed.

(** ** Exceptions of the deletion step *)

Lemma run_falls_through env options fuel results w report w1 o rep ws :
  prepare env options results w = (Ok report, w1) ->
  store_report env options fuel report w1 = (Ok (FallThrough o, rep), ws) ->
  run env options fuel results w
  = (Ok (FallThrough o, rep), set_conn false (add_op OpClose ws)).
Proof.
  intros Hp Hs. unfold run. rewrite (bind_ok _ _ _ _ _ Hp), (bind_ok _ _ _ _ _ Hs).
  reflexivity.
Qed.

(** C10.  The remediation loop never raises: whatever the profiling, the
    deletion or the retry raise is caught by its [except Exception].  When the
    deletion step raises, the pass logs "Failed to delete child key" and the
    loop ends there without a store call; [run] then falls through to
    [self.conn.close()]. *)
Theorem remediation_catches_deletion_errors env options fuel :
  (forall report pk sf w,
      exists e report' w',
        remediation_loop env fuel report pk sf w = (Ok (e, report'), w'))
  /\ (forall report pk sf w e report' lg,
        delete_children report pk sf = (Raise e, report', lg) ->
        remediation_loop env (S fuel) report pk sf w
        = (Ok (FallThrough RemediationFailed, report'),
           add_log [LogFailedDelete e] (add_log lg w))
        /\ ops (add_log [LogFailedDelete e] (add_log lg w)) = ops w
        /\ db (add_log [LogFailedDelete e] (add_log lg w)) = db w)
  /\ (forall results w report w1 o rep ws,
        prepare env options results w = (Ok report, w1) ->
        store_report env options fuel report w1 = (Ok (FallThrough o, rep), ws) ->
        run env options fuel results w
        = (Ok (FallThrough o, rep), set_conn false (add_op OpClose ws))
        /\ conn_open (set_conn false (add_op OpClose ws)) = false).
Proof.
  split; [|split].
  - intros. apply remediation_loop_returns.
  - intros report pk sf w e report' lg H. split; [|split; reflexivity].
    cbn [remediation_loop].
    rewrite (bind_ok _ _ _ _ _ (remediation_pass_catches env _ _ _ w _ _ _ H)).
    reflexivity.
  - intros results w report w1 o rep ws Hp Hs.
    split; [exact (run_falls_through _ _ _ _ _ _ _ _ _ _ Hp Hs) | reflexivity].
Qed.

(** ** The connection on the paths that return early *)

Lemma conn_kept_refl w : conn_kept w w.
Proof. split; auto. Qed.

Lemma conn_kept_trans a b c : conn_kept a b -> conn_kept b c -> conn_kept a c.
Proof. intros [H1 H2] [H3 H4]. split; [congruence | auto]. Qed.

Ltac conn_primitive :=
  let w := fresh "w" in let r := fresh "r" in let w' := fresh "w'" in let H := fresh "H" in
  intros w r w' H;
  repeat match type of H with
         | context [match ?x with _ => _ end] => destruct x
         | context [if ?x then _ else _] => destruct x
         end;
  injection H as _ <-;
  (split; [reflexivity | cbn; rewrite ?in_app_iff; cbn; intuition discriminate]).

Lemma write_log_conn lg : stable conn_kept (write_log lg).
Proof. unfold write_log. conn_primitive. Qed.

Lemma with_id_conn doc : stable conn_kept (with_id doc).
Proof. unfold with_id. conn_primitive. Qed.

Lemma analysis_insert_one_conn env doc : stable conn_kept (analysis_insert_one env doc).
Proof. unfold analysis_insert_one. conn_primitive. Qed.

Lemma analysis_update_one_conn env id k v : stable conn_kept (analysis_update_one env id k v).
Proof. unfold analysis_update_one. conn_primitive. Qed.

Lemma analysis_find_conn task : stable conn_kept (analysis_find task).
Proof. unfold analysis_find. conn_primitive. Qed.

Lemma calls_delete_many_conn ids : stable conn_kept (calls_delete_many ids).
Proof. unfold calls_delete_many. conn_primitive. Qed.

Lemma analysis_delete_one_conn id : stable conn_kept (analysis_delete_one id).
Proof. unfold analysis_delete_one. conn_primitive. Qed.

Lemma create_index_conn name : stable conn_kept (create_index name).
Proof. unfold create_index, record_op. conn_primitive. Qed.

Ltac conn_steps :=
  repeat first
    [ apply stable_ret; exact conn_kept_refl
    | apply stable_raise; exact conn_kept_refl
    | apply stable_lift; exact conn_kept_refl
    | apply write_log_conn | apply with_id_conn | apply analysis_insert_one_conn
    | apply analysis_update_one_conn | apply analysis_find_conn
    | apply calls_delete_many_conn | apply analysis_delete_one_conn
    | apply create_index_conn
    | apply stable_bind; [exact conn_kept_trans | | intros ?]
    | apply stable_try_except; [exact conn_kept_trans | | intros ?]
    | apply stable_py_for; [exact conn_kept_refl | exact conn_kept_trans | intros ?] ].

Lemma check_schema_conn : stable conn_kept check_schema.
Proof.
  unfold check_schema. apply stable_bind; [exact conn_kept_trans | |intros [|]].
  - unfold schema_collection_listed. conn_primitive.
  - apply stable_bind; [exact conn_kept_trans | |intros found].
    + unfold schema_find_one. conn_primitive.
    + conn_steps. destruct (negb _); conn_steps.
  - unfold schema_insert_one. apply stable_bind; [exact conn_kept_trans | apply with_id_conn|].
    intros doc. conn_primitive.
Qed.

Lemma build_report_conn env results : stable conn_kept (build_report env results).
Proof.
  unfold build_report. apply stable_bind; [exact conn_kept_trans | |intros np; conn_steps].
  intros w r w' H.
  destruct (insert_calls env _ (calls (db w)) (next_oid (db w))) as [[r0 c] o].
  injection H as _ <-. split; [reflexivity|].
  cbn. rewrite in_app_iff. cbn. intuition discriminate.
Qed.

Lemma evict_conn env report : stable conn_kept (evict env report).
Proof. unfold evict, evict_analysis, evict_calls. conn_steps. Qed.

Lemma loop_saver_conn env report : stable conn_kept (loop_saver env report).
Proof.
  unfold loop_saver. destruct (negb _); [apply write_log_conn|].
  unfold update_key. conn_steps. destruct (dict_get _ report); conn_steps.
Qed.

Lemma remediation_pass_conn env report pk sf :
  stable conn_kept (remediation_pass env report pk sf).
Proof.
  unfold remediation_pass. destruct (delete_children report pk sf) as [[r rep] lg].
  conn_steps. destruct (startswith _ _); conn_steps.
  match goal with |- stable _ (let '(_, _) := ?x in _) => destruct x end. conn_steps.
Qed.

Lemma remediation_loop_conn env fuel : forall report pk sf,
  stable conn_kept (remediation_loop env fuel report pk sf).
Proof.
  induction fuel as [|fuel IH]; intros report pk sf; cbn [remediation_loop]; [conn_steps|].
  apply stable_bind; [exact conn_kept_trans | apply remediation_pass_conn |].
  intros [[e|pk' sf'] rep]; [conn_steps | apply IH].
Qed.

Lemma store_report_conn env options fuel report :
  stable conn_kept (store_report env options fuel report).
Proof.
  unfold store_report. conn_steps.
  destruct (_ || _); conn_steps.
  - apply loop_saver_conn.
  - match goal with |- stable _ (let '(_, _) := ?x in _) => destruct x end.
    destruct (negb _); [conn_steps | apply remediation_loop_conn].
Qed.

(** Whatever the report and the store, a run that ends at one of the two
    [return] statements leaves the connection open and has not called
    [close]. *)
Lemma run_early_return_keeps_connection env options fuel results w o rep w' :
  run env options fuel results w = (Ok (EarlyReturn o, rep), w') ->
  conn_open w' = true /\ (In OpClose (ops w') -> In OpClose (ops w)).
Proof.
  intros H. apply run_inv in H. destruct H as [report [w1 [ws [Hp [Hs ->]]]]].
  apply store_report_conn in Hs.
  unfold prepare in Hp.
  apply bind_inv in Hp. destruct Hp as [[] [wa [Ha Hp]]].
  apply bind_inv in Hp. destruct Hp as [[] [wb [Hb Hp]]].
  assert (Hw : wa = w).
  { destruct (negb (HAVE_MONGO env)); [discriminate | now injection Ha]. }
  subst wa.
  assert (Hc : conn_open wb = true /\ ops wb = ops w).
  { unfold connect in Hb. destruct (mongo_client env options) as [[]|e].
    - injection Hb as <-. split; reflexivity.
    - destruct (exn_cls e); discriminate. }
  assert (Hrest : conn_kept wb w1).
  { match type of Hp with
    | ?c wb = _ => assert (Hst : stable conn_kept c)
    end.
    - apply stable_bind; [exact conn_kept_trans | apply check_schema_conn | intros ?].
      apply stable_bind; [exact conn_kept_trans | apply build_report_conn | intros ?].
      conn_steps.
    - exact (Hst _ _ _ Hp). }
  destruct Hc as [Hopen Hops].
  destruct (conn_kept_trans _ _ _ Hrest Hs) as [Hk Hno].
  split; [congruence|]. intros Hin. rewrite <- Hops. auto.
Qed.

(** C4.  Runs that end with the connection still open.  Whatever the report
    and the store, a run that ends at one of the two [return] statements has
    not called [self.conn.close()]; so it is for the [return] after
    [loop_saver] (the store cannot encode the report), for the [return]
    inside the remediation loop (the retry reports non-string keys), and for
    an exception that leaves [run] (a report without ["behavior"]). *)
Theorem run_returns_with_connection_open :
  (forall env options fuel results w o rep w',
      run env options fuel results w = (Ok (EarlyReturn o, rep), w') ->
      conn_open w' = true /\ (In OpClose (ops w') -> In OpClose (ops w)))
  /\ (exists rep w',
      run reference_env [] 0 unencodable_report empty_world
      = (Ok (EarlyReturn LoopSaved, rep), w')
      /\ conn_open w' = true /\ ~ In OpClose (ops w'))
  /\ (exists rep w',
      run reference_env fix_large_docs_on 1 int_key_report empty_world
      = (Ok (EarlyReturn RemediationAborted, rep), w')
      /\ conn_open w' = true /\ ~ In OpClose (ops w'))
  /\ (exists w',
      run reference_env [] 0 headless_report empty_world
      = (Raise (Exn KeyError "behavior"), w')
      /\ conn_open w' = true /\ ~ In OpClose (ops w')).
Proof.
  split; [intros; eapply run_early_return_keeps_connection; eauto|].
  split; [|split].
  - eexists. eexists. split; [vm_compute; reflexivity|].
    split; [reflexivity|]. simpl. intuition discriminate.
  - eexists. eexists. split; [vm_compute; reflexivity|].
    split; [reflexivity|]. simpl. intuition discriminate.
  - eexists. split; [vm_compute; reflexivity|].
    split; [reflexivity|]. simpl. intuition discriminate.
Qed.

(** ** The statements on concrete runs *)

Lemma reference_verdict_invalid v e :
  reference_verdict v = Raise e -> exn_cls e = InvalidDocument.
Proof.
  unfold reference_verdict.
  repeat match goal with |- context [if ?c then _ else _] => destruct c end;
    intros H; try discriminate; injection H as <-; reflexivity.
Qed.

(** C2, as stated, fails on a report with the integer key [7] below
    ["target"]: [run] performs no key coercion, the document reaches
    [insert_one] with the integer key, the store raises its encoding error for
    it, nothing is stored, and the log has no "BAD KEY" line. *)
Lemma run_leaves_integer_key :
  exists rep w',
    run reference_env [] 0 int_key_report empty_world = (Ok (FallThrough Diagnosed, rep), w')
    /\ dict_get (KStr "target") rep
       = Some (VDict [(KStr "name", VStr "sample.exe"); (KInt 7, VInt 1)])
    /\ keys_all_str (VDict rep) = false
    /\ In (OpAnalysisInsert rep) (ops w')
    /\ insert_verdict reference_env rep
       = Raise (Exn InvalidDocument "documents must have only string keys, key was an int")
    /\ analysis (db w') = []
    /\ logged w' = [LogDeleting (VInt 42); LogDeleted (VInt 42);
                    LogLargestParentKey (KStr "target") 0].
Proof.
  eexists. eexists. split; [vm_compute; reflexivity|].
  repeat split; try reflexivity.
  simpl. do 6 right. left. reflexivity.
Qed.

Lemma run_inserts_keys_as_given_witness :
  exists rid,
    dict_get (KStr "target") rid
    = Some (VDict [(KStr "name", VStr "sample.exe"); (KInt 7, VInt 1)])
    /\ exists w2, run reference_env [] 0 int_key_report empty_world
                  = (Ok (FallThrough Diagnosed, rid), w2).
Proof.
  edestruct (run_inserts_keys_as_given reference_env [] 0%nat int_key_report empty_world)
    as [_ [Hv [_ [Hrun _]]]].
  - vm_compute. reflexivity.
  - vm_compute. reflexivity.
  - eexists. split.
    + refine (proj1 (Hv (KStr "target")
                        (VDict [(KStr "name", VStr "sample.exe"); (KInt 7, VInt 1)])
                        eq_refl _ _)); discriminate.
    + edestruct Hrun as [pk [psize [w2 [H _]]]]; try reflexivity.
      exists w2. exact H.
Defined.

Lemma run_diagnoses_without_deleting_witness :
  exists rid w2,
    run tiny_store_env [] 0 small_report empty_world = (Ok (FallThrough Diagnosed, rid), w2)
    /\ filter (task_matches 42) (analysis (db w2)) = [].
Proof.
  edestruct (run_diagnoses_without_deleting tiny_store_env [] 0%nat small_report empty_world)
    as [pk [psize [w2 [_ [Hrun [_ [_ [_ [_ [_ [_ Hnone]]]]]]]]]]].
  - reflexivity.
  - vm_compute. reflexivity.
  - vm_compute. reflexivity.
  - vm_compute. reflexivity.
  - reflexivity.
  - reflexivity.
  - reflexivity.
  - eexists. exists w2. split; [exact Hrun|].
    apply Hnone; [|reflexivity].
    split; [constructor | constructor].
Defined.

Lemma remediation_threshold_decreases_witness :
  exists report' pk' w',
    after_passes tiny_store_env 2 tiny_document (KStr "target") MONGOSIZELIMIT empty_world
    = Some (report', pk', MONGOSIZELIMIT - 2 * MEGABYTE, w').
Proof.
  assert (H : exists report' pk' sf' w',
             after_passes tiny_store_env 2 tiny_document (KStr "target") MONGOSIZELIMIT
                          empty_world
             = Some (report', pk', sf', w')).
  { do 4 eexists. vm_compute. reflexivity. }
  destruct H as [report' [pk' [sf' [w' H]]]].
  exists report', pk', w'. rewrite H.
  destruct (remediation_threshold_decreases tiny_store_env 2 tiny_document (KStr "target")
              empty_world report' pk' sf' w' H) as [-> _].
  reflexivity.
Defined.

Lemma remediation_catches_deletion_errors_witness :
  exists rep w',
    run reference_env fix_large_docs_on 1 top_int_key_report empty_world
    = (Ok (FallThrough RemediationFailed, rep), w')
    /\ conn_open w' = false.
Proof.
  destruct (remediation_catches_deletion_errors reference_env fix_large_docs_on 1)
    as [_ [_ Hclose]].
  edestruct (Hclose top_int_key_report empty_world) as [Hrun Hconn].
  - vm_compute. reflexivity.
  - vm_compute. reflexivity.
  - eexists. eexists. split; [exact Hrun | exact Hconn].
Defined.

Lemma run_returns_with_connection_open_witness :
  exists rep w',
    run reference_env [] 0 unencodable_report empty_world
    = (Ok (EarlyReturn LoopSaved, rep), w')
    /\ conn_open w' = true.
Proof.
  assert (H : exists rep w',
             run reference_env [] 0 unencodable_report empty_world
             = (Ok (EarlyReturn LoopSaved, rep), w')).
  { eexists. eexists. vm_compute. reflexivity. }
  destruct H as [rep [w' H]]. exists rep, w'. split; [exact H|].
  exact (proj1 (proj1 run_returns_with_connection_open _ _ _ _ _ _ _ _ H)).
Defined.

(** ** A report of many sections below the threshold *)

Lemma py_len_filler n : py_len (filler n) = Z.of_N n.
Proof.
  unfold py_len, filler. induction n as [|n IH] using N.peano_ind; [reflexivity|].
  rewrite N.iter_succ. cbn [String.length]. rewrite Nat2Z.inj_succ, IH. lia.
Qed.

Section WideReport.

Variable s : string.
Hypothesis s_length : py_len s = 1044480.

Lemma wide_document_keys : NoDup (dict_keys (wide_document s)).
Proof.
  unfold dict_keys. cbn.
  repeat (constructor; [cbn; intuition discriminate|]). constructor.
Qed.

Lemma wide_document_pruned_keys : NoDup (dict_keys (wide_document_pruned s)).
Proof.
  unfold dict_keys. cbn.
  repeat (constructor; [cbn; intuition discriminate|]). constructor.
Qed.

Lemma section_chars : string_chars (VDict [(KStr "c", VStr s)]) = 1044480.
Proof. cbn [string_chars fold_right snd]. rewrite s_length. reflexivity. Qed.

Lemma wide_totals :
  key_totals (wide_document s)
  = [(KStr "info", 0); (KStr "behavior", 0)]
    ++ map (fun name => (KStr name, 1044480)) section_names
    ++ [(KStr "network", 0); (KStr "_id", 0)].
Proof.
  unfold key_totals, wide_document, wide_report_of, wide_sections, section_names.
  cbn [map app fst snd]. rewrite !section_chars. reflexivity.
Qed.

Lemma wide_pruned_totals :
  key_totals (wide_document_pruned s)
  = [(KStr "info", 0); (KStr "behavior", 0); (KStr "a", 0)]
    ++ map (fun name => (KStr name, 1044480)) (tl section_names)
    ++ [(KStr "network", 0); (KStr "_id", 0)].
Proof.
  change (wide_document_pruned s)
    with ([(KStr "info", VDict [(KStr "id", VInt 42)]);
           (KStr "behavior", VDict [(KStr "processes", VList [])]);
           (KStr "a", VDict [])]
          ++ tl (wide_sections s)
          ++ [(KStr "network", VDict []); (KStr "_id", VOid 1)]).
  unfold key_totals, wide_sections, section_names.
  cbn [map app fst snd tl]. rewrite !section_chars. reflexivity.
Qed.

Lemma wide_largest : largest (VDict (wide_document s)) = Ok (KStr "a", 1044480).
Proof.
  unfold largest. cbn [debug_dict_size].
  rewrite (profile_dict _ wide_document_keys), wide_totals. reflexivity.
Qed.

Lemma wide_pruned_largest : largest (VDict (wide_document_pruned s)) = Ok (KStr "b", 1044480).
Proof.
  unfold largest.
  change (debug_dict_size (VDict (wide_document_pruned s)))
    with (profile (VDict (wide_document_pruned s))).
  rewrite (profile_dict _ wide_document_pruned_keys), wide_pruned_totals. reflexivity.
Qed.

Lemma section_largest : largest (VDict [(KStr "c", VStr s)]) = Ok (KStr "c", 1044480).
Proof.
  unfold largest. cbn [debug_dict_size].
  rewrite profile_dict by (repeat constructor; cbn; tauto).
  cbn [key_totals map fst snd string_chars]. rewrite s_length. reflexivity.
Qed.

Lemma wide_too_large :
  reference_verdict (VDict (wide_document s))
  = Raise (Exn InvalidDocument "BSON document too large").
Proof.
  unfold reference_verdict.
  change (keys_all_str (VDict (wide_document s))) with true.
  change (has_dotted_key (VDict (wide_document s))) with false.
  change (has_set (VDict (wide_document s))) with false.
  rewrite <- total_of_key_totals, wide_totals. reflexivity.
Qed.

Lemma wide_pruned_too_large :
  reference_verdict (VDict (wide_document_pruned s))
  = Raise (Exn InvalidDocument "BSON document too large").
Proof.
  unfold reference_verdict.
  change (keys_all_str (VDict (wide_document_pruned s))) with true.
  change (has_dotted_key (VDict (wide_document_pruned s))) with false.
  change (has_set (VDict (wide_document_pruned s))) with false.
  rewrite <- total_of_key_totals, wide_pruned_totals. reflexivity.
Qed.

(** While the threshold is not below the size of a section, a pass deletes
    nothing, its retry is rejected, and it asks for another pass. *)
Lemma wide_delete_stalls sf :
  1044480 <= sf ->
  delete_children (wide_document s) (KStr "a") sf = (Ok tt, wide_document s, []).
Proof.
  intros Hsf. unfold delete_children.
  change (dict_get (KStr "a") (wide_document s)) with (Some (VDict [(KStr "c", VStr s)])).
  unfold prune. rewrite section_largest.
  destruct (Z.gtb_spec 1044480 sf); [lia | reflexivity].
Qed.

Lemma wide_pass_stalls sf w :
  1044480 <= sf ->
  exists w',
    remediation_pass reference_env (wide_document s) (KStr "a") sf w
    = (Ok (Again (KStr "a") (sf - MEGABYTE), wide_document s), w').
Proof.
  intros Hsf. unfold remediation_pass. rewrite (wide_delete_stalls sf Hsf).
  unfold try_except, bind, write_log, lift, ret, with_id, analysis_insert_one.
  change (dict_mem (KStr "_id") (wide_document s)) with true. cbv beta iota.
  change (insert_verdict reference_env (wide_document s))
    with (reference_verdict (VDict (wide_document s))).
  rewrite wide_too_large. cbn [exn_cls exn_msg is_InvalidDocument].
  change (startswith "BSON document too large" "documents must have only string keys")
    with false.
  cbv beta iota. rewrite wide_largest. cbv beta iota zeta. cbn [exn_cls is_Exception].
  eexists. reflexivity.
Qed.

Lemma wide_passes_stall (n : nat) : forall sf w,
  1044480 + Z.of_nat n * MEGABYTE <= sf + MEGABYTE ->
  exists w',
    after_passes reference_env n (wide_document s) (KStr "a") sf w
    = Some (wide_document s, KStr "a", sf - Z.of_nat n * MEGABYTE, w').
Proof.
  induction n as [|n IH]; intros sf w Hsf.
  - exists w. cbn [after_passes].
    replace (sf - Z.of_nat 0 * MEGABYTE) with sf by (cbn; lia). reflexivity.
  - assert (H0 : 1044480 <= sf) by (unfold MEGABYTE in *; lia).
    destruct (wide_pass_stalls sf w H0) as [w1 Hp].
    destruct (IH (sf - MEGABYTE) w1) as [w' Hn]; [unfold MEGABYTE in *; lia|].
    exists w'. cbn [after_passes]. rewrite Hp, Hn.
    replace (sf - MEGABYTE - Z.of_nat n * MEGABYTE) with (sf - Z.of_nat (S n) * MEGABYTE)
      by (rewrite Nat2Z.inj_succ; unfold MEGABYTE; lia).
    reflexivity.
Qed.

(** With the threshold at zero, the pass deletes the child of section ["a"];
    seventeen sections are still too much, and the next parent is ["b"]. *)
Lemma wide_pass_deletes w :
  exists w',
    remediation_pass reference_env (wide_document s) (KStr "a") 0 w
    = (Ok (Again (KStr "b") (0 - MEGABYTE), wide_document_pruned s), w').
Proof.
  unfold remediation_pass.
  assert (Hd : delete_children (wide_document s) (KStr "a") 0
               = (Ok tt, wide_document_pruned s,
                  [LogChildDeleted (KStr "a") (KStr "c") 1044480])).
  { unfold delete_children.
    change (dict_get (KStr "a") (wide_document s)) with (Some (VDict [(KStr "c", VStr s)])).
    unfold prune. rewrite section_largest. reflexivity. }
  rewrite Hd.
  unfold try_except, bind, write_log, lift, ret, with_id, analysis_insert_one.
  change (dict_mem (KStr "_id") (wide_document_pruned s)) with true. cbv beta iota.
  change (insert_verdict reference_env (wide_document_pruned s))
    with (reference_verdict (VDict (wide_document_pruned s))).
  rewrite wide_pruned_too_large. cbn [exn_cls exn_msg is_InvalidDocument].
  change (startswith "BSON document too large" "documents must have only string keys")
    with false.
  cbv beta iota. rewrite wide_pruned_largest. cbv beta iota zeta. cbn [exn_cls is_Exception].
  eexists. reflexivity.
Qed.

(** Seventeen passes, and the loop asks for more. *)
Lemma wide_seventeen_passes w :
  exists w',
    remediation_loop reference_env 17 (wide_document s) (KStr "a") MONGOSIZELIMIT w
    = (Ok (Exhausted, wide_document_pruned s), w').
Proof.
  destruct (wide_passes_stall 16 MONGOSIZELIMIT w) as [w16 H16];
    [unfold MONGOSIZELIMIT, MEGABYTE; lia|].
  destruct (wide_pass_deletes w16) as [w17 H17].
  exists w17.
  apply (after_passes_threshold reference_env 17 _ _ _ _ _ (KStr "b") (0 - MEGABYTE)).
  change (MONGOSIZELIMIT - Z.of_nat 16 * MEGABYTE) with 0 in H16.
  exact (after_passes_snoc _ _ _ _ _ _ _ _ _ _ _ _ _ _ H16 H17).
Qed.

(** The whole run on the wide report. *)
Lemma wide_run_exhausts :
  exit_of (run reference_env fix_large_docs_on 17 (wide_report_of s) empty_world)
  = Some Exhausted.
Proof.
  assert (Hprep : exists w1,
             prepare reference_env fix_large_docs_on (wide_report_of s) empty_world
             = (Ok (wide_report_of s ++ [(KStr "network", VDict [])]), w1)
             /\ next_oid (db w1) = 1%N).
  { eexists. split; [vm_compute; reflexivity | reflexivity]. }
  destruct Hprep as [w1 [Hprep Hoid]].
  assert (Hid : with_id (wide_report_of s ++ [(KStr "network", VDict [])]) w1
                = (Ok (wide_document s), set_db (set_next_oid (N.succ (next_oid (db w1)))) w1)).
  { unfold with_id.
    change (dict_mem (KStr "_id") (wide_report_of s ++ [(KStr "network", VDict [])]))
      with false.
    cbv beta iota. rewrite Hoid. reflexivity. }
  assert (Hstore : exists w',
             store_report reference_env fix_large_docs_on 17
                          (wide_report_of s ++ [(KStr "network", VDict [])]) w1
             = (Ok (Exhausted, wide_document_pruned s), w')).
  { unfold store_report. rewrite (bind_ok _ _ _ _ _ Hid).
    unfold try_except, bind at 1, analysis_insert_one at 1.
    change (insert_verdict reference_env (wide_document s))
      with (reference_verdict (VDict (wide_document s))).
    rewrite wide_too_large. cbn [exn_cls exn_msg is_InvalidDocument].
    change (startswith "BSON document too large" "cannot encode object"
            || endswith "BSON document too large" "must not contain '.'") with false.
    cbv beta iota. unfold bind at 1, lift at 1. rewrite wide_largest.
    change (negb (fix_large_docs fix_large_docs_on)) with false. cbv beta iota.
    apply wide_seventeen_passes. }
  destruct Hstore as [w' Hstore].
  unfold run. rewrite (bind_ok _ _ _ _ _ Hprep), (bind_ok _ _ _ _ _ Hstore). reflexivity.
Qed.

End WideReport.

(** C7, as stated, fails on a report of eighteen sections of 1044480
    characters each, a little under one megabyte, stored in a store that
    refuses more than [MONGOSIZELIMIT] characters.  For sixteen passes no
    section exceeds the threshold, so nothing is deleted and every retry is
    rejected; the seventeenth pass, with the threshold at zero, deletes one
    section and its retry is rejected as well.  After seventeen passes the
    loop is still running, although [MONGOSIZELIMIT / MEGABYTE] is sixteen. *)
Lemma remediation_runs_past_the_bound :
  exit_of (run reference_env fix_large_docs_on 17 wide_report empty_world) = Some Exhausted
  /\ py_len (filler 1044480) = 1044480
  /\ MONGOSIZELIMIT / MEGABYTE = 16.
Proof.
  split; [|split; [apply py_len_filler | reflexivity]].
  exact (wide_run_exhausts (filler 1044480) (py_len_filler 1044480)).
Qed.

(** Nothing else ends the loop either: when the largest key holds an empty
    list there is nothing to delete and nothing raises, so a store that goes
    on rejecting the document keeps the loop running for any number of
    passes. *)
Lemma remediation_loop_can_stall fuel : forall sf w,
  exit_of (remediation_loop rejecting_env fuel numbers_document (KStr "dropped") sf w)
  = Some Exhausted.
Proof.
  induction fuel as [|fuel IH]; intros sf w; [reflexivity|].
  cbn [remediation_loop].
  assert (Hp : exists w',
             remediation_pass rejecting_env numbers_document (KStr "dropped") sf w
             = (Ok (Again (KStr "dropped") (sf - MEGABYTE), numbers_document), w')).
  { eexists. reflexivity. }
  destruct Hp as [w' Hp]. rewrite (bind_ok _ _ _ _ _ Hp). apply IH.
Qed.

(** * Further properties of the module *)

(** ** The dependency check and the connection *)

(** X1.  Without pymongo, [run] raises [CuckooDependencyError] before it touches
    anything: no client is built and no store call is made. *)
Theorem run_requires_pymongo env options fuel results w :
  HAVE_MONGO env = false ->
  run env options fuel results w
  = (Raise (Exn CuckooDependencyError
                "Unable to import pymongo (install with `pip3 install pymongo`)"), w).
Proof.
  intros H. unfold run, prepare, bind. rewrite H. reflexivity.
Qed.

Lemma run_requires_pymongo_witness :
  run no_pymongo_env [] 0 small_report empty_world
  = (Raise (Exn CuckooDependencyError
                "Unable to import pymongo (install with `pip3 install pymongo`)"),
     empty_world).
Proof. exact (run_requires_pymongo no_pymongo_env [] 0%nat small_report empty_world eq_refl). Defined.

Lemma run_connect_raises env options fuel results w e e' :
  HAVE_MONGO env = true ->
  connect env options w = (Raise e', w) ->
  mongo_client env options = Raise e ->
  run env options fuel results w = (Raise e', w).
Proof.
  intros Hm Hc _. unfold run, prepare. unfold bind at 1. unfold bind at 1.
  rewrite Hm. cbn [negb ret]. unfold bind at 1. rewrite Hc. reflexivity.
Qed.

(** X2.  When the client constructor raises, [run] stops there, with the world as
    it was: a [TypeError] becomes the report error about the port, a
    [ConnectionFailure] the one about the connection, and any other exception
    leaves [run] as it is. *)
Theorem run_connection_errors env options fuel results w e :
  HAVE_MONGO env = true ->
  mongo_client env options = Raise e ->
  (exn_cls e = TypeError ->
   run env options fuel results w
   = (Raise (Exn CuckooReportError "Mongo connection port must be integer"), w))
  /\ (exn_cls e = ConnectionFailure ->
      run env options fuel results w
      = (Raise (Exn CuckooReportError "Cannot connect to MongoDB"), w))
  /\ (exn_cls e <> TypeError -> exn_cls e <> ConnectionFailure ->
      run env options fuel results w = (Raise e, w)).
Proof.
  intros Hm Hc. repeat split; intros; eapply run_connect_raises; eauto;
    unfold connect; rewrite Hc.
  - now rewrite H.
  - now rewrite H.
  - destruct (exn_cls e); congruence.
Qed.

Lemma run_connection_errors_witness :
  run checking_env [(KStr "port", VStr "27017")] 0 small_report empty_world
  = (Raise (Exn CuckooReportError "Mongo connection port must be integer"), empty_world)
  /\ run checking_env [(KStr "host", VStr "unreachable")] 0 small_report empty_world
     = (Raise (Exn CuckooReportError "Cannot connect to MongoDB"), empty_world).
Proof.
  split.
  - exact (proj1 (run_connection_errors checking_env [(KStr "port", VStr "27017")] 0%nat
                    small_report empty_world _ eq_refl eq_refl) eq_refl).
  - exact (proj1 (proj2 (run_connection_errors checking_env
                           [(KStr "host", VStr "unreachable")] 0%nat
                           small_report empty_world _ eq_refl eq_refl)) eq_refl).
Defined.

(** ** The schema marker *)

Lemma check_schema_creates w :
  cuckoo_schema (db w) = None ->
  check_schema w
  = (Ok tt,
     set_db (set_schema (Some [[(KStr "version", VStr SCHEMA_VERSION);
                                (KStr "_id", VOid (next_oid (db w)))]]))
            (add_op (OpSchemaInsert [(KStr "version", VStr SCHEMA_VERSION);
                                     (KStr "_id", VOid (next_oid (db w)))])
                    (set_db (set_next_oid (N.succ (next_oid (db w))))
                            (add_op OpListCollections w)))).
Proof.
  intros H. unfold check_schema, bind, schema_collection_listed, schema_insert_one, bind,
    with_id.
  rewrite H. cbn. rewrite H. reflexivity.
Qed.

(** X3.  On a store without the [cuckoo_schema] collection the check creates the
    marker with the expected version; from then on the check finds it and
    adds nothing, so the collection keeps exactly that one marker however
    often the check runs.  The [analysis] and [calls] collections are not
    touched. *)
Theorem schema_marker_created_once w :
  cuckoo_schema (db w) = None ->
  exists marker w1,
    check_schema w = (Ok tt, w1)
    /\ cuckoo_schema (db w1) = Some [marker]
    /\ dict_get (KStr "version") marker = Some (VStr SCHEMA_VERSION)
    /\ analysis (db w1) = analysis (db w) /\ calls (db w1) = calls (db w)
    /\ (forall w2,
          cuckoo_schema (db w2) = Some [marker] ->
          exists w3, check_schema w2 = (Ok tt, w3)
                     /\ db w3 = db w2
                     /\ ops w3 = ops w2 ++ [OpListCollections; OpSchemaFindOne]).
Proof.
  intros H. eexists. eexists. split; [apply (check_schema_creates w H)|].
  repeat split.
  intros w2 H2. eexists. split.
  - apply (check_schema_accepts_any_version w2 _ [] (VStr SCHEMA_VERSION) H2). reflexivity.
  - split; [reflexivity|]. cbn. now rewrite <- app_assoc.
Qed.

Lemma schema_marker_created_once_witness :
  exists marker w1,
    check_schema empty_world = (Ok tt, w1) /\ cuckoo_schema (db w1) = Some [marker].
Proof.
  destruct (schema_marker_created_once empty_world eq_refl)
    as [marker [w1 [H1 [H2 _]]]].
  exists marker, w1. split; assumption.
Defined.

Lemma check_schema_on_empty_collection w :
  cuckoo_schema (db w) = Some [] ->
  check_schema w
  = (Raise (Exn TypeError "'NoneType' object is not subscriptable"),
     add_op OpSchemaFindOne (add_op OpListCollections w)).
Proof.
  intros Hs. unfold check_schema, bind, schema_collection_listed, schema_find_one, lift.
  rewrite Hs. cbn [db add_op]. rewrite Hs. reflexivity.
Qed.

(** X4.  A [cuckoo_schema] collection that exists but holds no document makes
    [run] raise [TypeError]: [find_one()] returns [None], which has no
    ["version"].  Nothing has been written by then. *)
Theorem run_on_empty_schema_collection env options fuel results w :
  HAVE_MONGO env = true ->
  mongo_client env options = Ok tt ->
  cuckoo_schema (db w) = Some [] ->
  exists w',
    run env options fuel results w
    = (Raise (Exn TypeError "'NoneType' object is not subscriptable"), w')
    /\ db w' = db w
    /\ ops w' = ops w ++ [OpListCollections; OpSchemaFindOne].
Proof.
  intros Hm Hc Hs. eexists. split.
  - unfold run, prepare. unfold bind at 1. unfold bind at 1. rewrite Hm. cbn [negb ret].
    unfold bind at 1. unfold connect. rewrite Hc.
    unfold bind at 1. rewrite (check_schema_on_empty_collection (set_conn true w) Hs).
    reflexivity.
  - split; [reflexivity|]. cbn. now rewrite <- app_assoc.
Qed.

Lemma run_on_empty_schema_collection_witness :
  exists w',
    run reference_env [] 0 small_report emptied_schema_world
    = (Raise (Exn TypeError "'NoneType' object is not subscriptable"), w')
    /\ db w' = db emptied_schema_world.
Proof.
  destruct (run_on_empty_schema_collection reference_env [] 0%nat small_report
              emptied_schema_world eq_refl eq_refl eq_refl) as [w' [H1 [H2 _]]].
  exists w'. split; assumption.
Defined.

(** ** What the profiler accepts and what it returns first *)

(** X5.  [debug_dict_size] returns a profile exactly for a mapping, and for a list
    whose first element is a mapping; on every other argument it raises. *)
Theorem debug_dict_size_domain v :
  (exists l, debug_dict_size v = Ok l)
  <-> (exists d, v = VDict d) \/ (exists d rest, v = VList (VDict d :: rest)).
Proof.
  split.
  - intros [l H]. destruct v as [| | | | |[|first rest]| | |d]; cbn in H; try discriminate.
    + destruct first as [| | | | |m|m|m|d]; cbn in H; try discriminate;
        try (destruct (forallb hashable m); discriminate).
      right. eauto.
    + destruct (forallb hashable l0); discriminate.
    + destruct (forallb hashable l0); discriminate.
    + left. eauto.
  - intros [[d ->]|[d [rest ->]]]; eexists; reflexivity.
Qed.

Lemma debug_dict_size_domain_witness :
  exists l, debug_dict_size (VList [VDict sample_document; VInt 3]) = Ok l.
Proof.
  apply (proj2 (debug_dict_size_domain (VList [VDict sample_document; VInt 3]))).
  right. exists sample_document, [VInt 3]. reflexivity.
Defined.

Lemma string_chars_nonneg v : 0 <= string_chars v.
Proof.
  induction v as [| | | | |l IH|l IH|l IH|d IH] using value_tree_ind;
    cbn [string_chars]; try lia.
  - unfold py_len. lia.
  - induction IH as [|x l Hx _ IHl]; cbn; lia.
  - induction IH as [|x l Hx _ IHl]; cbn; lia.
  - induction IH as [|x l Hx _ IHl]; cbn; lia.
  - induction IH as [|[k x] l Hx _ IHl]; cbn in *; lia.
Qed.

Lemma dict_get_of_entry k v d :
  NoDup (dict_keys d) -> In (k, v) d -> dict_get k d = Some v.
Proof.
  induction d as [|[k0 v0] d IH]; simpl; intros Hnd Hin; [tauto|].
  inversion Hnd as [|? ? Hnotin Hnd']; subst.
  destruct Hin as [Heq|Hin].
  - injection Heq as -> ->. now rewrite key_eqb_refl.
  - destruct (key_eqb_spec k k0) as [->|_]; [|auto].
    exfalso. apply Hnotin. change k0 with (fst (k0, v)). now apply in_map.
Qed.

Lemma dict_get_entry k v d : dict_get k d = Some v -> In (k, v) d.
Proof.
  induction d as [|[k0 v0] d IH]; simpl; [discriminate|].
  destruct (key_eqb_spec k k0) as [->|_]; [intros H; injection H as ->; now left | auto].
Qed.

(** X6.  The entry that [debug_dict_size(d)[0]] returns: its key is a key of the
    mapping, its total is the string characters beneath that key, and no key
    of the mapping has more. *)
Theorem largest_is_maximal d k n :
  NoDup (dict_keys d) ->
  largest (VDict d) = Ok (k, n) ->
  (exists v, dict_get k d = Some v /\ n = string_chars v)
  /\ (forall k' v', dict_get k' d = Some v' -> string_chars v' <= n)
  /\ 0 <= n.
Proof.
  intros Hnd H. unfold largest in H. cbn [debug_dict_size] in H.
  rewrite (profile_dict d Hnd) in H. cbn [rbind] in H.
  destruct (sorted_desc (key_totals d)) as [|[k0 n0] rest] eqn:E; [discriminate|].
  injection H as -> ->.
  assert (Hin : forall x, In x (key_totals d) <-> In x ((k, n) :: rest)).
  { intros x. rewrite <- E. split; apply Permutation_in;
      [symmetry|]; apply sorted_desc_perm. }
  assert (Hk : exists v, dict_get k d = Some v /\ n = string_chars v).
  { assert (H0 : In (k, n) (key_totals d)) by (apply Hin; now left).
    unfold key_totals in H0. apply in_map_iff in H0. destruct H0 as [[k1 v1] [Heq H1]].
    cbn in Heq. injection Heq as -> <-. exists v1. split; [|reflexivity].
    now apply dict_get_of_entry. }
  split; [exact Hk|]. split.
  - intros k' v' Hget. apply dict_get_entry in Hget.
    assert (H0 : In (k', string_chars v') ((k, n) :: rest)).
    { apply Hin. unfold key_totals. apply in_map_iff. exists (k', v'). auto. }
    pose proof (sorted_desc_sorted (key_totals d)) as Hs. rewrite E in Hs.
    destruct H0 as [Heq|H0]; [injection Heq as _ <-; lia|].
    apply StronglySorted_inv in Hs. destruct Hs as [_ Hall].
    rewrite Forall_forall in Hall. specialize (Hall _ H0). unfold desc in Hall. cbn in Hall. lia.
  - destruct Hk as [v [_ ->]]. apply string_chars_nonneg.
Qed.

Lemma largest_is_maximal_witness :
  exists v, dict_get (KStr "strings") sample_document = Some v /\ 10 = string_chars v.
Proof.
  refine (proj1 (largest_is_maximal sample_document (KStr "strings") 10 _ _)).
  - unfold sample_document, dict_keys; simpl.
    repeat (constructor; [simpl; intuition discriminate|]). constructor.
  - reflexivity.
Defined.

(** ** What a deletion pass changes *)

Lemma prune_logged pk sf obj r lg :
  prune pk sf obj = (r, lg) ->
  (lg = [] -> r = Ok obj \/ exists e, r = Raise e)
  /\ Forall (deletion_entry pk sf) lg.
Proof.
  unfold prune. destruct (largest obj) as [[ck cs]|e].
  - destruct (Z.gtb_spec cs sf) as [Hgt|Hle]; intros H; injection H as <- <-.
    + split; [discriminate|]. constructor; [|constructor]. exists ck, cs. split; [reflexivity|lia].
    + split; [auto | constructor].
  - intros H. injection H as <- <-. split; [eauto | constructor].
Qed.

Lemma prune_each_logged pk sf els : forall r els' lg,
  prune_each pk sf els = (r, els', lg) ->
  (lg = [] -> els' = els) /\ Forall (deletion_entry pk sf) lg.
Proof.
  induction els as [|el els IH]; intros r els' lg H; cbn [prune_each] in H.
  - injection H as <- <- <-. split; [reflexivity | constructor].
  - destruct (prune pk sf el) as [[el'|e] lg1] eqn:Hp.
    + destruct (prune_each pk sf els) as [[r2 rest'] lg2] eqn:Hrest.
      injection H as <- <- <-.
      destruct (prune_logged _ _ _ _ _ Hp) as [Hsame Hall1].
      destruct (IH _ _ _ eq_refl) as [Hsame2 Hall2].
      split; [|apply Forall_app; auto].
      intros Hnil. apply app_eq_nil in Hnil. destruct Hnil as [-> ->].
      rewrite (Hsame2 eq_refl).
      destruct (Hsame eq_refl) as [Heq|[e Heq]]; [|discriminate]. now injection Heq as ->.
    + injection H as <- <- <-. destruct (prune_logged _ _ _ _ _ Hp) as [_ Hall].
      split; [reflexivity | exact Hall].
Qed.

Lemma dict_set_same k v d : dict_get k d = Some v -> dict_set k v d = d.
Proof.
  induction d as [|[k0 v0] d IH]; simpl; [discriminate|].
  destruct (key_eqb_spec k k0) as [->|_].
  - intros H. now injection H as ->.
  - intros H. now rewrite IH.
Qed.

Lemma dict_keys_set_present k v v0 d :
  dict_get k d = Some v0 -> dict_keys (dict_set k v d) = dict_keys d.
Proof.
  induction d as [|[k1 v1] d IH]; simpl; [discriminate|].
  destruct (key_eqb_spec k k1) as [->|_]; [reflexivity|].
  intros H. cbn. f_equal. now apply IH.
Qed.

(** X8.  A parent key that holds a string, a number, a tuple or an empty mapping
    cannot be profiled: the first pass logs "Failed to delete child key" and
    the loop ends, with the report and the store as they were. *)
Theorem remediation_stops_on_unprofilable_parent env fuel report pk sf w v :
  dict_get pk report = Some v ->
  match v with
  | VList _ | VDict (_ :: _) => False
  | _ => True
  end ->
  exists e w',
    remediation_loop env (S fuel) report pk sf w
    = (Ok (FallThrough RemediationFailed, report), w')
    /\ logged w' = logged w ++ [LogFailedDelete e]
    /\ db w' = db w /\ ops w' = ops w.
Proof.
  intros Hget Hv.
  assert (Hl : exists e, largest v = Raise e).
  { unfold largest.
    destruct v as [| | | | |l|l|l|[|kv d]]; try contradiction;
      cbn [debug_dict_size profile];
      try (destruct (forallb hashable l)); eexists; reflexivity. }
  destruct Hl as [e Hl].
  assert (Hd : delete_children report pk sf = (Raise e, report, [])).
  { unfold delete_children. rewrite Hget. unfold prune. rewrite Hl.
    destruct v; try reflexivity. contradiction. }
  exists e. eexists. split.
  - cbn [remediation_loop].
    rewrite (bind_ok _ _ _ _ _ (remediation_pass_catches env _ _ _ w _ _ _ Hd)). reflexivity.
  - cbn. rewrite app_nil_r. repeat split.
Qed.

Lemma remediation_stops_on_unprofilable_parent_witness :
  exists e w',
    remediation_loop reference_env 1 logs_document (KStr "logs") MONGOSIZELIMIT empty_world
    = (Ok (FallThrough RemediationFailed, logs_document), w')
    /\ logged w' = [LogFailedDelete e].
Proof.
  destruct (remediation_stops_on_unprofilable_parent reference_env 0 logs_document
              (KStr "logs") MONGOSIZELIMIT empty_world (VStr "a very long log") eq_refl I)
    as [e [w' [H1 [H2 _]]]].
  exists e, w'. split; assumption.
Defined.

(** ** The bound on the number of passes *)

Lemma remediation_loop_more_fuel env fuel : forall report pk sf w e r w',
  remediation_loop env fuel report pk sf w = (Ok (e, r), w') ->
  e <> Exhausted ->
  forall more, remediation_loop env (fuel + more) report pk sf w = (Ok (e, r), w').
Proof.
  induction fuel as [|fuel IH]; intros report pk sf w e r w' H Hne more.
  - cbn in H. injection H as <- _ _. congruence.
  - cbn [remediation_loop Nat.add] in H |- *. apply bind_inv in H.
    destruct H as [[p rep] [w1 [Hp H]]]. rewrite (bind_ok _ _ _ _ _ Hp).
    destruct p as [e1|pk1 sf1]; [exact H | now apply IH].
Qed.

Lemma bind_cong {A B} (c : M A) (f g : A -> M B) w :
  (forall a w1, c w = (Ok a, w1) -> f a w1 = g a w1) -> bind c f w = bind c g w.
Proof.
  intros H. unfold bind. destruct (c w) as [[a|e] w1]; [now apply H | reflexivity].
Qed.

Lemma try_except_caught {A} (c : M A) catches handler w e w1 :
  c w = (Raise e, w1) -> catches (exn_cls e) = true ->
  try_except c catches handler w = handler e w1.
Proof. unfold try_except. now intros -> ->. Qed.

Lemma try_except_cong {A} (c : M A) catches (h1 h2 : exn -> M A) w :
  (forall e w1, c w = (Raise e, w1) -> catches (exn_cls e) = true -> h1 e w1 = h2 e w1) ->
  try_except c catches h1 w = try_except c catches h2 w.
Proof.
  intros H. unfold try_except. destruct (c w) as [[a|e] w1]; [reflexivity|].
  destruct (catches (exn_cls e)) eqn:Hc; [now apply H | reflexivity].
Qed.

Lemma store_report_more_fuel env options fuel report w :
  exit_of (store_report env options fuel report w) <> Some Exhausted ->
  forall more,
    store_report env options (fuel + more) report w = store_report env options fuel report w.
Proof.
  intros Hne more. unfold store_report in *.
  apply bind_cong. intros rid w1 Hid. rewrite (bind_ok _ _ _ _ _ Hid) in Hne.
  apply try_except_cong. intros e w2 Hc Hcat.
  rewrite (try_except_caught _ _ _ _ _ _ Hc Hcat) in Hne.
  destruct (_ || _); [reflexivity|].
  apply bind_cong. intros [pk psize] w3 Hl. rewrite (bind_ok _ _ _ _ _ Hl) in Hne.
  destruct (negb (fix_large_docs options)); [reflexivity|].
  destruct (remediation_loop_returns env fuel rid pk MONGOSIZELIMIT w3) as [e1 [r1 [w4 Hloop]]].
  rewrite Hloop in *. apply remediation_loop_more_fuel; [exact Hloop|].
  intros ->. apply Hne. reflexivity.
Qed.

(** X9.  A run that ends, by returning or by raising, ends the same way under any
    larger bound on the number of passes of the remediation loop. *)
Theorem run_result_independent_of_fuel env options fuel results w :
  exit_of (run env options fuel results w) <> Some Exhausted ->
  forall more,
    run env options (fuel + more) results w = run env options fuel results w.
Proof.
  intros Hne more. unfold run in *.
  apply bind_cong. intros report w1 Hp. rewrite (bind_ok _ _ _ _ _ Hp) in Hne.
  unfold bind at 1. rewrite store_report_more_fuel; [reflexivity|].
  intros Hex. apply Hne.
  destruct (store_report env options fuel report w1) as [[[e r]|e] w2] eqn:Hs;
    [|discriminate].
  cbn in Hex. injection Hex as ->. rewrite (bind_ok _ _ _ _ _ Hs). reflexivity.
Qed.

Lemma run_result_independent_of_fuel_witness :
  run tiny_store_env fix_large_docs_on (17 + 100) small_report empty_world
  = run tiny_store_env fix_large_docs_on 17 small_report empty_world.
Proof.
  apply (run_result_independent_of_fuel tiny_store_env fix_large_docs_on 17 small_report
           empty_world).
  vm_compute. discriminate.
Defined.

(** ** Inserts that are accepted and inserts that fail *)

Lemma with_id_present doc w id :
  doc_id doc = Some id -> with_id doc w = (Ok doc, w).
Proof.
  unfold with_id, dict_mem, doc_id. now intros ->.
Qed.

Lemma dict_get_set_same k v d : dict_get k (dict_set k v d) = Some v.
Proof.
  induction d as [|[k0 v0] d IH]; cbn [dict_set dict_get].
  - now rewrite key_eqb_refl.
  - destruct (key_eqb k k0) eqn:E; cbn [dict_get]; rewrite E; [reflexivity | exact IH].
Qed.

Lemma with_id_has_id doc w doc' w' : with_id doc w = (Ok doc', w') -> doc_id doc' <> None.
Proof.
  intros H. apply with_id_effect in H. destruct H as [[-> [_ Hm]]|[-> _]].
  - unfold dict_mem, doc_id in *. destruct (dict_get (KStr "_id") doc); congruence.
  - unfold doc_id. rewrite dict_get_set_same. discriminate.
Qed.

Lemma analysis_insert_one_accepts env doc w id :
  insert_verdict env doc = Ok tt ->
  doc_id doc = Some id ->
  existsb (has_id id) (analysis (db w)) = false ->
  analysis_insert_one env doc w
  = (Ok tt, set_db (set_analysis (analysis (db w) ++ [doc])) (add_op (OpAnalysisInsert doc) w)).
Proof.
  intros Hv Hid Hfresh. unfold analysis_insert_one. rewrite Hv, Hid.
  cbn [db add_op analysis]. now rewrite Hfresh.
Qed.

(** X10.  When the store accepts the direct insert, [run] stores the prepared
    report as it is, under its identifier, logs nothing more, closes the
    connection and consults neither the profiler nor [loop_saver], whatever
    [fix_large_docs] says. *)
Theorem run_saves_when_accepted env options fuel results w report w1 rid w1' :
  prepare env options results w = (Ok report, w1) ->
  with_id report w1 = (Ok rid, w1') ->
  insert_verdict env rid = Ok tt ->
  (forall id, doc_id rid = Some id -> existsb (has_id id) (analysis (db w1)) = false) ->
  exists w2,
    run env options fuel results w = (Ok (FallThrough Saved, rid), w2)
    /\ analysis (db w2) = analysis (db w1) ++ [rid]
    /\ calls (db w2) = calls (db w1)
    /\ logged w2 = logged w1
    /\ ops w2 = ops w1 ++ [OpAnalysisInsert rid; OpClose]
    /\ conn_open w2 = false.
Proof.
  intros Hp Hid Hv Hfresh.
  destruct (doc_id rid) as [id|] eqn:Hdoc; [|now apply with_id_has_id in Hid].
  assert (Hw : analysis (db w1') = analysis (db w1) /\ calls (db w1') = calls (db w1)
               /\ ops w1' = ops w1 /\ logged w1' = logged w1).
  { pose proof (with_id_effect _ _ _ _ Hid) as [[_ [-> _]]|[_ [-> _]]]; repeat split. }
  destruct Hw as [Wa [Wc [Wo Wl]]].
  assert (Hins := analysis_insert_one_accepts env rid w1' id Hv Hdoc).
  rewrite Wa in Hins. specialize (Hins (Hfresh id eq_refl)).
  eexists. split.
  - apply run_falls_through with (report := report) (w1 := w1); [exact Hp|].
    unfold store_report. rewrite (bind_ok _ _ _ _ _ Hid).
    unfold try_except. rewrite (bind_ok _ _ _ _ _ Hins). reflexivity.
  - cbn. rewrite Wc, Wo, Wl, <- app_assoc. repeat split.
Qed.

Lemma run_saves_when_accepted_witness :
  exists rid w2,
    run reference_env fix_large_docs_on 0 small_report empty_world
    = (Ok (FallThrough Saved, rid), w2)
    /\ conn_open w2 = false.
Proof.
  edestruct (run_saves_when_accepted reference_env fix_large_docs_on 0%nat small_report
               empty_world) as [w2 [Hrun [_ [_ [_ [_ Hc]]]]]].
  - vm_compute. reflexivity.
  - vm_compute. reflexivity.
  - reflexivity.
  - intros id _. reflexivity.
  - eexists. exists w2. split; [exact Hrun | exact Hc].
Defined.

(** X11.  An exception of the direct insert that is not an [InvalidDocument]
    leaves [run] as it is: nothing is logged, the profiler and [loop_saver]
    are not consulted, nothing is stored, and the connection stays open. *)
Theorem run_propagates_other_store_errors env options fuel results w report w1 rid w1' e :
  prepare env options results w = (Ok report, w1) ->
  with_id report w1 = (Ok rid, w1') ->
  insert_verdict env rid = Raise e ->
  exn_cls e <> InvalidDocument ->
  run env options fuel results w = (Raise e, add_op (OpAnalysisInsert rid) w1')
  /\ analysis (db (add_op (OpAnalysisInsert rid) w1')) = analysis (db w1)
  /\ logged (add_op (OpAnalysisInsert rid) w1') = logged w1
  /\ conn_open (add_op (OpAnalysisInsert rid) w1') = conn_open w1.
Proof.
  intros Hp Hid Hv Hcls. split.
  - unfold run. rewrite (bind_ok _ _ _ _ _ Hp). unfold bind at 1.
    unfold store_report. rewrite (bind_ok _ _ _ _ _ Hid).
    unfold try_except, bind at 1, analysis_insert_one at 1. rewrite Hv.
    destruct (exn_cls e); try congruence; reflexivity.
  - pose proof (with_id_effect _ _ _ _ Hid) as [[_ [-> _]]|[_ [-> _]]]; repeat split.
Qed.

Lemma run_propagates_other_store_errors_witness :
  exists w',
    run failing_store_env [] 0 small_report empty_world
    = (Raise (Exn PyMongoError "connection closed"), w')
    /\ conn_open w' = true.
Proof.
  edestruct (run_propagates_other_store_errors failing_store_env [] 0%nat small_report
               empty_world) as [Hrun [_ [_ Hc]]].
  - vm_compute. reflexivity.
  - vm_compute. reflexivity.
  - reflexivity.
  - discriminate.
  - eexists. split; [exact Hrun | exact Hc].
Defined.

(** X12.  Inside the loop it is otherwise.  A retry that the store accepts ends the
    loop with the pruned report stored and the deletions logged; a retry that
    raises anything but an [InvalidDocument] is caught by the handler of the
    deletion step and logged as a failed deletion, and the loop ends with
    nothing stored. *)
Theorem remediation_retry_outcomes env fuel report pk sf w rep lg id :
  delete_children report pk sf = (Ok tt, rep, lg) ->
  doc_id rep = Some id ->
  (insert_verdict env rep = Ok tt ->
   existsb (has_id id) (analysis (db w)) = false ->
   exists w2,
     remediation_loop env (S fuel) report pk sf w = (Ok (FallThrough Remediated, rep), w2)
     /\ analysis (db w2) = analysis (db w) ++ [rep]
     /\ logged w2 = logged w ++ lg
     /\ ops w2 = ops w ++ [OpAnalysisInsert rep])
  /\ (forall e,
        insert_verdict env rep = Raise e ->
        exn_cls e <> InvalidDocument ->
        exists w2,
          remediation_loop env (S fuel) report pk sf w
          = (Ok (FallThrough RemediationFailed, rep), w2)
          /\ analysis (db w2) = analysis (db w)
          /\ logged w2 = logged w ++ lg ++ [LogFailedDelete e]).
Proof.
  intros Hd Hid. split.
  - intros Hv Hfresh. eexists. split.
    + cbn [remediation_loop]. unfold remediation_pass. rewrite Hd.
      unfold bind at 1, try_except at 1. unfold bind at 1, write_log at 1.
      unfold bind at 1, lift at 1.
      rewrite (bind_ok _ _ _ _ _ (with_id_present rep (add_log lg w) id Hid)).
      unfold try_except.
      rewrite (bind_ok _ _ _ _ _ (analysis_insert_one_accepts env rep (add_log lg w) id
                                     Hv Hid Hfresh)).
      reflexivity.
    + repeat split.
  - intros e Hv Hcls. eexists. split.
    + cbn [remediation_loop]. unfold remediation_pass. rewrite Hd.
      unfold bind at 1, try_except at 1. unfold bind at 1, write_log at 1.
      unfold bind at 1, lift at 1.
      rewrite (bind_ok _ _ _ _ _ (with_id_present rep (add_log lg w) id Hid)).
      unfold try_except, bind at 1, analysis_insert_one at 1. rewrite Hv.
      destruct (exn_cls e) eqn:Ec; try congruence; cbn; rewrite ?Ec; reflexivity.
    + cbn. rewrite <- app_assoc. repeat split.
Qed.

Lemma remediation_retry_outcomes_witness :
  exists w2,
    remediation_loop reference_env 1 dumps_document (KStr "procdump") 5 empty_world
    = (Ok (FallThrough Remediated,
           [(KStr "procdump",
             VList [VDict [(KStr "name", VStr "a.exe")];
                    VDict [(KStr "name", VStr "b.exe"); (KStr "strings", VStr "0123")]]);
            (KStr "_id", VOid 0)]), w2)
    /\ logged w2 = [LogChildDeleted (KStr "procdump") (KStr "strings") 10].
Proof.
  edestruct (proj1 (remediation_retry_outcomes reference_env 0 dumps_document
                      (KStr "procdump") 5 empty_world _ _ (VOid 0) eq_refl eq_refl))
    as [w2 [Hrun [_ [Hlog _]]]].
  - reflexivity.
  - reflexivity.
  - exists w2. split; [exact Hrun | exact Hlog].
Defined.

(** ** [fix_int2str] on a mapping with string keys *)

Lemma keys_differ_NoDup ks : keys_differ ks = true -> NoDup ks.
Proof.
  induction ks as [|k ks IH]; simpl; [constructor|].
  intros H. apply andb_prop in H. destruct H as [Hk Hr]. constructor; [|auto].
  intros Hin. apply negb_true_iff in Hk.
  assert (existsb (key_eqb k) ks = true); [|congruence].
  apply existsb_exists. exists k. split; [exact Hin | apply key_eqb_refl].
Qed.

Lemma fix_int2str_py2_untouched v : untouched v.
Proof.
  induction v as [| | | | |l IH|l IH|l IH|d IH] using value_tree_ind; unfold untouched;
    try (intros; exact I).
  - intros Hs Hd. cbn [keys_all_str distinct_keys] in Hs, Hd.
    induction IH as [|x l Hx _ IHl]; [constructor|].
    cbn [forallb] in Hs, Hd. apply andb_prop in Hs, Hd.
    destruct Hs as [Hs1 Hs2], Hd as [Hd1 Hd2]. constructor; [|auto].
    destruct x; try exact I. exact (Hx Hs1 Hd1).
  - intros Hs Hd tree. cbn [keys_all_str distinct_keys] in Hs, Hd.
    apply andb_prop in Hd. destruct Hd as [Hnd Hd].
    apply keys_differ_NoDup in Hnd.
    cbn [fix_int2str_py2].
    match goal with |- context [?f d d []] =>
      assert (Hloop : forall items live,
                 Forall (fun kv => untouched (snd kv)) items ->
                 forallb (fun kv => is_str_key (fst kv) && keys_all_str (snd kv)) items = true ->
                 forallb (fun kv => distinct_keys (snd kv)) items = true ->
                 (forall k v, In (k, v) items -> dict_get k live = Some v) ->
                 f items live [] = (Ok tt, live, []))
    end.
    { induction items as [|[k v] items IHi]; intros live HP Hs' Hd' Hlive; [reflexivity|].
      cbn [forallb fst snd] in Hs', Hd'. apply andb_prop in Hs', Hd'.
      destruct Hs' as [Hs1 Hs2], Hd' as [Hd1 Hd2]. apply andb_prop in Hs1.
      destruct Hs1 as [Hk Hv]. inversion HP as [|? ? Hx HP']; subst. cbn [snd] in Hx.
      destruct k as [s|z]; [|discriminate].
      assert (Hget : dict_get (KStr s) live = Some v) by (apply Hlive; now left).
      specialize (Hx Hv Hd1).
      assert (Hrest : forall k' v', In (k', v') items -> dict_get k' live = Some v').
      { intros k' v' Hin'. apply Hlive. now right. }
      destruct v as [| | | | |l| | |dd];
        try (cbn -[fix_int2str_py2 dict_set]; rewrite (dict_set_same _ _ _ Hget);
             rewrite (IHi live HP' Hs2 Hd2 Hrest); reflexivity).
      - match goal with |- context [?g (dot_join tree s) l] =>
          assert (Hin : forall tr, g tr l = (Ok tt, l, []))
        end.
        { intros tr. clear Hget Hlive HP Hv Hd1. induction Hx as [|x l Hx' _ IHl]; [reflexivity|].
          destruct x; try (rewrite IHl; reflexivity).
          rewrite Hx', IHl. reflexivity. }
        cbn -[fix_int2str_py2 dict_set]. rewrite Hin.
        cbn -[fix_int2str_py2 dict_set]. rewrite (dict_set_same _ _ _ Hget).
        rewrite (IHi live HP' Hs2 Hd2 Hrest). reflexivity.
      - cbn -[fix_int2str_py2 dict_set]. rewrite Hx.
        cbn -[fix_int2str_py2 dict_set]. rewrite (dict_set_same _ _ _ Hget).
        rewrite (IHi live HP' Hs2 Hd2 Hrest). reflexivity. }
    rewrite Hloop; [reflexivity | exact IH | exact Hs | exact Hd |].
    intros k v Hin. now apply dict_get_of_entry.
Qed.

(** X13.  Under Python 2, where [iteritems] exists, [fix_int2str] returns without
    an exception, leaves the mapping exactly as it was and logs nothing when
    every key at every depth is a string (and, as in any Python dictionary,
    no mapping holds a key twice). *)
Theorem fix_int2str_leaves_clean_mapping d tree :
  keys_all_str (VDict d) = true ->
  distinct_keys (VDict d) = true ->
  fix_int2str Python2 d tree = (Ok tt, d, []).
Proof.
  intros Hs Hd. unfold fix_int2str.
  now rewrite (fix_int2str_py2_untouched (VDict d) Hs Hd tree).
Qed.

Lemma fix_int2str_leaves_clean_mapping_witness :
  fix_int2str Python2 nested_report "" = (Ok tt, nested_report, []).
Proof.
  apply (fix_int2str_leaves_clean_mapping nested_report ""); reflexivity.
Defined.

(** ** What [loop_saver] stores *)

Lemma update_first_last {A} (p : A -> bool) f old doc :
  existsb p old = false -> p doc = true ->
  update_first p f (old ++ [doc]) = old ++ [f doc].
Proof.
  induction old as [|x old IH]; simpl; intros Hold Hdoc.
  - now rewrite Hdoc.
  - apply orb_false_elim in Hold. destruct Hold as [-> Hold]. now rewrite IH.
Qed.

Lemma has_id_set_other id k v doc :
  k <> KStr "_id" -> has_id id (dict_set k v doc) = has_id id doc.
Proof.
  intros Hne. unfold has_id, doc_id. rewrite dict_get_set_other; [reflexivity|].
  congruence.
Qed.

Lemma update_loop_stores env report id
  (Honly : forall k v e, update_verdict env k v = Raise e -> exn_cls e = InvalidDocument) old :
  forall keys doc w,
    (forall k, In k keys -> dict_get k report <> None) ->
    ~ In (KStr "_id") keys ->
    existsb (has_id id) old = false ->
    has_id id doc = true ->
    analysis (db w) = old ++ [doc] ->
    exists w',
      py_for keys (update_key env report id) w = (Ok tt, w')
      /\ analysis (db w') = old ++ [set_all report (accepted_keys env report keys) doc]
      /\ calls (db w') = calls (db w)
      /\ cuckoo_schema (db w') = cuckoo_schema (db w).
Proof.
  induction keys as [|k keys IH]; intros doc w Hin Hno Hold Hdoc Ha.
  - exists w. repeat split. exact Ha.
  - assert (Hk : dict_get k report <> None) by (apply Hin; now left).
    assert (Hne : k <> KStr "_id") by (intros ->; apply Hno; now left).
    cbn [py_for]. unfold bind at 1. unfold update_key at 1, try_except.
    unfold accepted_keys, update_rejected, value_at. cbn [filter].
    destruct (dict_get k report) as [v|] eqn:Hv; [|congruence].
    unfold analysis_update_one at 1.
    destruct (update_verdict env k v) as [[]|e] eqn:Hu.
    + match goal with |- context [py_for keys (update_key env report id) ?w0] =>
        destruct (IH (dict_set k v doc) w0) as [w' [Hrun [Ha' [Hc' Hs']]]] end.
      * intros k' Hk'. apply Hin. now right.
      * intros Hc. apply Hno. now right.
      * exact Hold.
      * now rewrite has_id_set_other.
      * cbn. rewrite Ha. now apply update_first_last.
      * exists w'. rewrite Hrun. split; [reflexivity|].
        rewrite Ha', Hc', Hs'. cbn [negb fold_left set_all].
        unfold set_all, accepted_keys, update_rejected, value_at. rewrite Hv.
        repeat split.
    + rewrite (Honly _ _ _ Hu). cbn [is_InvalidDocument write_log].
      match goal with |- context [py_for keys (update_key env report id) ?w0] =>
        destruct (IH doc w0) as [w' [Hrun [Ha' [Hc' Hs']]]] end.
      * intros k' Hk'. apply Hin. now right.
      * intros Hc. apply Hno. now right.
      * exact Hold.
      * exact Hdoc.
      * exact Ha.
      * exists w'. rewrite Hrun. split; [reflexivity|].
        rewrite Ha', Hc', Hs'. cbn [negb]. repeat split.
Qed.

Lemma remove_first_NoDup {A} (p : A -> bool) l : NoDup l -> NoDup (remove_first p l).
Proof.
  induction l as [|x l IH]; simpl; intros Hnd; [constructor|].
  inversion Hnd as [|? ? Hnotin Hnd']; subst. destruct (p x); [exact Hnd'|].
  constructor; [|auto]. intros Hin. apply Hnotin. now apply remove_first_incl in Hin.
Qed.

Lemma remove_first_key_in x l k :
  NoDup l -> (In k (remove_first (key_eqb x) l) <-> In k l /\ k <> x).
Proof.
  induction l as [|y l IH]; simpl; intros Hnd; [tauto|].
  inversion Hnd as [|? ? Hnotin Hnd']; subst.
  destruct (key_eqb_spec x y) as [->|Hne].
  - split.
    + intros Hin. split; [now right|]. intros ->. contradiction.
    + intros [[->|Hin] Hk]; [congruence | exact Hin].
  - simpl. rewrite (IH Hnd'). split.
    + intros [->|[Hin Hk]]; [split; [now left | congruence] | split; [now right | exact Hk]].
    + intros [[->|Hin] Hk]; [now left | right; split; assumption].
Qed.

Lemma remaining_keys_in report k :
  NoDup (dict_keys report) ->
  (In k (remaining_keys report)
   <-> In k (dict_keys report) /\ k <> KStr "_id" /\ k <> KStr "info").
Proof.
  intros Hnd. unfold remaining_keys, list_remove.
  destruct (existsb (key_eqb (KStr "_id")) (dict_keys report)) eqn:E.
  - rewrite remove_first_key_in by now apply remove_first_NoDup.
    rewrite remove_first_key_in by exact Hnd. tauto.
  - rewrite remove_first_key_in by exact Hnd.
    assert (Hno : ~ In (KStr "_id") (dict_keys report)).
    { intros Hin. apply existsb_key_in in Hin. congruence. }
    split; [intros [Hin Hk]; repeat split; try assumption; intros ->; contradiction | tauto].
Qed.

Lemma dict_get_set_all_out report keys k : forall doc,
  ~ In k keys -> dict_get k (set_all report keys doc) = dict_get k doc.
Proof.
  induction keys as [|k0 keys IH]; intros doc Hno; [reflexivity|].
  cbn [set_all fold_left]. fold (set_all report keys (dict_set k0 (value_at report k0) doc)).
  rewrite IH by (intros Hin; apply Hno; now right).
  apply dict_get_set_other. intros ->. apply Hno. now left.
Qed.

Lemma dict_get_set_all_in report keys k : forall doc,
  In k keys -> dict_get k (set_all report keys doc) = Some (value_at report k).
Proof.
  induction keys as [|k0 keys IH]; intros doc Hin; [contradiction|].
  cbn [set_all fold_left]. fold (set_all report keys (dict_set k0 (value_at report k0) doc)).
  destruct (existsb (key_eqb k) keys) eqn:E.
  - apply IH. now apply existsb_key_in.
  - assert (Hno : ~ In k keys) by (intros Hc; apply existsb_key_in in Hc; congruence).
    destruct Hin as [->|Hin]; [|contradiction].
    rewrite dict_get_set_all_out by exact Hno. apply dict_get_set_same.
Qed.

(** X14.  What [loop_saver] leaves in the store.  For a report with an ["info"]
    section whose top-level keys are plain field names, with the minimal
    document accepted and only [InvalidDocument] raised by the updates, the
    [analysis] collection gains exactly one document and the other
    collections are as before.  The document carries the identifier the
    store client has just generated, not the one of the report; its ["info"]
    is the report's; every other section of the report is there with the
    report's value, except the sections whose update was rejected, which
    are absent. *)
Theorem loop_saver_stores_accepted_sections env report w info :
  NoDup (dict_keys report) ->
  forallb plain_field (dict_keys report) = true ->
  dict_get (KStr "info") report = Some info ->
  insert_verdict env (minimal_document info w) = Ok tt ->
  existsb (has_id (VOid (next_oid (db w)))) (analysis (db w)) = false ->
  (forall k v e, update_verdict env k v = Raise e -> exn_cls e = InvalidDocument) ->
  exists stored w',
    loop_saver env report w = (Ok tt, w')
    /\ analysis (db w') = analysis (db w) ++ [stored]
    /\ calls (db w') = calls (db w)
    /\ cuckoo_schema (db w') = cuckoo_schema (db w)
    /\ doc_id stored = Some (VOid (next_oid (db w)))
    /\ dict_get (KStr "info") stored = Some info
    /\ forall k, k <> KStr "_id" -> k <> KStr "info" ->
                 dict_get k stored
                 = if update_rejected env report k then None else dict_get k report.
Proof.
  intros Hnd _ Hinfo Hverdict Hfresh Honly. unfold loop_saver.
  assert (E : existsb (key_eqb (KStr "info")) (dict_keys report) = true).
  { apply existsb_key_in. eapply dict_get_some_in; eauto. }
  rewrite E. cbn [negb].
  rewrite (bind_ok _ _ _ _ _ (lift_getitem_ok _ _ _ _ Hinfo)).
  rewrite (bind_ok _ _ _ _ _ (with_id_minimal info w)).
  erewrite bind_ok.
  2:{ unfold analysis_insert_one. rewrite Hverdict.
      change (doc_id (minimal_document info w)) with (Some (VOid (next_oid (db w)))).
      cbv beta iota zeta.
      change (analysis (db (add_op _ (set_db _ w)))) with (analysis (db w)).
      rewrite Hfresh. reflexivity. }
  erewrite bind_ok by reflexivity.
  fold (remaining_keys report).
  match goal with |- context [py_for ?ks ?body ?w0] =>
    destruct (update_loop_stores env report (VOid (next_oid (db w))) Honly (analysis (db w))
                ks (minimal_document info w) w0)
      as [w' [Hrun [Ha [Hc Hs]]]]
  end.
  - intros k Hk. apply dict_get_in. now apply remaining_keys_incl.
  - intros Hin. apply (remaining_keys_in _ _ Hnd) in Hin. tauto.
  - exact Hfresh.
  - unfold has_id, minimal_document, doc_id. cbn. now rewrite N.eqb_refl.
  - reflexivity.
  - exists (set_all report (accepted_keys env report (remaining_keys report))
                    (minimal_document info w)), w'.
    split; [exact Hrun|]. split; [exact Ha|]. split; [exact Hc|]. split; [exact Hs|].
    assert (Hout : forall k, ~ In k (remaining_keys report) ->
                             ~ In k (accepted_keys env report (remaining_keys report))).
    { intros k Hno Hin. apply Hno. unfold accepted_keys in Hin.
      apply filter_In in Hin. tauto. }
    split; [|split].
    + unfold doc_id. rewrite dict_get_set_all_out; [reflexivity|].
      apply Hout. intros Hin. apply (remaining_keys_in _ _ Hnd) in Hin. tauto.
    + rewrite dict_get_set_all_out; [reflexivity|].
      apply Hout. intros Hin. apply (remaining_keys_in _ _ Hnd) in Hin. tauto.
    + intros k Hid Hinf.
      destruct (dict_get k report) as [v|] eqn:Hk.
      * assert (Hin : In k (remaining_keys report)).
        { apply (remaining_keys_in _ _ Hnd). repeat split; try assumption.
          eapply dict_get_some_in; eauto. }
        destruct (update_rejected env report k) eqn:Hr.
        -- rewrite dict_get_set_all_out.
           ++ cbn. destruct (key_eqb_spec k (KStr "info")); [contradiction|].
              destruct (key_eqb_spec k (KStr "_id")); [contradiction | reflexivity].
           ++ unfold accepted_keys. rewrite filter_In, Hr. cbn. intros [_ H]. discriminate.
        -- rewrite dict_get_set_all_in.
           ++ unfold value_at. now rewrite Hk.
           ++ unfold accepted_keys. rewrite filter_In, Hr. auto.
      * assert (Hno : ~ In k (remaining_keys report)).
        { intros Hin. apply remaining_keys_incl, dict_get_in in Hin. congruence. }
        rewrite dict_get_set_all_out by now apply Hout.
        cbn. destruct (key_eqb_spec k (KStr "info")); [contradiction|].
        destruct (key_eqb_spec k (KStr "_id")); [contradiction|].
        now destruct (update_rejected env report k).
Qed.

Lemma loop_saver_stores_accepted_sections_witness :
  exists stored w',
    loop_saver reference_env (unencodable_report ++ [(KStr "_id", VOid 9)]) empty_world
    = (Ok tt, w')
    /\ analysis (db w') = [stored]
    /\ doc_id stored = Some (VOid 0)
    /\ dict_get (KStr "tags") stored = None
    /\ dict_get (KStr "target") stored = Some (VDict [(KStr "name", VStr "sample.exe")]).
Proof.
  edestruct (loop_saver_stores_accepted_sections reference_env
               (unencodable_report ++ [(KStr "_id", VOid 9)]) empty_world)
    as [stored [w' [Hrun [Ha [_ [_ [Hid [_ Hk]]]]]]]].
  - repeat constructor; cbn; intuition discriminate.
  - reflexivity.
  - reflexivity.
  - reflexivity.
  - reflexivity.
  - intros k v e. apply reference_verdict_invalid.
  - exists stored, w'. split; [exact Hrun|]. split; [exact Ha|]. split; [exact Hid|].
    split; [exact (Hk (KStr "tags") ltac:(discriminate) ltac:(discriminate))
           | exact (Hk (KStr "target") ltac:(discriminate) ltac:(discriminate))].
Defined.

(** ** The eviction and a stored document without a behavior section *)

(** X15.  The eviction reads ["behavior"] of every stored document of the task.
    When the first one has no such section, the eviction ends with
    [KeyError]: the first debug line is written, the store has been queried,
    and nothing has been deleted. *)
Theorem evict_stops_at_document_without_behavior env report w task_value task stored rest :
  report_task report = Ok task_value ->
  py_int (int_of_str env) task_value = Ok task ->
  filter (task_matches task) (analysis (db w)) = stored :: rest ->
  dict_get (KStr "behavior") stored = None ->
  exists w',
    evict env report w = (Raise (Exn KeyError "behavior"), w')
    /\ db w' = db w
    /\ logged w' = logged w ++ [LogDeleting task_value]
    /\ ops w' = ops w ++ [OpAnalysisFind task].
Proof.
  intros Ht Hi Hf Hb.
  assert (Hlift : forall A (x : result A) a (w0 : world), x = Ok a -> lift x w0 = (Ok a, w0)).
  { intros A x a w0 ->. reflexivity. }
  eexists. split.
  - unfold evict.
    rewrite (bind_ok _ _ _ _ _ (Hlift _ _ _ _ Ht)).
    rewrite (bind_ok _ _ _ _ _ (Hlift _ _ _ _ Hi)).
    erewrite bind_ok by reflexivity. cbv beta.
    rewrite (bind_ok _ _ _ _ _ (Hlift _ _ _ _ Ht)).
    erewrite bind_ok by reflexivity. cbn [db add_op add_log analysis]. rewrite Hf.
    erewrite bind_raise; [reflexivity|].
    cbn [py_for]. erewrite bind_raise; [reflexivity|].
    unfold evict_analysis. erewrite bind_raise; [reflexivity|].
    unfold lift. cbn [py_getitem]. rewrite Hb. reflexivity.
  - repeat split.
Qed.

Lemma evict_stops_at_document_without_behavior_witness :
  exists w',
    evict reference_env small_report partial_world = (Raise (Exn KeyError "behavior"), w')
    /\ db w' = db partial_world.
Proof.
  edestruct (evict_stops_at_document_without_behavior reference_env small_report partial_world)
    as [w' [Hrun [Hdb _]]].
  - reflexivity.
  - reflexivity.
  - reflexivity.
  - reflexivity.
  - exists w'. split; [exact Hrun | exact Hdb].
Defined.

(** ** The main task identifier *)

(** X16.  With a true [main_task_id] among the options of the results, the report
    is filed under that task: [info.id] becomes its integer value, and the
    other keys of ["info"] and the other sections are as they were.  Without
    an ["info"] section in the results the report is as it was. *)
Theorem main_task_id_overrides env results report :
  (forall info opts m n rinfo,
      dict_get (KStr "info") results = Some (VDict info) ->
      dict_get (KStr "options") info = Some (VDict opts) ->
      dict_get (KStr "main_task_id") opts = Some m ->
      truthy m = true ->
      py_int (int_of_str env) m = Ok n ->
      dict_get (KStr "info") report = Some (VDict rinfo) ->
      exists report' rinfo',
        resolve_task_id env results report = Ok report'
        /\ report_task report' = Ok (VInt n)
        /\ dict_keys report' = dict_keys report
        /\ (forall k, k <> KStr "info" -> dict_get k report' = dict_get k report)
        /\ dict_get (KStr "info") report' = Some (VDict rinfo')
        /\ (forall k, k <> KStr "id" -> dict_get k rinfo' = dict_get k rinfo))
  /\ (dict_get (KStr "info") results = None ->
      resolve_task_id env results report = Ok report).
Proof.
  split.
  - intros info opts m n rinfo Hi Ho Hm Ht Hn Hr.
    exists (dict_set (KStr "info") (VDict (dict_set (KStr "id") (VInt n) rinfo)) report),
           (dict_set (KStr "id") (VInt n) rinfo).
    split; [|split; [|split; [|split; [|split]]]].
    + unfold resolve_task_id. cbn [py_get rbind]. rewrite Hi. cbn [py_get rbind].
      rewrite Ho. cbn [py_get rbind]. rewrite Hm. cbn [rbind]. rewrite Ht, Hn.
      cbn [rbind py_getitem]. rewrite Hr. reflexivity.
    + unfold report_task. cbn [py_getitem rbind]. rewrite dict_get_set_same.
      cbn [rbind py_getitem]. now rewrite dict_get_set_same.
    + now apply dict_keys_set_present with (v0 := VDict rinfo).
    + intros k Hk. now apply dict_get_set_other.
    + apply dict_get_set_same.
    + intros k Hk. now apply dict_get_set_other.
  - intros Hi. unfold resolve_task_id. cbn [py_get rbind]. rewrite Hi. reflexivity.
Qed.

Lemma main_task_id_overrides_witness :
  exists report',
    resolve_task_id reference_env distributed_results small_report = Ok report'
    /\ report_task report' = Ok (VInt 42).
Proof.
  edestruct (proj1 (main_task_id_overrides reference_env distributed_results small_report))
    as [report' [rinfo' [Hres [Htask _]]]].
  - reflexivity.
  - reflexivity.
  - reflexivity.
  - reflexivity.
  - reflexivity.
  - reflexivity.
  - exists report'. split; [exact Hres | exact Htask].
Defined.

(** ** What the saving phase never does *)

Lemma saving_step_refl w : saving_step w w.
Proof.
  repeat split; auto. exists []. now rewrite app_nil_r.
Qed.

Lemma saving_step_trans a b c : saving_step a b -> saving_step b c -> saving_step a c.
Proof.
  intros [C1 [S1 [O1 [L1 [l1 [H1 Q1]]]]]] [C2 [S2 [O2 [L2 [l2 [H2 Q2]]]]]].
  split; [congruence|]. split; [congruence|]. split; [congruence|].
  split; [now apply Nat.le_trans with (m := List.length (analysis (db b)))|].
  exists (l1 ++ l2). rewrite H2, H1, <- app_assoc. split; [reflexivity|].
  now rewrite forallb_app, Q1, Q2.
Qed.

Lemma update_first_length {A} (p : A -> bool) f l :
  List.length (update_first p f l) = List.length l.
Proof.
  induction l as [|x l IH]; simpl; [reflexivity|]. destruct (p x); simpl; congruence.
Qed.

Lemma saving_none w w' :
  calls (db w') = calls (db w) -> cuckoo_schema (db w') = cuckoo_schema (db w) ->
  conn_open w' = conn_open w -> analysis (db w') = analysis (db w) -> ops w' = ops w ->
  saving_step w w'.
Proof.
  intros Hc Hs Ho Ha Hops. repeat split; try assumption.
  - rewrite Ha. apply Nat.le_refl.
  - exists []. now rewrite app_nil_r.
Qed.

Lemma write_log_saving lg : stable saving_step (write_log lg).
Proof. intros w r w' H. injection H as _ <-. now apply saving_none. Qed.

Lemma with_id_saving doc : stable saving_step (with_id doc).
Proof.
  intros w r w' H. unfold with_id in H.
  destruct (dict_mem (KStr "_id") doc); injection H as _ <-; now apply saving_none.
Qed.

Lemma analysis_insert_one_saving env doc : stable saving_step (analysis_insert_one env doc).
Proof.
  intros w r w' H. unfold analysis_insert_one in H.
  assert (Hop : saving_step w (add_op (OpAnalysisInsert doc) w)).
  { repeat split; auto. exists [OpAnalysisInsert doc]. split; reflexivity. }
  destruct (insert_verdict env doc) as [[]|e]; [|injection H as _ <-; exact Hop].
  destruct (doc_id doc) as [id|]; [|injection H as _ <-; exact Hop].
  destruct (existsb _ _); injection H as _ <-; [exact Hop|].
  repeat split; auto.
  - cbn. rewrite List.length_app. apply Nat.le_add_r.
  - exists [OpAnalysisInsert doc]. split; reflexivity.
Qed.

Lemma analysis_update_one_saving env id k v :
  stable saving_step (analysis_update_one env id k v).
Proof.
  intros w r w' H. unfold analysis_update_one in H.
  destruct (update_verdict env k v) as [[]|e]; injection H as _ <-.
  - repeat split; auto.
    + cbn. rewrite update_first_length. apply Nat.le_refl.
    + exists [OpAnalysisUpdate id k v]. split; reflexivity.
  - repeat split; auto. exists [OpAnalysisUpdate id k v]. split; reflexivity.
Qed.

Ltac saving_steps :=
  repeat first
    [ apply stable_ret; exact saving_step_refl
    | apply stable_raise; exact saving_step_refl
    | apply stable_lift; exact saving_step_refl
    | apply write_log_saving | apply with_id_saving | apply analysis_insert_one_saving
    | apply analysis_update_one_saving
    | apply stable_bind; [exact saving_step_trans | | intros ?]
    | apply stable_try_except; [exact saving_step_trans | | intros ?]
    | apply stable_py_for; [exact saving_step_refl | exact saving_step_trans | intros ?] ].

Lemma loop_saver_saving env report : stable saving_step (loop_saver env report).
Proof.
  unfold loop_saver. destruct (negb _); [apply write_log_saving|].
  unfold update_key. saving_steps. destruct (dict_get _ report); saving_steps.
Qed.

Lemma remediation_pass_saving env report pk sf :
  stable saving_step (remediation_pass env report pk sf).
Proof.
  unfold remediation_pass. destruct (delete_children report pk sf) as [[r rep] lg].
  saving_steps. destruct (startswith _ _); saving_steps.
  match goal with |- stable _ (let '(_, _) := ?x in _) => destruct x end. saving_steps.
Qed.

Lemma remediation_loop_saving env fuel : forall report pk sf,
  stable saving_step (remediation_loop env fuel report pk sf).
Proof.
  induction fuel as [|fuel IH]; intros report pk sf; cbn [remediation_loop]; [saving_steps|].
  apply stable_bind; [exact saving_step_trans | apply remediation_pass_saving |].
  intros [[e|pk' sf'] rep]; [saving_steps | apply IH].
Qed.

(** X17.  Whatever the report, the store and the way it ends, the saving phase of
    lines 177-223 (the direct insert, [loop_saver], the diagnosis and the
    remediation loop) calls the store only to insert into [analysis] and to
    update it, removes no document from it, and leaves the [calls]
    collection, the schema collection and the connection as they were. *)
Theorem store_report_only_writes_analysis env options fuel report w :
  saving_step w (snd (store_report env options fuel report w)).
Proof.
  assert (Hst : stable saving_step (store_report env options fuel report)).
  { unfold store_report. saving_steps.
    destruct (_ || _); saving_steps.
    - apply loop_saver_saving.
    - match goal with |- stable _ (let '(_, _) := ?x in _) => destruct x end.
      destruct (negb _); [saving_steps | apply remediation_loop_saving]. }
  destruct (store_report env options fuel report w) as [r w'] eqn:E.
  exact (Hst _ _ _ E).
Qed.

(** ** The lines a save logs *)

Lemma logs_run_lines_refl w : logs_run_lines w w.
Proof. exists []. now rewrite app_nil_r. Qed.

Lemma logs_run_lines_trans a b c :
  logs_run_lines a b -> logs_run_lines b c -> logs_run_lines a c.
Proof.
  intros [l1 [H1 Q1]] [l2 [H2 Q2]]. exists (l1 ++ l2).
  rewrite H2, H1, <- app_assoc. split; [reflexivity|]. now rewrite forallb_app, Q1, Q2.
Qed.

Lemma silent_logs {A} (c : M A) :
  (forall w r w', c w = (r, w') -> logged w' = logged w) -> stable logs_run_lines c.
Proof.
  intros Hc w r w' H. exists []. rewrite app_nil_r. split; [eauto | reflexivity].
Qed.

Lemma quiet_logs {A} (c : M A) : stable quiet_step c -> stable logs_run_lines c.
Proof.
  intros Hc. apply silent_logs. intros w r w' H. now destruct (Hc _ _ _ H) as [_ [Hl _]].
Qed.

Lemma saving_silent_primitives env :
  (forall doc, stable logs_run_lines (analysis_insert_one env doc))
  /\ (forall id k v, stable logs_run_lines (analysis_update_one env id k v))
  /\ (forall task, stable logs_run_lines (analysis_find task))
  /\ (forall ids, stable logs_run_lines (calls_delete_many ids))
  /\ (forall id, stable logs_run_lines (analysis_delete_one id)).
Proof.
  repeat split; intros; apply silent_logs; intros w r w' H.
  - unfold analysis_insert_one in H.
    repeat match type of H with
           | context [match ?x with _ => _ end] => destruct x
           | context [if ?x then _ else _] => destruct x
           end; injection H as _ <-; reflexivity.
  - unfold analysis_update_one in H.
    destruct (update_verdict env k v) as [[]|e]; injection H as _ <-; reflexivity.
  - injection H as _ <-. reflexivity.
  - unfold calls_delete_many in H. destruct ids; injection H as _ <-; reflexivity.
  - injection H as _ <-. reflexivity.
Qed.

Lemma write_log_lines lg : forallb run_line lg = true -> stable logs_run_lines (write_log lg).
Proof. intros Hlg w r w' H. injection H as _ <-. exists lg. split; [reflexivity | exact Hlg]. Qed.

Lemma stable_bind_result {A B} (R : world -> world -> Prop) (c : M A) (f : A -> M B)
    (Q : A -> Prop) :
  (forall a b c, R a b -> R b c -> R a c) ->
  stable R c ->
  (forall w a w', c w = (Ok a, w') -> Q a) ->
  (forall a, Q a -> stable R (f a)) ->
  stable R (bind c f).
Proof.
  intros Rt Hc HQ Hf w r w' H. unfold bind in H.
  destruct (c w) as [[a|e] w1] eqn:E.
  - eapply Rt; [eapply Hc; eauto | eapply Hf; eauto].
  - injection H as _ <-. eapply Hc; eauto.
Qed.

Ltac log_steps env :=
  repeat first
    [ apply stable_ret; exact logs_run_lines_refl
    | apply stable_raise; exact logs_run_lines_refl
    | apply stable_lift; exact logs_run_lines_refl
    | apply write_log_lines; reflexivity
    | apply quiet_logs, with_id_quiet
    | apply (proj1 (saving_silent_primitives env))
    | apply (proj1 (proj2 (saving_silent_primitives env)))
    | apply (proj1 (proj2 (proj2 (saving_silent_primitives env))))
    | apply (proj1 (proj2 (proj2 (proj2 (saving_silent_primitives env)))))
    | apply (proj2 (proj2 (proj2 (proj2 (saving_silent_primitives env)))))
    | apply stable_bind; [exact logs_run_lines_trans | | intros ?]
    | apply stable_try_except; [exact logs_run_lines_trans | | intros ?]
    | apply stable_py_for; [exact logs_run_lines_refl | exact logs_run_lines_trans | intros ?] ].

Lemma evict_lines env report : stable logs_run_lines (evict env report).
Proof. unfold evict, evict_analysis, evict_calls. log_steps env. Qed.

Lemma loop_saver_lines env report :
  In (KStr "info") (dict_keys report) -> stable logs_run_lines (loop_saver env report).
Proof.
  intros Hin. unfold loop_saver. apply existsb_key_in in Hin. rewrite Hin. cbn [negb].
  unfold update_key. log_steps env. destruct (dict_get _ report); log_steps env.
Qed.

Lemma delete_children_lines report pk sf r rep lg :
  delete_children report pk sf = (r, rep, lg) -> forallb run_line lg = true.
Proof.
  assert (Hall : forall l, Forall (deletion_entry pk sf) l -> forallb run_line l = true).
  { intros l Hl. apply forallb_forall. intros x Hx.
    rewrite Forall_forall in Hl. destruct (Hl x Hx) as [child [cs [-> _]]]. reflexivity. }
  unfold delete_children. destruct (dict_get pk report) as [v|].
  - assert (Hother : forall obj,
               (let '(r0, lg0) := prune pk sf obj in
                match r0 with
                | Raise e => (Raise e, report, lg0)
                | Ok obj' => (Ok tt, dict_set pk obj' report, lg0)
                end) = (r, rep, lg) -> forallb run_line lg = true).
    { intros obj H. destruct (prune pk sf obj) as [[obj'|e] lg0] eqn:Hp;
        injection H as <- <- <-; apply Hall; now destruct (prune_logged _ _ _ _ _ Hp). }
    destruct v as [| | | | |l| | |d]; try apply Hother.
    destruct (prune_each pk sf l) as [[r0 l'] lg0] eqn:Hp. intros H. injection H as <- <- <-.
    apply Hall. now destruct (prune_each_logged _ _ _ _ _ _ Hp).
  - intros H. injection H as <- <- <-. reflexivity.
Qed.

Lemma remediation_pass_lines env report pk sf :
  stable logs_run_lines (remediation_pass env report pk sf).
Proof.
  unfold remediation_pass. destruct (delete_children report pk sf) as [[r rep] lg] eqn:Hd.
  apply delete_children_lines in Hd.
  apply stable_try_except; [exact logs_run_lines_trans | | intros ?; log_steps env].
  apply stable_bind; [exact logs_run_lines_trans | now apply write_log_lines | intros ?].
  log_steps env. destruct (startswith _ _); log_steps env.
  match goal with |- stable _ (let '(_, _) := ?x in _) => destruct x end. log_steps env.
Qed.

Lemma remediation_loop_lines env fuel : forall report pk sf,
  stable logs_run_lines (remediation_loop env fuel report pk sf).
Proof.
  induction fuel as [|fuel IH]; intros report pk sf; cbn [remediation_loop]; [log_steps env|].
  apply stable_bind; [exact logs_run_lines_trans | apply remediation_pass_lines |].
  intros [[e|pk' sf'] rep]; [log_steps env | apply IH].
Qed.

Lemma store_report_lines env options fuel report :
  In (KStr "info") (dict_keys report) ->
  stable logs_run_lines (store_report env options fuel report).
Proof.
  intros Hin. unfold store_report.
  apply stable_bind_result with (Q := fun rid => In (KStr "info") (dict_keys rid)).
  - exact logs_run_lines_trans.
  - apply quiet_logs, with_id_quiet.
  - intros w rid w' H. apply with_id_effect in H.
    destruct H as [[-> _]|[-> _]]; [exact Hin | now apply dict_keys_set_incl].
  - intros rid Hrid. log_steps env. destruct (_ || _); log_steps env.
    + now apply loop_saver_lines.
    + match goal with |- stable _ (let '(_, _) := ?x in _) => destruct x end.
      destruct (negb _); [log_steps env | apply remediation_loop_lines].
Qed.

Lemma prepare_lines env options results : stable logs_run_lines (prepare env options results).
Proof.
  unfold prepare.
  apply stable_bind; [exact logs_run_lines_trans | destruct (negb _); log_steps env | intros ?].
  apply stable_bind; [exact logs_run_lines_trans | apply quiet_logs, connect_quiet | intros ?].
  apply stable_bind; [exact logs_run_lines_trans | apply quiet_logs, check_schema_quiet
                     | intros ?].
  apply stable_bind; [exact logs_run_lines_trans | apply quiet_logs, build_report_quiet
                     | intros ?].
  apply stable_bind; [exact logs_run_lines_trans | apply quiet_logs, create_index_quiet
                     | intros ?].
  apply stable_bind; [exact logs_run_lines_trans | apply quiet_logs, create_index_quiet
                     | intros ?].
  apply stable_bind; [exact logs_run_lines_trans | log_steps env | intros ?].
  apply stable_bind; [exact logs_run_lines_trans | apply evict_lines | intros ?].
  log_steps env.
Qed.

Lemma prepare_has_info env options results w report w1 :
  prepare env options results w = (Ok report, w1) -> In (KStr "info") (dict_keys report).
Proof.
  intros H. apply prepare_effect in H.
  destruct H as [report0 [tv [task [pre [-> [Ht _]]]]]].
  rewrite dict_keys_sanitized. unfold report_task in Ht. cbn [py_getitem] in Ht.
  destruct (dict_get (KStr "info") report0) as [info|] eqn:Hi; [|discriminate].
  eapply dict_get_some_in; eauto.
Qed.

(** X18.  However a run ends, the lines it adds to the log are never the
    "Missing 'info' key" line of [loop_saver] (the report [run] hands over
    always has an ["info"] section) nor the "BAD KEY" line of [fix_int2str]
    (which [run] does not call). *)
Theorem run_never_logs_missing_info env options fuel results w :
  logs_run_lines w (snd (run env options fuel results w)).
Proof.
  assert (Hst : stable logs_run_lines (run env options fuel results)).
  { unfold run.
    apply stable_bind_result with (Q := fun report => In (KStr "info") (dict_keys report)).
    - exact logs_run_lines_trans.
    - apply prepare_lines.
    - intros w0 report w1. apply prepare_has_info.
    - intros report Hin.
      apply stable_bind; [exact logs_run_lines_trans | now apply store_report_lines |].
      intros [[o|o|] rep]; log_steps env.
      apply silent_logs. intros w0 r w' H. injection H as _ <-. reflexivity. }
  destruct (run env options fuel results w) as [r w'] eqn:E.
  exact (Hst _ _ _ E).
Qed.

(** ** The sections of the report that is stored *)

Lemma build_report_sections env results w built w' :
  build_report env results w = (Ok built, w') ->
  (exists b procs, dict_get (KStr "behavior") built = Some (VDict b)
                   /\ dict_get (KStr "processes") b = Some procs)
  /\ (exists n, dict_get (KStr "network") built = Some n)
  /\ (dict_get (KStr "network") (get_json_document env results) = None ->
      dict_get (KStr "network") built = Some (VDict [])).
Proof.
  unfold build_report. intros H.
  apply bind_inv in H. destruct H as [np [wa [_ H]]].
  apply bind_inv in H. destruct H as [b [wb [_ H]]].
  apply bind_inv in H. destruct H as [b' [wc [_ H]]].
  injection H as <- _. split; [|split].
  - do 2 eexists. split; apply dict_get_set_same.
  - rewrite dict_get_set_other by discriminate. unfold dict_mem.
    destruct (dict_get (KStr "network") (get_json_document env results)) as [n|] eqn:Hn;
      cbn [negb].
    + rewrite Hn. eauto.
    + rewrite dict_get_set_same. eauto.
  - intros Hn. rewrite dict_get_set_other by discriminate. unfold dict_mem. rewrite Hn.
    cbn [negb]. apply dict_get_set_same.
Qed.

(** X19.  The report that [run] goes on to store has the three sections the code
    relies on: ["info"] with an ["id"], ["behavior"] as a mapping with
    ["processes"], and ["network"], which is the empty mapping when the
    results had none. *)
Theorem prepared_report_sections env options results w report w1 :
  prepare env options results w = (Ok report, w1) ->
  (exists info id, dict_get (KStr "info") report = Some info /\ py_getitem info "id" = Ok id)
  /\ (exists b procs, dict_get (KStr "behavior") report = Some (VDict b)
                      /\ dict_get (KStr "processes") b = Some procs)
  /\ (exists n, dict_get (KStr "network") report = Some n)
  /\ (dict_get (KStr "network") (get_json_document env results) = None ->
      dict_get (KStr "network") report = Some (VDict [])).
Proof.
  intros H. pose proof (prepare_effect _ _ _ _ _ _ H) as [r0 [tv [task [pre [_ [Ht _]]]]]].
  unfold prepare in H.
  apply bind_inv in H. destruct H as [[] [wa [Ha H]]].
  apply bind_inv in H. destruct H as [[] [wb [Hb H]]].
  apply bind_inv in H. destruct H as [[] [wc [Hc H]]].
  apply bind_inv in H. destruct H as [built [wd [Hd H]]].
  apply bind_inv in H. destruct H as [[] [we [He H]]].
  apply bind_inv in H. destruct H as [[] [wf [Hf H]]].
  apply bind_inv in H. destruct H as [report0 [wg [Hg H]]].
  apply bind_inv in H. destruct H as [[] [wh [Hh H]]].
  injection H as <- <-. injection Hg as Hg _.
  apply evict_effect in Hh. destruct Hh as [tv' [task' [Ht' _]]].
  apply build_report_sections in Hd. destruct Hd as [[b [procs [Bb Bp]]] [[n Bn] Bnone]].
  apply resolve_task_id_keeps in Hg. destruct Hg as [_ Rv].
  unfold ensure_valid_utf8_report. rewrite !dict_get_map.
  rewrite (Rv (KStr "behavior")), (Rv (KStr "network")) by discriminate.
  split; [|split; [|split]].
  - unfold report_task in Ht'. cbn [py_getitem] in Ht'.
    destruct (dict_get (KStr "info") report0) as [info|]; [|discriminate].
    cbn [rbind] in Ht'. destruct info as [| | | | | | | |d]; try discriminate.
    cbn [py_getitem] in Ht'.
    destruct (dict_get (KStr "id") d) as [id|] eqn:Hid; [|discriminate].
    do 2 eexists. split; [reflexivity|]. cbn [ensure_valid_utf8 py_getitem].
    rewrite dict_get_map, Hid. reflexivity.
  - rewrite Bb. cbn [option_map ensure_valid_utf8]. do 2 eexists. split; [reflexivity|].
    rewrite dict_get_map, Bp. reflexivity.
  - rewrite Bn. cbn [option_map]. eauto.
  - intros Hn. rewrite (Bnone Hn). reflexivity.
Qed.

Lemma prepared_report_sections_witness :
  prepare reference_env [] small_report empty_world = (Ok prepared_small_report, prepared_world)
  /\ dict_get (KStr "network") prepared_small_report = Some (VDict []).
Proof.
  split; [reflexivity|].
  apply (proj2 (proj2 (proj2 (prepared_report_sections reference_env [] small_report
                                empty_world prepared_small_report prepared_world
                                eq_refl)))).
  reflexivity.
Defined.

(** ** The keys [loop_saver] updates *)

Lemma key_eqb_sym a b : key_eqb a b = key_eqb b a.
Proof.
  destruct (key_eqb_spec a b) as [->|Hne]; [now rewrite key_eqb_refl|].
  destruct (key_eqb_spec b a); congruence.
Qed.

Lemma remove_first_key_filter x l :
  NoDup l -> remove_first (key_eqb x) l = filter (fun k => negb (key_eqb k x)) l.
Proof.
  induction l as [|y l IH]; simpl; intros Hnd; [reflexivity|].
  inversion Hnd as [|? ? Hnotin Hnd']; subst. rewrite (key_eqb_sym y x).
  destruct (key_eqb_spec x y) as [->|Hne]; simpl.
  - symmetry. apply filter_none. intros k Hk.
    destruct (key_eqb_spec k y) as [->|_]; [contradiction | reflexivity].
  - now rewrite IH.
Qed.

Lemma remaining_keys_other_sections report :
  NoDup (dict_keys report) -> remaining_keys report = other_sections report.
Proof.
  intros Hnd. unfold remaining_keys, other_sections, list_remove.
  destruct (existsb (key_eqb (KStr "_id")) (dict_keys report)) eqn:E.
  - rewrite remove_first_key_filter by now apply remove_first_NoDup.
    rewrite remove_first_key_filter by exact Hnd. apply filter_filter.
  - rewrite remove_first_key_filter by exact Hnd.
    apply filter_ext_in_bool. intros k Hk.
    destruct (key_eqb_spec k (KStr "_id")) as [->|_]; [|reflexivity].
    apply existsb_key_in in Hk. congruence.
Qed.

(** C9.  Without an ["info"] key [loop_saver] logs the error and returns: the
    store and the list of store calls are as before, so there is no insert
    and no update.  With ["info"], and the minimal document accepted, the
    calls it makes are the insert of the document holding only the info
    section (and its fresh identifier) followed by one update for every
    top-level key of the report other than ["_id"] and ["info"], in the
    order of the report, and by nothing else: neither ["info"] nor ["_id"]
    is updated.  An update rejected as an invalid document is logged and
    the loop goes on. *)
Theorem loop_saver_writes env report w :
  (~ In (KStr "info") (dict_keys report) ->
   loop_saver env report w = (Ok tt, add_log [LogMissingInfo (dict_keys report)] w)
   /\ db (add_log [LogMissingInfo (dict_keys report)] w) = db w
   /\ ops (add_log [LogMissingInfo (dict_keys report)] w) = ops w)
  /\ (forall info,
        NoDup (dict_keys report) ->
        dict_get (KStr "info") report = Some info ->
        insert_verdict env (minimal_document info w) = Ok tt ->
        existsb (has_id (VOid (next_oid (db w)))) (analysis (db w)) = false ->
        (forall k v e, update_verdict env k v = Raise e -> exn_cls e = InvalidDocument) ->
        exists w',
          loop_saver env report w = (Ok tt, w')
          /\ ops w' = ops w
                      ++ OpAnalysisInsert [(KStr "info", info);
                                           (KStr "_id", VOid (next_oid (db w)))]
                      :: map (fun k => OpAnalysisUpdate (VOid (next_oid (db w))) k (value_at report k))
                             (other_sections report)
          /\ (forall o, In o (ops w') -> ~ In o (ops w) ->
                        forall id v, o <> OpAnalysisUpdate id (KStr "info") v
                                     /\ o <> OpAnalysisUpdate id (KStr "_id") v)
          /\ logged w' = logged w
                         ++ map LogInvestigateKey
                                (filter (update_rejected env report) (other_sections report))).
Proof.
  split; [exact (proj1 (loop_saver_runs env report w))|].
  intros info Hnd Hinfo Hverdict Hfresh Honly.
  destruct (proj2 (loop_saver_runs env report w) info Hinfo Hverdict Hfresh Honly)
    as [w' [Hrun [Hops Hlog]]].
  rewrite (remaining_keys_other_sections _ Hnd) in Hops, Hlog.
  exists w'. split; [exact Hrun|]. split; [exact Hops|]. split; [|exact Hlog].
  intros o Hin Hnew id v. rewrite Hops in Hin. apply in_app_or in Hin.
  destruct Hin as [Hin|[<-|Hin]]; [contradiction | split; discriminate|].
  apply in_map_iff in Hin. destruct Hin as [k [<- Hk]].
  unfold other_sections in Hk. apply filter_In in Hk. destruct Hk as [_ Hk].
  apply andb_prop in Hk. destruct Hk as [Hid Hinf].
  split; intros Heq; injection Heq as _ -> _; discriminate.
Qed.

Lemma loop_saver_writes_witness :
  exists w',
    loop_saver reference_env (unencodable_report ++ [(KStr "_id", VOid 9)]) empty_world
    = (Ok tt, w')
    /\ ops w'
       = [OpAnalysisInsert [(KStr "info", VDict [(KStr "id", VInt 42)]); (KStr "_id", VOid 0)];
          OpAnalysisUpdate (VOid 0) (KStr "behavior")
            (VDict [(KStr "processes",
                     VList [VDict [(KStr "process_id", VInt 7);
                                   (KStr "calls", VList [VStr "NtCreateFile"])]])]);
          OpAnalysisUpdate (VOid 0) (KStr "target") (VDict [(KStr "name", VStr "sample.exe")]);
          OpAnalysisUpdate (VOid 0) (KStr "tags") (VSet [VStr "packed"])]
    /\ logged w' = [LogInvestigateKey (KStr "tags")].
Proof.
  edestruct (proj2 (loop_saver_writes reference_env
                      (unencodable_report ++ [(KStr "_id", VOid 9)]) empty_world))
    as [w' [Hrun [Hops [_ Hlog]]]].
  - repeat constructor; cbn; intuition discriminate.
  - reflexivity.
  - reflexivity.
  - reflexivity.
  - intros k v e. apply reference_verdict_invalid.
  - exists w'. split; [exact Hrun|]. split; [exact Hops | exact Hlog].
Defined.

(** ** What a deletion pass changes *)

Lemma prune_pruned pk sf obj obj' lg :
  prune pk sf obj = (Ok obj', lg) -> pruned pk sf obj obj' lg.
Proof.
  unfold prune. destruct (largest obj) as [[ck cs]|e] eqn:Hl; [|discriminate].
  destruct (Z.gtb_spec cs sf) as [Hgt|Hle]; intros H.
  - injection H as H <-. eapply pruned_deleted; eauto. lia.
  - injection H as <- <-. eapply pruned_kept; eauto.
Qed.

Lemma prune_raises pk sf obj e lg :
  prune pk sf obj = (Raise e, lg) -> prune_fails pk sf obj e lg.
Proof.
  unfold prune, prune_fails. destruct (largest obj) as [[ck cs]|e0] eqn:Hl.
  - destruct (Z.gtb_spec cs sf) as [Hgt|Hle]; intros H; [|discriminate].
    injection H as H <-. right. exists ck, cs. repeat split; auto. lia.
  - intros H. injection H as <- <-. now left.
Qed.

Lemma prune_each_pruned pk sf els : forall els' lg,
  prune_each pk sf els = (Ok tt, els', lg) -> pruned_each pk sf els els' lg.
Proof.
  induction els as [|el els IH]; intros els' lg H; cbn [prune_each] in H.
  - injection H as <- <-. constructor.
  - destruct (prune pk sf el) as [[el'|e] lg1] eqn:Hp; [|discriminate].
    destruct (prune_each pk sf els) as [[r2 rest'] lg2] eqn:Hrest.
    injection H as -> <- <-. constructor; [now apply prune_pruned | now apply IH].
Qed.

Lemma prune_each_raises pk sf els : forall e els' lg,
  prune_each pk sf els = (Raise e, els', lg) ->
  exists done done' lg1 el rest lg2,
    els = done ++ el :: rest /\ els' = done' ++ el :: rest
    /\ pruned_each pk sf done done' lg1
    /\ prune_fails pk sf el e lg2
    /\ lg = lg1 ++ lg2.
Proof.
  induction els as [|el els IH]; intros e els' lg H; cbn [prune_each] in H; [discriminate|].
  destruct (prune pk sf el) as [[el'|e0] lg1] eqn:Hp.
  - destruct (prune_each pk sf els) as [[r2 rest'] lg2] eqn:Hrest.
    injection H as -> <- <-.
    destruct (IH _ _ _ eq_refl) as [done [done' [lga [bad [rest [lgb [-> [-> [Hd [Hf ->]]]]]]]]]].
    exists (el :: done), (el' :: done'), (lg1 ++ lga), bad, rest, lgb.
    repeat split; auto.
    + constructor; [now apply prune_pruned | exact Hd].
    + now rewrite app_assoc.
  - injection H as <- <- <-.
    exists [], [], [], el, els, lg1. repeat split; [constructor | now apply prune_raises].
Qed.

(** X7.  A deletion pass changes nothing but the value under the parent key.
    When it runs to its end, every profiled object (the value itself, or
    each element when it is a list, in order) whose largest child exceeds
    the threshold has lost exactly that child, by [del obj[child]], and has
    one "deleted due to size" line naming it; the other objects are as they
    were and have no line.  When it raises, the elements before the one
    that raised stay pruned in that way, that element and the ones after it
    are untouched, and the last line, if the deletion itself raised, names
    the child that was not deleted.  In every case the top-level keys are
    kept, every line carries a size above the threshold, and a pass that
    writes no line leaves the report as it was. *)
Theorem delete_children_logs_every_deletion report pk sf r report' lg :
  delete_children report pk sf = (r, report', lg) ->
  dict_keys report' = dict_keys report
  /\ (lg = [] -> report' = report)
  /\ Forall (deletion_entry pk sf) lg
  /\ (forall k, k <> pk -> dict_get k report' = dict_get k report)
  /\ (r = Ok tt ->
      exists obj obj',
        dict_get pk report = Some obj /\ dict_get pk report' = Some obj'
        /\ match obj with
           | VList l => exists l', obj' = VList l' /\ pruned_each pk sf l l' lg
           | _ => pruned pk sf obj obj' lg
           end)
  /\ (forall e, r = Raise e ->
      match dict_get pk report with
      | None => report' = report /\ lg = []
      | Some (VList l) =>
          exists done done' lg1 el rest lg2,
            l = done ++ el :: rest
            /\ dict_get pk report' = Some (VList (done' ++ el :: rest))
            /\ pruned_each pk sf done done' lg1
            /\ prune_fails pk sf el e lg2
            /\ lg = lg1 ++ lg2
      | Some obj => report' = report /\ prune_fails pk sf obj e lg
      end).
Proof.
  unfold delete_children. destruct (dict_get pk report) as [v|] eqn:Hget.
  - assert (Hother : forall obj,
               v = obj ->
               match obj with VList _ => False | _ => True end ->
               (let '(r0, lg0) := prune pk sf obj in
                match r0 with
                | Raise e => (Raise e, report, lg0)
                | Ok obj' => (Ok tt, dict_set pk obj' report, lg0)
                end) = (r, report', lg) ->
               dict_keys report' = dict_keys report
               /\ (lg = [] -> report' = report)
               /\ Forall (deletion_entry pk sf) lg
               /\ (forall k, k <> pk -> dict_get k report' = dict_get k report)
               /\ (r = Ok tt ->
                   exists obj0 obj',
                     Some obj = Some obj0 /\ dict_get pk report' = Some obj'
                     /\ pruned pk sf obj0 obj' lg)
               /\ (forall e, r = Raise e -> report' = report /\ prune_fails pk sf obj e lg)).
    { intros obj -> Hshape H. destruct (prune pk sf obj) as [[obj'|e] lg0] eqn:Hp;
        injection H as <- <- <-; destruct (prune_logged _ _ _ _ _ Hp) as [Hsame Hall].
      - split; [now apply dict_keys_set_present with (v0 := obj)|].
        split; [|split; [exact Hall|split; [|split]]].
        + intros Hnil. destruct (Hsame Hnil) as [Heq|[e Heq]]; [|discriminate].
          injection Heq as ->. now apply dict_set_same.
        + intros k Hk. now apply dict_get_set_other.
        + intros _. exists obj, obj'. split; [reflexivity|].
          split; [apply dict_get_set_same | now apply prune_pruned].
        + intros e He. discriminate.
      - split; [reflexivity|]. split; [reflexivity|]. split; [exact Hall|].
        split; [reflexivity|]. split; [discriminate|].
        intros e0 He. injection He as <-. split; [reflexivity | now apply prune_raises]. }
    destruct v as [| | | | |l| | |d];
      try (intros H; destruct (Hother _ eq_refl I H) as [H1 [H2 [H3 [H4 [H5 H6]]]]];
           repeat (split; [assumption|]); split; [|exact H6];
           intros Hr; destruct (H5 Hr) as [obj0 [obj' [Ho [Hg Hp]]]];
           injection Ho as <-; eexists; exists obj'; split; [reflexivity|];
           split; [exact Hg | exact Hp]).
    destruct (prune_each pk sf l) as [[r0 l'] lg0] eqn:Hp. intros H. injection H as <- <- <-.
    destruct (prune_each_logged _ _ _ _ _ _ Hp) as [Hsame Hall].
    split; [now apply dict_keys_set_present with (v0 := VList l)|].
    split; [|split; [exact Hall|split; [|split]]].
    + intros Hnil. rewrite (Hsame Hnil). now apply dict_set_same.
    + intros k Hk. now apply dict_get_set_other.
    + intros ->. exists (VList l), (VList l'). split; [reflexivity|].
      split; [apply dict_get_set_same|]. exists l'. split; [reflexivity|].
      now apply prune_each_pruned.
    + intros e ->. apply prune_each_raises in Hp.
      destruct Hp as [done [done' [lg1 [el [rest [lg2 [-> [-> [Hd [Hf ->]]]]]]]]]].
      exists done, done', lg1, el, rest, lg2. split; [reflexivity|].
      split; [apply dict_get_set_same|]. repeat split; assumption.
  - intros H. injection H as <- <- <-.
    split; [reflexivity|]. split; [reflexivity|]. split; [constructor|].
    split; [reflexivity|]. split; [discriminate|]. intros e _. split; reflexivity.
Qed.

Lemma delete_children_logs_every_deletion_witness :
  exists l l',
    dict_get (KStr "procdump") dumps_document = Some (VList l)
    /\ dict_get (KStr "procdump") dumps_document_pruned = Some (VList l')
    /\ pruned_each (KStr "procdump") 5 l l'
                   [LogChildDeleted (KStr "procdump") (KStr "strings") 10].
Proof.
  destruct (proj1 (proj2 (proj2 (proj2 (proj2
              (delete_children_logs_every_deletion dumps_document (KStr "procdump") 5
                 (Ok tt) dumps_document_pruned
                 [LogChildDeleted (KStr "procdump") (KStr "strings") 10] eq_refl))))) eq_refl)
    as [obj [obj' [Ho [Hg Hm]]]].
  cbn in Ho. injection Ho as <-. destruct Hm as [l' [-> Hp]].
  eexists. exists l'. split; [reflexivity|]. split; [exact Hg | exact Hp].
Defined.

(** ** Every save that stores a document *)

Lemma analysis_insert_one_raises env doc w e w' :
  analysis_insert_one env doc w = (Raise e, w') -> w' = add_op (OpAnalysisInsert doc) w.
Proof.
  unfold analysis_insert_one.
  destruct (insert_verdict env doc) as [[]|e0]; [|intros H; now injection H as _ <-].
  destruct (doc_id doc) as [id|]; [|intros H; now injection H as _ <-].
  destruct (existsb _ _); [intros H; now injection H as _ <- | discriminate].
Qed.

Lemma with_id_analysis doc w doc' w' :
  with_id doc w = (Ok doc', w') -> analysis (db w') = analysis (db w).
Proof.
  intros H. apply with_id_effect in H. destruct H as [[_ [-> _]]|[_ [-> _]]]; reflexivity.
Qed.

Lemma remediation_pass_analysis env report pk sf w p rep w' :
  remediation_pass env report pk sf w = (Ok (p, rep), w') ->
  match p with
  | Stop (FallThrough Remediated) =>
      exists id, analysis (db w') = analysis (db w) ++ [rep]
                 /\ doc_id rep = Some id
                 /\ existsb (has_id id) (analysis (db w)) = false
  | _ => analysis (db w') = analysis (db w)
  end.
Proof.
  unfold remediation_pass.
  destruct (delete_children report pk sf) as [[r rep0] lg].
  unfold try_except, bind, write_log, lift, ret.
  destruct r as [[]|e0]; [|cbn; intros H; injection H as <- _ <-; reflexivity].
  destruct (with_id rep0 (add_log lg w)) as [[rep1|e0] w1] eqn:Hid.
  2:{ unfold with_id in Hid. destruct (dict_mem _ _); discriminate. }
  apply with_id_analysis in Hid. cbn in Hid.
  destruct (analysis_insert_one env rep1 w1) as [[[]|e0] w2] eqn:Hins.
  - intros H. injection H as <- <- <-. apply analysis_insert_one_ok in Hins.
    destruct Hins as [_ [[id [Hd Hf]] ->]]. exists id. cbn. rewrite Hid in *. auto.
  - apply analysis_insert_one_raises in Hins. subst w2.
    destruct (is_InvalidDocument (exn_cls e0));
      [|cbn; intros H; injection H as <- _ <-; exact Hid].
    destruct (startswith (exn_msg e0) "documents must have only string keys");
      [intros H; injection H as <- _ <-; exact Hid|].
    destruct (largest (VDict rep1)) as [[pk' psize]|e'];
      [intros H; injection H as <- _ <-; exact Hid
      | cbn; intros H; injection H as <- _ <-; exact Hid].
Qed.

Lemma remediation_loop_analysis env fuel : forall report pk sf w e rep w',
  remediation_loop env fuel report pk sf w = (Ok (e, rep), w') ->
  match e with
  | FallThrough Remediated =>
      exists id, analysis (db w') = analysis (db w) ++ [rep]
                 /\ doc_id rep = Some id
                 /\ existsb (has_id id) (analysis (db w)) = false
  | _ => analysis (db w') = analysis (db w)
  end.
Proof.
  induction fuel as [|fuel IH]; intros report pk sf w e rep w' H.
  - injection H as <- _ <-. reflexivity.
  - cbn [remediation_loop] in H. apply bind_inv in H.
    destruct H as [[p rep1] [w1 [Hp H]]]. apply remediation_pass_analysis in Hp.
    destruct p as [e1|pk1 sf1].
    + injection H as <- <- <-. destruct e1 as [[]|o|]; exact Hp.
    + apply IH in H. rewrite Hp in H. exact H.
Qed.

Lemma update_key_ok env report id k w w' :
  update_key env report id k w = (Ok tt, w') ->
  exists v, dict_get k report = Some v
            /\ (analysis (db w') = update_first (has_id id) (dict_set k v) (analysis (db w))
                \/ analysis (db w') = analysis (db w)).
Proof.
  unfold update_key, try_except.
  destruct (dict_get k report) as [v|]; [|discriminate].
  unfold analysis_update_one. destruct (update_verdict env k v) as [[]|e].
  - intros H. injection H as <-. exists v. split; [reflexivity | now left].
  - destruct (is_InvalidDocument (exn_cls e)); [|discriminate].
    intros H. injection H as <-. exists v. split; [reflexivity | now right].
Qed.

Lemma update_loop_stored env report id old (Q : pydict -> Prop) :
  (forall d k v, Q d -> dict_get k report = Some v -> Q (dict_set k v d)) ->
  forall keys doc w w',
    py_for keys (update_key env report id) w = (Ok tt, w') ->
    ~ In (KStr "_id") keys ->
    existsb (has_id id) old = false ->
    has_id id doc = true ->
    analysis (db w) = old ++ [doc] ->
    Q doc ->
    exists doc', analysis (db w') = old ++ [doc'] /\ has_id id doc' = true /\ Q doc'.
Proof.
  intros HQ. induction keys as [|k keys IH]; intros doc w w' H Hno Hold Hdoc Ha Hq.
  - injection H as <-. eauto.
  - cbn [py_for] in H. apply bind_inv in H. destruct H as [[] [w1 [Hk H]]].
    apply update_key_ok in Hk. destruct Hk as [v [Hv [Hu|Hu]]].
    + assert (Hne : k <> KStr "_id") by (intros ->; apply Hno; now left).
      apply (IH (dict_set k v doc) w1 w' H).
      * intros Hin. apply Hno. now right.
      * exact Hold.
      * now rewrite has_id_set_other.
      * rewrite Hu, Ha. now apply update_first_last.
      * now apply HQ with (k := k).
    + apply (IH doc w1 w' H); auto.
      * intros Hin. apply Hno. now right.
      * congruence.
Qed.

Lemma loop_saver_stored env report w w' info :
  loop_saver env report w = (Ok tt, w') ->
  NoDup (dict_keys report) ->
  dict_get (KStr "info") report = Some info ->
  exists stored id,
    analysis (db w') = analysis (db w) ++ [stored]
    /\ doc_id stored = Some id
    /\ existsb (has_id id) (analysis (db w)) = false
    /\ dict_get (KStr "info") stored = Some info
    /\ forall k v, dict_get k stored = Some v -> k = KStr "_id" \/ dict_get k report = Some v.
Proof.
  intros H Hnd Hinfo. unfold loop_saver in H.
  assert (E : existsb (key_eqb (KStr "info")) (dict_keys report) = true).
  { apply existsb_key_in. eapply dict_get_some_in; eauto. }
  rewrite E in H. cbn [negb] in H.
  rewrite (bind_ok _ _ _ _ _ (lift_getitem_ok _ _ _ _ Hinfo)) in H.
  rewrite (bind_ok _ _ _ _ _ (with_id_minimal info w)) in H.
  apply bind_inv in H. destruct H as [[] [wa [Hins H]]].
  apply analysis_insert_one_ok in Hins. destruct Hins as [_ [[id [Hd Hf]] ->]].
  cbn in Hd. injection Hd as <-. cbn [db set_db set_next_oid analysis] in Hf.
  apply bind_inv in H. destruct H as [id [wb [Hget H]]].
  cbn in Hget. injection Hget as <- <-.
  fold (remaining_keys report) in H.
  destruct (update_loop_stored env report (VOid (next_oid (db w))) (analysis (db w))
              (fun d => dict_get (KStr "info") d = Some info
                        /\ forall k v, dict_get k d = Some v ->
                                       k = KStr "_id" \/ dict_get k report = Some v))
    with (keys := remaining_keys report) (doc := minimal_document info w)
         (w := set_db (set_analysis (analysis (db w) ++ [minimal_document info w]))
                      (add_op (OpAnalysisInsert (minimal_document info w))
                              (set_db (set_next_oid (N.succ (next_oid (db w)))) w)))
         (w' := w')
    as [stored [Ha [Hid [Qi Qs]]]].
  - intros d k v [Qi Qs] Hv. split.
    + destruct (key_eqb_spec (KStr "info") k) as [<-|Hne].
      * rewrite dict_get_set_same. congruence.
      * now rewrite dict_get_set_other.
    + intros k' v' Hget. destruct (key_eqb_spec k' k) as [->|Hne].
      * rewrite dict_get_set_same in Hget. right. congruence.
      * rewrite dict_get_set_other in Hget by exact Hne. auto.
  - exact H.
  - intros Hin. apply (remaining_keys_in _ _ Hnd) in Hin. tauto.
  - exact Hf.
  - unfold has_id, minimal_document, doc_id. cbn. now rewrite N.eqb_refl.
  - reflexivity.
  - split; [reflexivity|]. intros k v Hget. cbn in Hget.
    destruct (key_eqb_spec k (KStr "info")) as [->|_]; [right; congruence|].
    destruct (key_eqb_spec k (KStr "_id")) as [->|_]; [now left | discriminate].
  - exists stored, (VOid (next_oid (db w))). split; [exact Ha|].
    split; [now apply has_id_iff|]. auto.
Qed.

Lemma dict_keys_set_in x k v d :
  In x (dict_keys (dict_set k v d)) -> x = k \/ In x (dict_keys d).
Proof.
  induction d as [|[k0 v0] d IH]; simpl.
  - intros [<-|[]]. now left.
  - destruct (key_eqb k k0); simpl; intros [<-|Hin]; auto.
    destruct (IH Hin); auto.
Qed.

Lemma NoDup_dict_set k v d : NoDup (dict_keys d) -> NoDup (dict_keys (dict_set k v d)).
Proof.
  induction d as [|[k0 v0] d IH]; simpl; intros Hnd.
  - constructor; [intros [] | constructor].
  - inversion Hnd as [|? ? Hnotin Hnd']; subst.
    destruct (key_eqb_spec k k0) as [->|Hne]; simpl; [exact Hnd|].
    constructor; [|auto]. intros Hin. apply dict_keys_set_in in Hin.
    destruct Hin as [->|Hin]; [congruence | contradiction].
Qed.

Lemma store_report_saving env options fuel report :
  stable saving_step (store_report env options fuel report).
Proof.
  unfold store_report. saving_steps.
  destruct (_ || _); saving_steps.
  - apply loop_saver_saving.
  - match goal with |- stable _ (let '(_, _) := ?x in _) => destruct x end.
    destruct (negb _); [saving_steps | apply remediation_loop_saving].
Qed.

(** What the saving phase adds to [analysis] on the exits that store. *)
Lemma store_report_stores env options fuel report w1 e rep ws info :
  store_report env options fuel report w1 = (Ok (e, rep), ws) ->
  stores e = true ->
  NoDup (dict_keys report) ->
  dict_get (KStr "info") report = Some info ->
  exists stored id,
    analysis (db ws) = analysis (db w1) ++ [stored]
    /\ doc_id stored = Some id
    /\ existsb (has_id id) (analysis (db w1)) = false
    /\ match e with
       | FallThrough Saved =>
           stored = rep /\ ops ws = ops w1 ++ [OpAnalysisInsert rep]
           /\ dict_get (KStr "info") rep = Some info
       | EarlyReturn LoopSaved =>
           dict_get (KStr "info") stored = Some info
           /\ dict_get (KStr "info") rep = Some info
           /\ forall k v, dict_get k stored = Some v ->
                          k = KStr "_id" \/ dict_get k rep = Some v
       | _ => stored = rep
       end.
Proof.
  intros H He Hnd Hinfo. unfold store_report in H.
  apply bind_inv in H. destruct H as [rid [w1' [Hid H]]].
  assert (Ha1 : analysis (db w1') = analysis (db w1)) by now apply with_id_analysis in Hid.
  assert (Ho1 : ops w1' = ops w1).
  { apply with_id_effect in Hid. destruct Hid as [[_ [-> _]]|[_ [-> _]]]; reflexivity. }
  assert (Hrid : NoDup (dict_keys rid) /\ dict_get (KStr "info") rid = Some info).
  { apply with_id_effect in Hid. destruct Hid as [[-> _]|[-> _]]; [auto|].
    split; [now apply NoDup_dict_set|]. now rewrite dict_get_set_other. }
  destruct Hrid as [Hnd' Hinfo'].
  unfold try_except in H.
  destruct ((analysis_insert_one env rid;; ret (FallThrough Saved, rid)) w1')
    as [[x|e0] w2] eqn:Hins.
  - apply bind_inv in Hins. destruct Hins as [[] [w3 [Hins Hret]]].
    injection Hret as <- <-. injection H as <- <- <-.
    apply analysis_insert_one_ok in Hins. destruct Hins as [_ [[id [Hd Hf]] ->]].
    exists rid, id. cbn. rewrite Ha1 in *. rewrite Ho1. repeat split; auto.
  - assert (Hw2 : w2 = add_op (OpAnalysisInsert rid) w1').
    { unfold bind in Hins. destruct (analysis_insert_one env rid w1') as [[[]|e1] w3] eqn:Hi.
      - discriminate.
      - injection Hins as _ <-. now apply analysis_insert_one_raises in Hi. }
    subst w2.
    destruct (is_InvalidDocument (exn_cls e0)); [|discriminate].
    destruct (_ || _).
    + apply bind_inv in H. destruct H as [[] [w3 [Hls Hret]]].
      injection Hret as <- <- <-.
      destruct (loop_saver_stored _ _ _ _ _ Hls Hnd' Hinfo')
        as [stored [id [Ha [Hd [Hf [Hi Hs]]]]]].
      exists stored, id. cbn [db add_op analysis] in Ha, Hf. rewrite Ha1 in *.
      repeat (split; [assumption|]). exact Hs.
    + apply bind_inv in H. destruct H as [[pk psize] [w3 [Hl H]]].
      injection Hl as _ <-.
      destruct (negb (fix_large_docs options)).
      * apply bind_inv in H. destruct H as [[] [w4 [_ Hret]]].
        injection Hret as <- _ _. discriminate.
      * pose proof (remediation_loop_exits _ _ _ _ _ _ _ _ _ H) as Hex.
        apply remediation_loop_analysis in H.
        destruct Hex as [-> | [-> | [-> | ->]]]; try discriminate.
        destruct H as [id [Ha [Hd Hf]]]. exists rep, id.
        cbn [db add_op analysis] in Ha, Hf. rewrite Ha1 in *. repeat split; auto.
Qed.

(** The eviction of a prepared report, from a store with unique
    identifiers. *)
Lemma prepare_evicts env options results w report w1 task :
  ids_unique (analysis (db w)) ->
  prepare env options results w = (Ok report, w1) ->
  report_task report = Ok (VInt task) ->
  let found := filter (task_matches task) (analysis (db w)) in
  analysis (db w1) = filter (fun d => negb (task_matches task d)) (analysis (db w))
  /\ (forall c, In c (calls (db w1)) -> id_in (flat_map referenced_calls found) c = false)
  /\ exists pre,
       ops w1 = ops w ++ pre ++ OpAnalysisFind task :: flat_map eviction_ops found
       /\ forallb quiet_op pre = true.
Proof.
  intros Hu Hprep Htask found.
  apply prepare_effect in Hprep.
  destruct Hprep as [report0 [tv [task' [pre [-> [Ht [Hi [Ha [Hc [Ho [Hq Hl]]]]]]]]]]].
  apply report_task_sanitized in Htask.
  rewrite Htask in Ht. injection Ht as <-. cbn in Hi. injection Hi as <-.
  fold found in Ha, Hc, Ho.
  unfold found in Ha. rewrite delete_found_documents in Ha by exact Hu.
  split; [exact Ha|]. split; [exact Hc|]. exists pre. split; [exact Ho | exact Hq].
Qed.

Lemma task_matches_info task d d' :
  dict_get (KStr "info") d' = dict_get (KStr "info") d ->
  task_matches task d' = task_matches task d.
Proof. unfold task_matches. now intros ->. Qed.

(** One save that stores, from a store whose documents have distinct
    identifiers. *)
Lemma run_stores_effect env options fuel results w report w1 e rep w2 task :
  ids_unique (analysis (db w)) ->
  prepare env options results w = (Ok report, w1) ->
  NoDup (dict_keys report) ->
  report_task report = Ok (VInt task) ->
  run env options fuel results w = (Ok (e, rep), w2) ->
  stores e = true ->
  let found := filter (task_matches task) (analysis (db w)) in
  exists stored,
    (exists pre writes,
        ops w2 = ops w ++ pre ++ OpAnalysisFind task :: flat_map eviction_ops found
                       ++ writes ++ closing_ops e
        /\ forallb quiet_op pre = true
        /\ forallb write_op writes = true
        /\ (e = FallThrough Saved -> writes = [OpAnalysisInsert rep]))
    /\ analysis (db w2)
       = filter (fun d => negb (task_matches task d)) (analysis (db w)) ++ [stored]
    /\ (task_matches task stored = true ->
        filter (task_matches task) (analysis (db w2)) = [stored])
    /\ match e with
       | FallThrough Saved => stored = rep /\ task_matches task stored = true
       | EarlyReturn LoopSaved =>
           task_matches task stored = true
           /\ dict_get (KStr "info") stored = dict_get (KStr "info") rep
           /\ forall k v, dict_get k stored = Some v ->
                          k = KStr "_id" \/ dict_get k rep = Some v
       | _ => stored = rep
       end
    /\ (forall old id c,
          In old found -> In id (referenced_calls old) -> In c (calls (db w2)) ->
          doc_id c <> Some id)
    /\ ids_unique (analysis (db w2)).
Proof.
  intros Hu Hprep Hnd Htask Hrun He found.
  apply run_inv in Hrun. destruct Hrun as [report' [w1' [ws [Hprep' [Hstore Hw2]]]]].
  rewrite Hprep in Hprep'. injection Hprep' as <- <-.
  destruct (prepare_evicts _ _ _ _ _ _ _ Hu Hprep Htask) as [Ha [Hc [pre [Ho Hq]]]].
  fold found in Hc, Ho.
  assert (Hinfo : exists info, dict_get (KStr "info") report = Some info).
  { unfold report_task in Htask. cbn [py_getitem] in Htask.
    destruct (dict_get (KStr "info") report) as [info|]; [eauto | discriminate]. }
  destruct Hinfo as [info Hinfo].
  assert (Hm : forall d, dict_get (KStr "info") d = Some info -> task_matches task d = true).
  { intros d Hd. rewrite (task_matches_info task report d) by congruence.
    now apply report_task_matches. }
  destruct (store_report_saving _ _ _ _ _ _ _ Hstore) as [Sc [_ [_ [_ [writes [So Sw]]]]]].
  destruct (store_report_stores _ _ _ _ _ _ _ _ _ Hstore He Hnd Hinfo)
    as [stored [id [Sa [Sd [Sf Se]]]]].
  assert (Hw : analysis (db w2) = analysis (db ws) /\ calls (db w2) = calls (db ws)
               /\ ops w2 = ops ws ++ closing_ops e).
  { subst w2. destruct e as [o|o|]; cbn; rewrite ?app_nil_r; repeat split. }
  destruct Hw as [Wa [Wc Wo]].
  assert (Hu2 : ids_unique (filter (fun d => negb (task_matches task d)) (analysis (db w))
                            ++ [stored])).
  { rewrite Ha in Sf. eapply ids_unique_snoc; eauto. now apply ids_unique_filter. }
  exists stored. rewrite Wa, Wo, Sa, So, Ha, Ho.
  split; [|split; [reflexivity|split; [|split; [|split; [|exact Hu2]]]]].
  - exists pre, writes. rewrite <- !app_assoc. cbn [app].
    split; [reflexivity|]. split; [exact Hq|]. split; [exact Sw|].
    intros ->. destruct Se as [_ [Sops _]]. rewrite So in Sops.
    now apply app_inv_head in Sops.
  - intros Hs. rewrite filter_app, filter_matches_none. cbn. now rewrite Hs.
  - destruct e as [[]|[]|]; try discriminate.
    + destruct Se as [-> [_ Hi]]. split; [reflexivity | now apply Hm].
    + exact Se.
    + destruct Se as [Hi [Hr Hs]]. split; [now apply Hm|]. split; [congruence | exact Hs].
  - intros old i c Hold Hi Hin. rewrite Wc, Sc in Hin.
    eapply id_in_false; [apply Hc; exact Hin|].
    apply in_flat_map. exists old. split; assumption.
Qed.

Lemma filter_others_twice task (A : list pydict) :
  filter (fun d => negb (task_matches task d)) (filter (fun d => negb (task_matches task d)) A)
  = filter (fun d => negb (task_matches task d)) A.
Proof.
  rewrite filter_filter. apply filter_ext_in_bool. intros d _.
  now destruct (task_matches task d).
Qed.

(** C1.  Every save that stores a document for task [task] evicts first and
    writes afterwards, whether the direct insert is accepted, the
    remediation loop ends with an accepted retry, or [loop_saver] stores the
    report section by section.  [report] is the document as lines 139-175
    prepare it, with [info.id = task].  The store calls the save adds are
    quiet ones, the query for the task, then for every document found the
    bulk deletes of the call records of its process records followed by the
    delete of the document, and only then inserts and updates of
    [analysis].  Afterwards the documents of the other tasks are untouched
    and one document has been added: the report itself (pruned, after a
    remediation), or, after [loop_saver], a document with the report's
    ["info"] and no section that is not the report's; when it carries the
    task it is the only document of the task, and no call record referenced
    by an evicted document remains.  A second save that stores leaves
    exactly the document of the second save, and no call record referenced
    by the first.

    The last part is the case the code misses.  When [loop_saver] could not
    store the ["behavior"] section, the next save of the task raises
    [KeyError('behavior')] in the eviction: the document of the first save
    stays, and so does the call record the first save stored. *)
Theorem run_replaces_previous :
  (forall env options fuel results w report w1 e rep w2 task,
      ids_unique (analysis (db w)) ->
      prepare env options results w = (Ok report, w1) ->
      NoDup (dict_keys report) ->
      report_task report = Ok (VInt task) ->
      run env options fuel results w = (Ok (e, rep), w2) ->
      stores e = true ->
      let found := filter (task_matches task) (analysis (db w)) in
      exists stored,
        (exists pre writes,
            ops w2 = ops w ++ pre ++ OpAnalysisFind task :: flat_map eviction_ops found
                           ++ writes ++ closing_ops e
            /\ forallb quiet_op pre = true
            /\ forallb write_op writes = true
            /\ (e = FallThrough Saved -> writes = [OpAnalysisInsert rep]))
        /\ analysis (db w2)
           = filter (fun d => negb (task_matches task d)) (analysis (db w)) ++ [stored]
        /\ (task_matches task stored = true ->
            filter (task_matches task) (analysis (db w2)) = [stored])
        /\ match e with
           | FallThrough Saved => stored = rep /\ task_matches task stored = true
           | EarlyReturn LoopSaved =>
               task_matches task stored = true
               /\ dict_get (KStr "info") stored = dict_get (KStr "info") rep
               /\ forall k v, dict_get k stored = Some v ->
                              k = KStr "_id" \/ dict_get k rep = Some v
           | _ => stored = rep
           end
        /\ (forall old id c,
              In old found -> In id (referenced_calls old) -> In c (calls (db w2)) ->
              doc_id c <> Some id)
        /\ (forall options' fuel' results' report' w1' e' rep' w3,
              task_matches task stored = true ->
              prepare env options' results' w2 = (Ok report', w1') ->
              NoDup (dict_keys report') ->
              report_task report' = Ok (VInt task) ->
              run env options' fuel' results' w2 = (Ok (e', rep'), w3) ->
              stores e' = true ->
              exists stored',
                analysis (db w3)
                = filter (fun d => negb (task_matches task d)) (analysis (db w)) ++ [stored']
                /\ (task_matches task stored' = true ->
                    filter (task_matches task) (analysis (db w3)) = [stored'])
                /\ match e' with
                   | FallThrough Saved => stored' = rep' /\ task_matches task stored' = true
                   | EarlyReturn LoopSaved =>
                       task_matches task stored' = true
                       /\ dict_get (KStr "info") stored' = dict_get (KStr "info") rep'
                       /\ forall k v, dict_get k stored' = Some v ->
                                      k = KStr "_id" \/ dict_get k rep' = Some v
                   | _ => stored' = rep'
                   end
                /\ forall id c,
                     In id (referenced_calls stored) -> In c (calls (db w3)) ->
                     doc_id c <> Some id))
  /\ (exists rep w2 w3,
        run reference_env [] 0 unencodable_behavior_report empty_world
        = (Ok (EarlyReturn LoopSaved, rep), w2)
        /\ analysis (db w2) = [partial_document]
        /\ dict_get (KStr "behavior") partial_document = None
        /\ In first_call_record (calls (db w2))
        /\ run reference_env [] 0 unencodable_behavior_report w2
           = (Raise (Exn KeyError "behavior"), w3)
        /\ analysis (db w3) = [partial_document]
        /\ In first_call_record (calls (db w3))).
Proof.
  split.
  - intros env options fuel results w report w1 e rep w2 task Hu Hprep Hnd Htask Hrun He found.
    destruct (run_stores_effect _ _ _ _ _ _ _ _ _ _ _ Hu Hprep Hnd Htask Hrun He)
      as [stored [Hops [Ha [Hf [Hm [Hc Hu2]]]]]].
    fold found in Hops, Hc.
    exists stored. repeat (split; [assumption|]).
    intros options' fuel' results' report' w1' e' rep' w3 Hs Hprep' Hnd' Htask' Hrun' He'.
    destruct (run_stores_effect _ _ _ _ _ _ _ _ _ _ _ Hu2 Hprep' Hnd' Htask' Hrun' He')
      as [stored' [_ [Ha' [Hf' [Hm' [Hc' _]]]]]].
    exists stored'. rewrite Ha in Ha'.
    rewrite filter_app, filter_others_twice in Ha'. cbn [filter] in Ha'.
    rewrite Hs in Ha'. cbn [negb] in Ha'. rewrite app_nil_r in Ha'.
    split; [exact Ha'|]. split; [exact Hf'|]. split; [exact Hm'|].
    intros id c. apply Hc'. rewrite (Hf Hs). now left.
  - do 3 eexists.
    split; [vm_compute; reflexivity|].
    split; [reflexivity|]. split; [reflexivity|]. split; [now left|].
    split; [vm_compute; reflexivity|].
    split; [reflexivity|]. now left.
Qed.

Lemma run_replaces_previous_witness :
  exists stored,
    analysis (db second_world) = [stored]
    /\ filter (task_matches 42) (analysis (db second_world)) = [stored]
    /\ stored = second_report.
Proof.
  assert (Hu : ids_unique (analysis (db saved_world))).
  { split; repeat constructor; simpl; intuition discriminate. }
  assert (Hnd : NoDup (dict_keys second_prepared)).
  { repeat constructor; simpl; intuition discriminate. }
  destruct (proj1 run_replaces_previous reference_env [] 0%nat small_report saved_world
              second_prepared second_prepared_world (FallThrough Saved) second_report
              second_world 42 Hu eq_refl Hnd eq_refl eq_refl eq_refl)
    as [stored [_ [Ha [Hf [[Hs Hm] _]]]]].
  exists stored. split; [exact Ha|]. split; [exact (Hf Hm) | exact Hs].
Defined.
